(** * Coffee shop backend: the drinks API of [backend/src/api.py]

    A shallow embedding of the Flask application: the JSON values and the
    [json.dumps] / [json.loads] codec the handlers call, the Drink table,
    the authorization guard, the five route handlers and the error
    handlers, followed by the properties of the API. *)

From Stdlib Require Import ZArith List String Ascii Bool Lia Arith.
From Stdlib Require Import DecimalPos DecimalZ DecimalFacts.
From Stdlib Require Import SpecFloat.
From Stdlib Require Import Permutation.
Import ListNotations.

Local Open Scope Z_scope.

(** ** JSON values and Python's [json] codec *)

Module Json.

(** The Python values that [request.get_json()] hands to a handler and that
    [jsonify] sends back.  [JNull] is Python's [None]; [JNum] is a Python
    int and [JFloat] a Python float, a binary64 number; a dict is the list
    of its items in insertion order (its keys are pairwise distinct, see
    [wf]).  Text is a [string] holding the UTF-8 bytes of the Python str,
    a lone surrogate taking the three bytes of its code point. *)
Unset Elimination Schemes.
Inductive json : Type :=
| JNull
| JBool (b : bool)
| JNum (z : Z)
| JFloat (x : spec_float)
| JStr (s : string)
| JArr (items : list json)
| JObj (members : list (string * json)).
Set Elimination Schemes.

Section Induction.
Variable P : json -> Prop.
Hypothesis Hnull : P JNull.
Hypothesis Hbool : forall b, P (JBool b).
Hypothesis Hnum : forall z, P (JNum z).
Hypothesis Hfloat : forall x, P (JFloat x).
Hypothesis Hstr : forall s, P (JStr s).
Hypothesis Harr : forall l, Forall P l -> P (JArr l).
Hypothesis Hobj : forall m, Forall (fun kv => P (snd kv)) m -> P (JObj m).

Fixpoint json_nested_ind (v : json) : P v :=
  match v with
  | JNull => Hnull
  | JBool b => Hbool b
  | JNum z => Hnum z
  | JFloat x => Hfloat x
  | JStr s => Hstr s
  | JArr l =>
      Harr l ((fix go (l : list json) : Forall P l :=
                 match l with
                 | [] => Forall_nil _
                 | x :: l' => Forall_cons x (json_nested_ind x) (go l')
                 end) l)
  | JObj m =>
      Hobj m ((fix go (m : list (string * json))
                 : Forall (fun kv => P (snd kv)) m :=
                 match m with
                 | [] => Forall_nil _
                 | kv :: m' =>
                     Forall_cons kv (json_nested_ind (snd kv)) (go m')
                 end) m)
  end.
End Induction.

(** Python truthiness of a value: [if data], [not data]. *)
Definition truthy (v : json) : bool :=
  match v with
  | JNull => false
  | JBool b => b
  | JNum z => negb (z =? 0)
  | JFloat x => match x with S754_zero _ => false | _ => true end
  | JStr s => match s with EmptyString => false | String _ _ => true end
  | JArr l => match l with [] => false | _ => true end
  | JObj m => match m with [] => false | _ => true end
  end.

(** [d.get(key, None)] on the items of a dict. *)
Fixpoint dict_get (key : string) (m : list (string * json)) : json :=
  match m with
  | [] => JNull
  | (k, v) :: m' => if String.eqb k key then v else dict_get key m'
  end.

(** [key in d]. *)
Fixpoint dict_has (key : string) (m : list (string * json)) : bool :=
  match m with
  | [] => false
  | (k, _) :: m' => String.eqb k key || dict_has key m'
  end.

(** [d[key] = v]: an existing key keeps its place, a new one goes last. *)
Fixpoint dict_set (key : string) (v : json) (m : list (string * json))
  : list (string * json) :=
  match m with
  | [] => [(key, v)]
  | (k, w) :: m' =>
      if String.eqb k key then (k, v) :: m' else (k, w) :: dict_set key v m'
  end.

(** [dict(pairs)]. *)
Definition dict_of_pairs (ps : list (string * json)) : list (string * json) :=
  fold_left (fun m kv => dict_set (fst kv) (snd kv) m) ps [].

(** *** Text *)

Local Open Scope char_scope.
Local Open Scope Z_scope.

(** The UTF-8 bytes of a code point. *)
Definition utf8 (c : N) : list ascii :=
  if (c <? 128)%N then [ascii_of_N c]
  else if (c <? 2048)%N then
    [ascii_of_N (192 + c / 64); ascii_of_N (128 + c mod 64)]
  else if (c <? 65536)%N then
    [ascii_of_N (224 + c / 4096); ascii_of_N (128 + (c / 64) mod 64);
     ascii_of_N (128 + c mod 64)]
  else
    [ascii_of_N (240 + c / 262144); ascii_of_N (128 + (c / 4096) mod 64);
     ascii_of_N (128 + (c / 64) mod 64); ascii_of_N (128 + c mod 64)].

(** The payload of a continuation byte. *)
Definition continuation (b : ascii) : option N :=
  let n := N_of_ascii b in
  if ((128 <=? n) && (n <? 192))%N then Some (n - 128)%N else None.

(** The code points of a text.  A byte that starts no sequence counts for
    itself; [text_ok] leaves such texts out. *)
Fixpoint code_points (s : list ascii) : list N :=
  match s with
  | [] => []
  | b0 :: r0 =>
      let n0 := N_of_ascii b0 in
      let single := n0 :: code_points r0 in
      if (n0 <? 192)%N then single
      else
        match r0 with
        | [] => single
        | b1 :: r1 =>
            match continuation b1 with
            | None => single
            | Some x1 =>
                if (n0 <? 224)%N then
                  ((n0 - 192) * 64 + x1)%N :: code_points r1
                else
                  match r1 with
                  | [] => single
                  | b2 :: r2 =>
                      match continuation b2 with
                      | None => single
                      | Some x2 =>
                          if (n0 <? 240)%N then
                            (((n0 - 224) * 64 + x1) * 64 + x2)%N
                              :: code_points r2
                          else
                            match r2 with
                            | [] => single
                            | b3 :: r3 =>
                                match continuation b3 with
                                | None => single
                                | Some x3 =>
                                    ((((n0 - 240) * 64 + x1) * 64 + x2) * 64
                                     + x3)%N :: code_points r3
                                end
                            end
                      end
                  end
            end
        end
  end.

Definition is_high (c : N) : bool := ((55296 <=? c) && (c <=? 56319))%N.
Definition is_low (c : N) : bool := ((56320 <=? c) && (c <=? 57343))%N.

(** No high surrogate is followed by a low one: such a pair is one code
    point of a Python str, never two. *)
Fixpoint no_pair (cps : list N) : bool :=
  match cps with
  | [] => true
  | c :: rest =>
      match rest with
      | [] => true
      | c' :: _ => negb (is_high c && is_low c') && no_pair rest
      end
  end.

(** The strings that hold a Python str: the bytes are the UTF-8 of code
    points below 0x110000. *)
Definition text_ok (s : string) : bool :=
  let cps := code_points (list_ascii_of_string s) in
  String.eqb (string_of_list_ascii (flat_map utf8 cps)) s &&
  forallb (fun c => (c <? 1114112)%N) cps && no_pair cps.

(** *** Floats: [float(text)] and [float.__repr__] *)

(** [num/den >= 2^d], for positive [num] and [den]. *)
Definition above_power2 (num den d : Z) : bool :=
  if 0 <=? d then den * 2 ^ d <=? num else den <=? num * 2 ^ (- d).

(** The binary64 number nearest to [num/den], ties to even, for positive
    [num] and [den]: what [float] makes of a decimal literal.  The result
    is [m * 2^e] with 53 bits in [m], fewer in the subnormal range where
    [e] is -1074; what lies above the largest number is an infinity. *)
Definition binary64_of_fraction (negative : bool) (num den : Z) : spec_float :=
  let d := Z.log2 num - Z.log2 den in
  let k := if above_power2 num den d then d else d - 1 in
  let e := Z.max (k - 52) (-1074) in
  let (n', d') := if 0 <=? e then (num, den * 2 ^ e)
                  else (num * 2 ^ (- e), den) in
  let (q, r) := Z.div_eucl n' d' in
  let q := if 2 * r <? d' then q
           else if 2 * r =? d' then (if Z.even q then q else q + 1)
           else q + 1 in
  let (q, e) := if q =? 2 ^ 53 then (2 ^ 52, e + 1) else (q, e) in
  if q =? 0 then S754_zero negative
  else if 971 <? e then S754_infinity negative
  else S754_finite negative (Z.to_pos q) e.

(** The float of the decimal [D * 10^E], [D] not negative. *)
Definition float_of_decimal (negative : bool) (D E : Z) : spec_float :=
  if D =? 0 then S754_zero negative
  else if 0 <=? E then binary64_of_fraction negative (D * 10 ^ E) 1
  else binary64_of_fraction negative D (10 ^ (- E)).

Definition float_eqb (x y : spec_float) : bool :=
  match x, y with
  | S754_zero s, S754_zero s' => Bool.eqb s s'
  | S754_infinity s, S754_infinity s' => Bool.eqb s s'
  | S754_nan, S754_nan => true
  | S754_finite s m e, S754_finite s' m' e' =>
      Bool.eqb s s' && (m =? m')%positive && (e =? e')
  | _, _ => false
  end.

(** [num/den < 10^k]. *)
Definition below_power10 (num den k : Z) : bool :=
  if 0 <=? k then num <? den * 10 ^ k else num * 10 ^ (- k) <? den.

Fixpoint find_decpt (fuel : nat) (num den k : Z) : Z :=
  match fuel with
  | O => k
  | S f =>
      if below_power10 num den k then k else find_decpt f num den (k + 1)
  end.

(** The position of the decimal point of [num/den]: the [k] with
    [10^(k-1) <= num/den < 10^k], found from an estimate below it. *)
Definition decimal_point (num den : Z) : Z :=
  let b := Z.log2 num - Z.log2 den in
  find_decpt 8 num den ((b - 1) * 30103 / 100000 - 1).

(** The [n]-digit decimal, one of the two around [num/den], that reads
    back as the float [x]: the nearer one when both do.  Seventeen digits
    are always enough, and there the nearer one is taken as it is. *)
Definition candidate (negative : bool) (x : spec_float)
    (num den decpt n : Z) : option Z :=
  let s := n - decpt in
  let (a, b) := if 0 <=? s then (num * 10 ^ s, den)
                else (num, den * 10 ^ (- s)) in
  let (lo, r) := Z.div_eucl a b in
  let hi := lo + 1 in
  let ok c := float_eqb (float_of_decimal negative c (decpt - n)) x in
  match ok lo, ok hi with
  | true, true =>
      Some (if 2 * r <? b then lo
            else if b <? 2 * r then hi
            else if Z.even lo then lo else hi)
  | true, false => Some lo
  | false, true => Some hi
  | false, false =>
      if 17 <=? n then Some (if 2 * r <? b then lo else hi) else None
  end.

(** The shortest decimal that reads back as [x], with its number of
    digits. *)
Fixpoint shortest (fuel : nat) (negative : bool) (x : spec_float)
    (num den decpt n : Z) : Z * Z :=
  match candidate negative x num den decpt n with
  | Some c => (c, n)
  | None =>
      match fuel with
      | O => (0, n)
      | S f => shortest f negative x num den decpt (n + 1)
      end
  end.

Fixpoint uint_chars (d : Decimal.uint) : list ascii :=
  match d with
  | Decimal.Nil => []
  | Decimal.D0 d' => "0" :: uint_chars d'
  | Decimal.D1 d' => "1" :: uint_chars d'
  | Decimal.D2 d' => "2" :: uint_chars d'
  | Decimal.D3 d' => "3" :: uint_chars d'
  | Decimal.D4 d' => "4" :: uint_chars d'
  | Decimal.D5 d' => "5" :: uint_chars d'
  | Decimal.D6 d' => "6" :: uint_chars d'
  | Decimal.D7 d' => "7" :: uint_chars d'
  | Decimal.D8 d' => "8" :: uint_chars d'
  | Decimal.D9 d' => "9" :: uint_chars d'
  end.

(** [int.__repr__]. *)
Definition encode_int (z : Z) : list ascii :=
  match Z.to_int z with
  | Decimal.Pos d => uint_chars d
  | Decimal.Neg d => "-" :: uint_chars d
  end.

Fixpoint drop_zeros (s : list ascii) : list ascii :=
  match s with
  | c :: r => if Ascii.eqb c "0" then drop_zeros r else s
  | [] => []
  end.

Definition strip_trailing_zeros (s : list ascii) : list ascii :=
  rev (drop_zeros (rev s)).

Definition zeros (k : Z) : list ascii := repeat "0" (Z.to_nat k).

(** The exponent of the scientific notation: a sign and two digits at
    least. *)
Definition exponent_chars (e : Z) : list ascii :=
  let digits := encode_int (Z.abs e) in
  (if e <? 0 then "-" else "+") ::
  match digits with
  | [d] => ["0"; d]
  | _ => digits
  end.

(** The digits [0.d1d2...dn * 10^decpt] as [repr] lays them out: with an
    exponent when [decpt] is above 16 or below -3, in positional notation
    otherwise, ending in [.0] when there is no fraction. *)
Definition layout (digits : list ascii) (decpt : Z) : list ascii :=
  let n := Z.of_nat (List.length digits) in
  if (decpt <=? -4) || (16 <? decpt) then
    match digits with
    | [] => []
    | d :: rest =>
        (match rest with
         | [] => [d]
         | _ :: _ => d :: "." :: rest
         end) ++ "e" :: exponent_chars (decpt - 1)
    end
  else if decpt <=? 0 then "0" :: "." :: zeros (- decpt) ++ digits
  else if decpt <? n then
    firstn (Z.to_nat decpt) digits ++ "." :: skipn (Z.to_nat decpt) digits
  else digits ++ zeros (decpt - n) ++ ["."; "0"].

Definition sign_chars (negative : bool) : list ascii :=
  if negative then ["-"] else [].

(** [float.__repr__], and the names [json.dumps] has for the numbers that
    are not finite. *)
Definition float_repr (x : spec_float) : list ascii :=
  match x with
  | S754_nan => ["N"; "a"; "N"]
  | S754_infinity s =>
      sign_chars s ++ ["I"; "n"; "f"; "i"; "n"; "i"; "t"; "y"]
  | S754_zero s => sign_chars s ++ ["0"; "."; "0"]
  | S754_finite s m e =>
      let (num, den) := if 0 <=? e then (Z.pos m * 2 ^ e, 1)
                        else (Z.pos m, 2 ^ (- e)) in
      let decpt := decimal_point num den in
      let (c, n) := shortest 16 s x num den decpt 1 in
      let decpt := if c =? 10 ^ n then decpt + 1 else decpt in
      sign_chars s ++ layout (strip_trailing_zeros (encode_int c)) decpt
  end.

(** *** [json.dumps] *)

Definition hex_digit (n : N) : ascii :=
  match n with
  | 0%N => "0" | 1%N => "1" | 2%N => "2" | 3%N => "3" | 4%N => "4"
  | 5%N => "5" | 6%N => "6" | 7%N => "7" | 8%N => "8" | 9%N => "9"
  | 10%N => "a" | 11%N => "b" | 12%N => "c" | 13%N => "d" | 14%N => "e"
  | _ => "f"
  end.

(** The escape [\uXXXX] of a code unit. *)
Definition escape_unit (n : N) : list ascii :=
  ["092"; "u"; hex_digit (n / 4096); hex_digit ((n / 256) mod 16);
   hex_digit ((n / 16) mod 16); hex_digit (n mod 16)].

(** One code point of a string literal, as [ensure_ascii=True] writes it:
    the short escapes, the character itself between space and tilde,
    [\uXXXX] for the rest of the first plane and a surrogate pair of two
    such escapes above it. *)
Definition escape_code_point (c : N) : list ascii :=
  if (c =? 34)%N then ["092"; "034"]
  else if (c =? 92)%N then ["092"; "092"]
  else if (c =? 8)%N then ["092"; "b"]
  else if (c =? 12)%N then ["092"; "f"]
  else if (c =? 10)%N then ["092"; "n"]
  else if (c =? 13)%N then ["092"; "r"]
  else if (c =? 9)%N then ["092"; "t"]
  else if ((32 <=? c) && (c <=? 126))%N then [ascii_of_N c]
  else if (c <? 65536)%N then escape_unit c
  else
    (escape_unit (55296 + (c - 65536) / 1024) ++
     escape_unit (56320 + (c - 65536) mod 1024))%list.

Definition escape_string (s : string) : list ascii :=
  flat_map escape_code_point (code_points (list_ascii_of_string s)).

Definition encode_string (s : string) : list ascii :=
  "034" :: escape_string s ++ ["034"].

(** The pieces of a container joined by the item separator [", "]. *)
Fixpoint join (pieces : list (list ascii)) : list ascii :=
  match pieces with
  | [] => []
  | [p] => p
  | p :: rest => p ++ "," :: " " :: join rest
  end.

(** The encoder with the default separators [(", ", ": ")]. *)
Fixpoint encode (v : json) : list ascii :=
  match v with
  | JNull => ["n"; "u"; "l"; "l"]
  | JBool true => ["t"; "r"; "u"; "e"]
  | JBool false => ["f"; "a"; "l"; "s"; "e"]
  | JNum z => encode_int z
  | JFloat x => float_repr x
  | JStr s => encode_string s
  | JArr l => "[" :: join (map encode l) ++ ["]"]
  | JObj m =>
      "{" :: join (map (fun kv => encode_string (fst kv) ++
                                  ":" :: " " :: encode (snd kv)) m) ++ ["}"]
  end.

Definition dumps (v : json) : string := string_of_list_ascii (encode v).

(** *** [json.loads] *)

Definition is_ws (c : ascii) : bool :=
  let n := N_of_ascii c in
  ((n =? 32) || (n =? 9) || (n =? 10) || (n =? 13))%N.

Fixpoint skip_ws (s : list ascii) : list ascii :=
  match s with
  | [] => []
  | c :: r => if is_ws c then skip_ws r else s
  end.

Definition hex_value (c : ascii) : option N :=
  let n := N_of_ascii c in
  if ((48 <=? n) && (n <=? 57))%N then Some (n - 48)%N
  else if ((97 <=? n) && (n <=? 102))%N then Some (n - 87)%N
  else if ((65 <=? n) && (n <=? 70))%N then Some (n - 55)%N
  else None.

Definition hex4 (a b c d : ascii) : option N :=
  match hex_value a, hex_value b, hex_value c, hex_value d with
  | Some x, Some y, Some z, Some w =>
      Some (((x * 16 + y) * 16 + z) * 16 + w)%N
  | _, _, _, _ => None
  end.

(** The character a backslash and [e] stand for ([\uXXXX] apart). *)
Definition unescape (e : ascii) : option ascii :=
  if Ascii.eqb e "034" then Some "034"
  else if Ascii.eqb e "092" then Some "092"
  else if Ascii.eqb e "/" then Some "/"
  else if Ascii.eqb e "b" then Some (ascii_of_N 8)
  else if Ascii.eqb e "f" then Some (ascii_of_N 12)
  else if Ascii.eqb e "n" then Some (ascii_of_N 10)
  else if Ascii.eqb e "r" then Some (ascii_of_N 13)
  else if Ascii.eqb e "t" then Some (ascii_of_N 9)
  else None.

(** A text with one more code point in front. *)
Definition text_cons (c : N) (t : string) : string :=
  (string_of_list_ascii (utf8 c) ++ t)%string.

(** The code point of a surrogate pair. *)
Definition join_surrogates (hi lo : N) : N :=
  (65536 + (hi - 55296) * 1024 + (lo - 56320))%N.

(** The string literal whose opening quote has been read, up to and
    including its closing quote (strict mode: no raw control character).
    A [\uXXXX] escape of a high surrogate takes the escape of a low
    surrogate right after it along, the two being one code point. *)
Fixpoint scan_string (s : list ascii) : option (string * list ascii) :=
  match s with
  | [] => None
  | c :: r =>
      if Ascii.eqb c "034" then Some (EmptyString, r)
      else if Ascii.eqb c "092" then
        match r with
        | [] => None
        | e :: r1 =>
            if Ascii.eqb e "u" then
              match r1 with
              | h1 :: h2 :: h3 :: h4 :: r2 =>
                  match hex4 h1 h2 h3 h4 with
                  | Some n =>
                      let alone :=
                        match scan_string r2 with
                        | Some (t, r3) => Some (text_cons n t, r3)
                        | None => None
                        end in
                      if is_high n then
                        match r2 with
                        | b :: u :: g1 :: g2 :: g3 :: g4 :: r3 =>
                            if Ascii.eqb b "092" && Ascii.eqb u "u" then
                              match hex4 g1 g2 g3 g4 with
                              | Some n2 =>
                                  if is_low n2 then
                                    match scan_string r3 with
                                    | Some (t, r4) =>
                                        Some (text_cons (join_surrogates n n2)
                                                t, r4)
                                    | None => None
                                    end
                                  else alone
                              | None => None
                              end
                            else alone
                        | _ => alone
                        end
                      else alone
                  | None => None
                  end
              | _ => None
              end
            else
              match unescape e with
              | Some c' =>
                  match scan_string r1 with
                  | Some (t, r2) => Some (String c' t, r2)
                  | None => None
                  end
              | None => None
              end
        end
      else if (N_of_ascii c <? 32)%N then None
      else
        match scan_string r with
        | Some (t, r') => Some (String c t, r')
        | None => None
        end
  end.

Definition digit_of (c : ascii) : option (Decimal.uint -> Decimal.uint) :=
  match N_of_ascii c with
  | 48%N => Some Decimal.D0 | 49%N => Some Decimal.D1
  | 50%N => Some Decimal.D2 | 51%N => Some Decimal.D3
  | 52%N => Some Decimal.D4 | 53%N => Some Decimal.D5
  | 54%N => Some Decimal.D6 | 55%N => Some Decimal.D7
  | 56%N => Some Decimal.D8 | 57%N => Some Decimal.D9
  | _ => None
  end.

Definition is_digit (c : ascii) : bool :=
  match digit_of c with Some _ => true | None => false end.

(** The longest run of decimal digits at the head of the input. *)
Fixpoint scan_digits (s : list ascii) : Decimal.uint * list ascii :=
  match s with
  | [] => (Decimal.Nil, [])
  | c :: r =>
      match digit_of c with
      | Some D => let (d, r') := scan_digits r in (D d, r')
      | None => (Decimal.Nil, s)
      end
  end.

(** The integer part [0|[1-9][0-9]*] of a number. *)
Definition scan_natural (s : list ascii) : option (Decimal.uint * list ascii) :=
  match s with
  | [] => None
  | c :: r =>
      if Ascii.eqb c "0" then Some (Decimal.D0 Decimal.Nil, r)
      else
        match scan_digits s with
        | (Decimal.Nil, _) => None
        | (d, r') => Some (d, r')
        end
  end.

(** The fraction [\.[0-9]+] of a number, when there is one. *)
Definition scan_fraction (s : list ascii)
  : option Decimal.uint * list ascii :=
  match s with
  | p :: c :: r =>
      if Ascii.eqb p "." && is_digit c then
        let (d, r') := scan_digits (c :: r) in (Some d, r')
      else (None, s)
  | _ => (None, s)
  end.

(** The exponent [[eE][-+]?[0-9]+] of a number, when there is one. *)
Definition scan_exponent (s : list ascii) : option Z * list ascii :=
  match s with
  | e :: r =>
      if Ascii.eqb e "e" || Ascii.eqb e "E" then
        let (negative, r1) :=
          match r with
          | c :: r' =>
              if Ascii.eqb c "-" then (true, r')
              else if Ascii.eqb c "+" then (false, r')
              else (false, r)
          | [] => (false, r)
          end in
        match scan_digits r1 with
        | (Decimal.Nil, _) => (None, s)
        | (d, r2) =>
            (Some (if negative then - Z.of_uint d else Z.of_uint d), r2)
        end
      else (None, s)
  | [] => (None, s)
  end.

(** [float(integer + frac + exp)]. *)
Definition float_of_literal (negative : bool) (d : Decimal.uint)
    (frac : option Decimal.uint) (exp : option Z) : spec_float :=
  let f := match frac with Some f => f | None => Decimal.Nil end in
  let places := Z.of_nat (Decimal.nb_digits f) in
  let e := match exp with Some e => e | None => 0 end in
  float_of_decimal negative (Z.of_uint d * 10 ^ places + Z.of_uint f)
    (e - places).

(** A number: an int when it has neither fraction nor exponent, a float
    otherwise. *)
Definition scan_number (s : list ascii) : option (json * list ascii) :=
  let (negative, s1) :=
    match s with
    | c :: r => if Ascii.eqb c "-" then (true, r) else (false, s)
    | [] => (false, s)
    end in
  match scan_natural s1 with
  | Some (d, r) =>
      let (frac, r1) := scan_fraction r in
      let (exp, r2) := scan_exponent r1 in
      match frac, exp with
      | None, None =>
          Some (JNum (if negative then - Z.of_uint d else Z.of_uint d), r2)
      | _, _ => Some (JFloat (float_of_literal negative d frac exp), r2)
      end
  | None => None
  end.

Fixpoint strip_prefix (p s : list ascii) : option (list ascii) :=
  match p, s with
  | [], _ => Some s
  | a :: p', b :: s' => if Ascii.eqb a b then strip_prefix p' s' else None
  | _ :: _, [] => None
  end.

(** The constants the scanner knows besides numbers: after [null], [true]
    and [false] and after the numbers, the three names of the floats that
    are not finite. *)
Definition scan_constant (s : list ascii) : option (json * list ascii) :=
  match strip_prefix ["n"; "u"; "l"; "l"] s with
  | Some r' => Some (JNull, r')
  | None =>
  match strip_prefix ["t"; "r"; "u"; "e"] s with
  | Some r' => Some (JBool true, r')
  | None =>
  match strip_prefix ["f"; "a"; "l"; "s"; "e"] s with
  | Some r' => Some (JBool false, r')
  | None =>
  match scan_number s with
  | Some vr => Some vr
  | None =>
  match strip_prefix ["N"; "a"; "N"] s with
  | Some r' => Some (JFloat S754_nan, r')
  | None =>
  match strip_prefix ["I"; "n"; "f"; "i"; "n"; "i"; "t"; "y"] s with
  | Some r' => Some (JFloat (S754_infinity false), r')
  | None =>
  match strip_prefix ["-"; "I"; "n"; "f"; "i"; "n"; "i"; "t"; "y"] s with
  | Some r' => Some (JFloat (S754_infinity true), r')
  | None => None
  end end end end end end end.

(** The scanner: [scan_value] is [scan_once], [scan_items] the body of an
    array after its first value has been found to exist, [scan_members]
    that of an object.  The callers skip the white space. *)
Fixpoint scan_value (fuel : nat) (s : list ascii) : option (json * list ascii) :=
  match fuel with
  | O => None
  | S f =>
      match s with
      | [] => None
      | c :: r =>
          if Ascii.eqb c "034" then
            match scan_string r with
            | Some (t, r') => Some (JStr t, r')
            | None => None
            end
          else if Ascii.eqb c "{" then
            match skip_ws r with
            | [] => None
            | c1 :: r1 =>
                if Ascii.eqb c1 "}" then Some (JObj [], r1)
                else
                  match scan_members f (c1 :: r1) with
                  | Some (ps, r') => Some (JObj (dict_of_pairs ps), r')
                  | None => None
                  end
            end
          else if Ascii.eqb c "[" then
            match skip_ws r with
            | [] => None
            | c1 :: r1 =>
                if Ascii.eqb c1 "]" then Some (JArr [], r1)
                else
                  match scan_items f (c1 :: r1) with
                  | Some (vs, r') => Some (JArr vs, r')
                  | None => None
                  end
            end
          else scan_constant s
      end
  end
with scan_items (fuel : nat) (s : list ascii) : option (list json * list ascii) :=
  match fuel with
  | O => None
  | S f =>
      match scan_value f s with
      | Some (v, r) =>
          match skip_ws r with
          | [] => None
          | c :: r1 =>
              if Ascii.eqb c "," then
                match scan_items f (skip_ws r1) with
                | Some (vs, r2) => Some (v :: vs, r2)
                | None => None
                end
              else if Ascii.eqb c "]" then Some ([v], r1)
              else None
          end
      | None => None
      end
  end
with scan_members (fuel : nat) (s : list ascii)
  : option (list (string * json) * list ascii) :=
  match fuel with
  | O => None
  | S f =>
      match s with
      | [] => None
      | q :: r =>
          if Ascii.eqb q "034" then
            match scan_string r with
            | Some (k, r1) =>
                match skip_ws r1 with
                | [] => None
                | c :: r2 =>
                    if Ascii.eqb c ":" then
                      match scan_value f (skip_ws r2) with
                      | Some (v, r3) =>
                          match skip_ws r3 with
                          | [] => None
                          | c' :: r4 =>
                              if Ascii.eqb c' "," then
                                match scan_members f (skip_ws r4) with
                                | Some (ps, r5) => Some ((k, v) :: ps, r5)
                                | None => None
                                end
                              else if Ascii.eqb c' "}" then Some ([(k, v)], r4)
                              else None
                          end
                      | None => None
                      end
                    else None
                end
            | None => None
            end
          else None
      end
  end.

(** [json.loads]: one value, white space around it, nothing else. *)
Definition loads (text : string) : option json :=
  let s := skip_ws (list_ascii_of_string text) in
  match scan_value (2 * List.length s + 1) s with
  | Some (v, r) => match skip_ws r with [] => Some v | _ => None end
  | None => None
  end.

(** A float that [float] reads back from its [repr], as every binary64
    number is. *)
Definition float_ok (x : spec_float) : bool :=
  match x with
  | S754_nan => true
  | S754_infinity _ => true
  | _ =>
      match scan_number (float_repr x) with
      | Some (JFloat y, []) => float_eqb x y
      | _ => false
      end
  end.

(** The values that are Python values: every text holds a str, every
    float is a binary64 number and every dict has distinct keys. *)
Fixpoint wf (v : json) : Prop :=
  match v with
  | JFloat x => float_ok x = true
  | JStr s => text_ok s = true
  | JArr l => (fix all (l : list json) : Prop :=
                 match l with [] => True | x :: l' => wf x /\ all l' end) l
  | JObj m => NoDup (map fst m) /\
              (fix all (m : list (string * json)) : Prop :=
                 match m with
                 | [] => True
                 | kv :: m' =>
                     (text_ok (fst kv) = true /\ wf (snd kv)) /\ all m'
                 end) m
  | _ => True
  end.

(** The characters after which a value of a container ends. *)
Definition closes (rest : list ascii) : bool :=
  match rest with
  | [] => true
  | c :: _ => Ascii.eqb c "," || Ascii.eqb c "]" || Ascii.eqb c "}"
  end.

Definition no_digit_ahead (rest : list ascii) : bool :=
  match rest with
  | [] => true
  | c :: _ => negb (is_digit c)
  end.

(** The characters a value can start with. *)
Definition value_start (c : ascii) : bool :=
  Ascii.eqb c "034" || Ascii.eqb c "{" || Ascii.eqb c "[" ||
  Ascii.eqb c "n" || Ascii.eqb c "t" || Ascii.eqb c "f" ||
  Ascii.eqb c "N" || Ascii.eqb c "I" ||
  Ascii.eqb c "-" || is_digit c.

(** The text of a member of an object. *)
Definition member_text (kv : string * json) : list ascii :=
  encode_string (fst kv) ++ ":" :: " " :: encode (snd kv).

(** What the scanner is to do on the text of a value: read the value back
    and stop right after it. *)
Definition reads_back (v : json) : Prop :=
  wf v ->
  forall (n : nat) (rest : list ascii),
    (2 * List.length (encode v) <= n)%nat ->
    closes rest = true ->
    scan_value n (encode v ++ rest) = Some (v, rest).

(** After the escape of a high surrogate: the text goes on with the
    escape of a low surrogate, or with a [\u] that escapes nothing. *)
Definition low_ahead (s : list ascii) : bool :=
  match s with
  | b :: u :: g1 :: g2 :: g3 :: g4 :: _ =>
      Ascii.eqb b "092" && Ascii.eqb u "u" &&
      match hex4 g1 g2 g3 g4 with
      | Some n => is_low n
      | None => true
      end
  | _ => false
  end.

(** The characters of the ASCII range. *)
Definition is_ascii (c : ascii) : bool := (N_of_ascii c <? 128)%N.

End Json.


(** ** Python exceptions and the request-scoped state *)

Module Py.

Import Json.

(** The three variants of a malformed [Authorization] header. *)
Inductive Malformed : Type :=
| MissingBearerPrefix
| MissingTokenPart
| TooManyParts.

(** The kinds of authorization failure. *)
Inductive AuthErrorKind : Type :=
| AuthHeaderMissing
| AuthHeaderMalformed (why : Malformed)
| MissingToken
| InvalidHeader
| InvalidClaims
| Unauthorized.

(** What a handler can raise: [abort(code)] and the framework's own HTTP
    errors, the guard's [AuthError], and the Python and database errors
    nothing in [api.py] catches. *)
Inductive exn : Type :=
| HTTPException (code : Z)
| AuthError (kind : AuthErrorKind)
| AttributeError
| TypeError
| KeyError
| JSONDecodeError
| IntegrityError
| StatementError
| MultipleResultsFound.

Definition result (A : Type) : Type := (exn + A)%type.

(** A computation over a store of type [S] that may raise: the store it
    leaves is the committed one, also when it raises. *)
Definition M (S A : Type) : Type := S -> result A * S.

Definition ret {S A} (a : A) : M S A := fun st => (inr a, st).
Definition raise {S A} (e : exn) : M S A := fun st => (inl e, st).
Definition abort {S A} (code : Z) : M S A := raise (HTTPException code).
Definition bind {S A B} (c : M S A) (k : A -> M S B) : M S B :=
  fun st =>
    match c st with
    | (inr a, st') => k a st'
    | (inl e, st') => (inl e, st')
    end.
Definition lift {S A} (r : result A) : M S A := fun st => (r, st).
Definition get {S} : M S S := fun st => (inr st, st).
Definition put {S} (st : S) : M S unit := fun _ => (inr tt, st).

(** A list comprehension whose body may raise. *)
Fixpoint traverse {A B} (f : A -> result B) (l : list A) : result (list B) :=
  match l with
  | [] => inr []
  | x :: l' =>
      match f x with
      | inl e => inl e
      | inr y =>
          match traverse f l' with
          | inl e => inl e
          | inr ys => inr (y :: ys)
          end
      end
  end.

End Py.

Declare Scope py_scope.
Delimit Scope py_scope with py.
Notation "x <- c ;; k" := (Py.bind c (fun x => k))
  (at level 61, c at next level, right associativity) : py_scope.
Notation "c ;;; k" := (Py.bind c (fun _ => k))
  (at level 61, right associativity) : py_scope.

Local Open Scope string_scope.
Local Open Scope py_scope.

(** ** The Drink model *)

Module Models.

Import Json Py.

(** Modelled from the spec: [database/models.py] is not among the sources.
    A row of the drinks table has [id] (integer, system-assigned, unique),
    [title] (string, required, unique) and [recipe] (the structured value
    stored as serialized text). *)
Record Row : Type := mkRow {
  row_id : Z;
  row_title : string;
  row_recipe : string
}.

Definition Table : Type := list Row.

(** Modelled from the spec: the Python object of a Drink.  Its attributes
    hold whatever the handler assigns to them; [id] is [None] until the
    row is inserted. *)
Record Drink : Type := mkDrink {
  id : option Z;
  title : json;
  recipe : json
}.

Definition load (r : Row) : Drink :=
  {| id := Some (row_id r);
     title := JStr (row_title r);
     recipe := JStr (row_recipe r) |}.

Definition id_value (d : Drink) : json :=
  match id d with Some i => JNum i | None => JNull end.

(** Modelled from the spec: [long()] is [{id, title, recipe}] with the
    recipe the deserialized structured value, [json.loads(self.recipe)]. *)
Definition long (d : Drink) : result json :=
  match recipe d with
  | JStr text =>
      match loads text with
      | Some r =>
          inr (JObj [("id", id_value d); ("title", title d); ("recipe", r)])
      | None => inl JSONDecodeError
      end
  | _ => inl TypeError
  end.

(** Modelled from the spec: one entry of the short recipe, [{color, parts}]
    of an ingredient (the name omitted). *)
Definition short_entry (r : json) : result json :=
  match r with
  | JObj m =>
      if dict_has "color" m && dict_has "parts" m
      then inr (JObj [("color", dict_get "color" m);
                      ("parts", dict_get "parts" m)])
      else inl KeyError
  | _ => inl TypeError
  end.

(** Modelled from the spec: [short()] is [{id, title, recipe}] with the
    recipe the list of the short entries of the deserialized recipe. *)
Definition short (d : Drink) : result json :=
  match recipe d with
  | JStr text =>
      match loads text with
      | Some (JArr l) =>
          match traverse short_entry l with
          | inr es =>
              inr (JObj [("id", id_value d); ("title", title d);
                         ("recipe", JArr es)])
          | inl e => inl e
          end
      | Some _ => inl TypeError
      | None => inl JSONDecodeError
      end
  | _ => inl TypeError
  end.

(** [Drink.query.all()]. *)
Definition query_all : M Table (list Drink) :=
  fun tb => (inr (map load tb), tb).

Fixpoint insert_sorted (r : Row) (l : list Row) : list Row :=
  match l with
  | [] => [r]
  | x :: l' =>
      if (row_id r <=? row_id x)%Z then r :: l else x :: insert_sorted r l'
  end.

Definition sort_by_id (l : list Row) : list Row :=
  fold_right insert_sorted [] l.

(** [Drink.query.order_by(Drink.id).all()]. *)
Definition query_order_by_id : M Table (list Drink) :=
  fun tb => (inr (map load (sort_by_id tb)), tb).

Definition rows_with_id (i : Z) (tb : Table) : list Row :=
  filter (fun r => (row_id r =? i)%Z) tb.

(** [Drink.query.filter(Drink.id == drink_id).one_or_none()]. *)
Definition query_one_or_none (i : Z) : M Table (option Drink) :=
  fun tb =>
    match rows_with_id i tb with
    | [] => (inr None, tb)
    | [r] => (inr (Some (load r)), tb)
    | _ :: _ :: _ => (inl MultipleResultsFound, tb)
    end.

(** [Drink.query.filter_by(id=i).first()]. *)
Definition query_first (i : option Z) : M Table (option Drink) :=
  fun tb =>
    match i with
    | Some i => (inr (option_map load (hd_error (rows_with_id i tb))), tb)
    | None => (inr None, tb)
    end.

Definition title_taken (t : string) (tb : Table) : bool :=
  existsb (fun r => String.eqb (row_title r) t) tb.

(** Modelled from the spec: the id the store assigns, one past the largest
    id in the table. *)
Definition next_id (tb : Table) : Z :=
  1 + fold_right (fun r m => Z.max (row_id r) m) 0 tb.

(** The column values of a Drink about to be written: both columns hold
    text, so a title or a recipe that is [None] is refused, and so is a
    value of another type. *)
Definition columns (d : Drink) : result (string * string) :=
  match title d, recipe d with
  | JStr t, JStr r => inr (t, r)
  | JNull, _ => inl IntegrityError
  | _, JNull => inl IntegrityError
  | _, _ => inl StatementError
  end.

(** Modelled from the spec: [insert()] adds the row under a fresh id and
    commits; a title already in the table is refused (titles are unique).
    It gives back the Drink with its id. *)
Definition insert (d : Drink) : M Table Drink :=
  fun tb =>
    match columns d with
    | inl e => (inl e, tb)
    | inr (t, r) =>
        if title_taken t tb then (inl IntegrityError, tb)
        else
          let i := next_id tb in
          (inr {| id := Some i; title := title d; recipe := recipe d |},
           (tb ++ [mkRow i t r])%list)
    end.

Definition replace_row (new : Row) (tb : Table) : Table :=
  map (fun r => if (row_id r =? row_id new)%Z then new else r) tb.

Definition others (i : Z) (tb : Table) : Table :=
  filter (fun r => negb (row_id r =? i)%Z) tb.

(** Modelled from the spec: [update()] commits the Drink's attributes to
    its row, in place; a title another row holds is refused. *)
Definition update (d : Drink) : M Table unit :=
  fun tb =>
    match id d, columns d with
    | None, _ => (inl StatementError, tb)
    | _, inl e => (inl e, tb)
    | Some i, inr (t, r) =>
        if title_taken t (others i tb) then (inl IntegrityError, tb)
        else (inr tt, replace_row (mkRow i t r) tb)
    end.

(** Modelled from the spec: [delete()] removes the Drink's row and
    commits. *)
Definition delete (d : Drink) : M Table unit :=
  fun tb =>
    match id d with
    | Some i => (inr tt, others i tb)
    | None => (inl StatementError, tb)
    end.

End Models.

(** ** Requests and responses *)

Module Flask.

Import Json Py.

Inductive Method : Type := GET | POST | PUT | PATCH | DELETE.

(** The URL of a request as the routes of [api.py] see it: one of the three
    rules, [<int:drink_id>] giving a natural number, or no rule at all. *)
Inductive Path : Type :=
| Drinks
| DrinksDetail
| DrinksId (drink_id : N)
| NoRoute.

(** An incoming request: [authorization] is the [Authorization] header,
    [data] is [request.data], the raw body, and [json] is what
    [request.get_json()] does: [None] when it fails to decode the body
    (the framework aborts with 400), otherwise the value it returns, which
    is [JNull] when there is no JSON body. *)
Record Request : Type := mkRequest {
  method : Method;
  path : Path;
  authorization : option string;
  data : string;
  json_body : option json
}.

(** A response body: what [jsonify] wrote, or the framework's own page
    for an error no handler is registered for. *)
Inductive Body : Type :=
| JsonBody (v : json)
| DefaultPage.

Record Response : Type := mkResponse {
  status : Z;
  body : Body
}.

(** [jsonify(v)], and [(jsonify(v), code)] as an error handler returns it. *)
Definition jsonify (v : json) : Response := mkResponse 200 (JsonBody v).
Definition with_status (r : Response) (code : Z) : Response :=
  mkResponse code (body r).

(** [request.get_json()]. *)
Definition get_json {S} (req : Request) : M S json :=
  match json_body req with
  | Some v => ret v
  | None => abort 400
  end.

(** [data.get(key, None)] on whatever [get_json()] returned: only a dict
    has the method. *)
Definition get_item {S} (d : json) (key : string) : M S json :=
  match d with
  | JObj m => ret (dict_get key m)
  | _ => raise AttributeError
  end.

End Flask.

(** ** The authorization guard *)

Module Auth.

Import Json Py Flask.

(** The claim set of a verified token. *)
Record ClaimSet : Type := mkClaims {
  subject : string;
  permissions : option (list string);
  expiry : Z
}.

(** The ways the Token Verifier fails. *)
Inductive TokenFailure : Type :=
| TokenAbsent
| TokenHeaderInvalid
| TokenClaimsInvalid.

Definition token_failure_kind (f : TokenFailure) : AuthErrorKind :=
  match f with
  | TokenAbsent => MissingToken
  | TokenHeaderInvalid => InvalidHeader
  | TokenClaimsInvalid => InvalidClaims
  end.

Definition is_space (c : ascii) : bool := Ascii.eqb c " ".

(** The space-separated parts of a header. *)
Fixpoint words (s : string) : list string :=
  match s with
  | EmptyString => []
  | String c s' =>
      if is_space c then words s'
      else
        match s' with
        | EmptyString => [String c EmptyString]
        | String c' _ =>
            if is_space c' then String c EmptyString :: words s'
            else
              match words s' with
              | w :: ws => String c w :: ws
              | [] => [String c EmptyString]
              end
        end
  end.

(** Modelled from the spec: steps 1 and 2 of the Authorization Gate of
    [auth/auth.py], which is not among the sources.  A missing header is
    [AuthHeaderMissing]; the header must be exactly two space-separated
    parts, the first being the bearer prefix in its exact casing. *)
Definition get_token_auth_header (req : Request) : result string :=
  match authorization req with
  | None => inl (AuthError AuthHeaderMissing)
  | Some h =>
      match words h with
      | [] => inl (AuthError (AuthHeaderMalformed MissingBearerPrefix))
      | p :: rest =>
          if negb (String.eqb p "Bearer")
          then inl (AuthError (AuthHeaderMalformed MissingBearerPrefix))
          else
            match rest with
            | [] => inl (AuthError (AuthHeaderMalformed MissingTokenPart))
            | [token] => inr token
            | _ :: _ :: _ => inl (AuthError (AuthHeaderMalformed TooManyParts))
            end
      end
  end.

Definition has_permission (required : string) (ps : list string) : bool :=
  existsb (String.eqb required) ps.

(** Modelled from the spec: the Permission Checker.  Claims without a
    permissions field fail with [InvalidClaims] when a permission is
    required; a permission that is not in the set fails with
    [Unauthorized]. *)
Definition check_permissions (required : string) (claims : ClaimSet)
  : result unit :=
  match permissions claims with
  | None =>
      match required with
      | EmptyString => inl (AuthError Unauthorized)
      | String _ _ => inl (AuthError InvalidClaims)
      end
  | Some ps =>
      if has_permission required ps then inr tt
      else inl (AuthError Unauthorized)
  end.

Section Guard.

(** The Token Verifier: signature, issuer, audience and expiry are
    checked against the identity provider's keys, outside this program. *)
Variable verify_decode_jwt : string -> TokenFailure + ClaimSet.

(** Modelled from the spec: steps 1 to 4 of the Authorization Gate. *)
Definition authorize (permission : string) (req : Request)
  : result ClaimSet :=
  match get_token_auth_header req with
  | inl e => inl e
  | inr token =>
      match verify_decode_jwt token with
      | inl f => inl (AuthError (token_failure_kind f))
      | inr payload =>
          match check_permissions permission payload with
          | inl e => inl e
          | inr _ => inr payload
          end
      end
  end.

(** Modelled from the spec: the decorator [requires_auth(permission)].
    The guarded operation gets the verified claim set as its first
    argument; an [AuthError] is not caught here. *)
Definition requires_auth {S A} (permission : string)
    (f : ClaimSet -> Request -> M S A) (req : Request) : M S A :=
  payload <- lift (authorize permission req) ;;
  f payload req.

End Guard.

End Auth.

(** ** The application: [api.py] *)

Module Api.

Import Json Py Flask Models Auth.

Definition is_none (v : json) : bool :=
  match v with JNull => true | _ => false end.

Definition success_drinks (drinks : list json) : json :=
  JObj [("success", JBool true); ("drinks", JArr drinks)].

(** *** Error handlers *)

Definition error_body (code : Z) (message : string) : json :=
  JObj [("success", JBool false); ("error", JNum code);
        ("message", JStr message)].

(** [@app.errorhandler(422)]. *)
Definition unprocessable : Response :=
  with_status (jsonify (error_body 422 "unprocessable")) 422.

(** [@app.errorhandler(404)]. *)
Definition not_found : Response :=
  with_status (jsonify (error_body 404 "resource not found")) 404.

(** [@app.errorhandler(401)], the first of the three [bad_request]. *)
Definition bad_request_401 : Response :=
  with_status (jsonify (error_body 401 "Unauthenticated")) 401.

(** [@app.errorhandler(403)], the second [bad_request]. *)
Definition bad_request_403 : Response :=
  with_status (jsonify (error_body 403 "Unauthorized")) 403.

(** [@app.errorhandler(400)], the third [bad_request]. *)
Definition bad_request : Response :=
  with_status (jsonify (error_body 400 "Bad request")) 400.

(** [@app.errorhandler(405)]. *)
Definition method_not_allowed : Response :=
  with_status (jsonify (error_body 405 "Method not allowed")) 405.

(** The handlers the decorators register, by status code. *)
Definition errorhandler (code : Z) : option Response :=
  if (code =? 422)%Z then Some unprocessable
  else if (code =? 404)%Z then Some not_found
  else if (code =? 401)%Z then Some bad_request_401
  else if (code =? 403)%Z then Some bad_request_403
  else if (code =? 400)%Z then Some bad_request
  else if (code =? 405)%Z then Some method_not_allowed
  else None.

(** An HTTP error goes to the handler of its code, and to the framework's
    page under that code when there is none. *)
Definition handle_http_exception (code : Z) : Response :=
  match errorhandler code with
  | Some r => r
  | None => mkResponse code DefaultPage
  end.

(** What the framework does with an exception a view raises.  An HTTP
    error goes to the handler of its code.  [api.py] registers handlers by
    status code only, none for a class of exception, so any other
    exception, the guard's [AuthError] among them, is an internal server
    error. *)
Definition handle_exception (e : exn) : Response :=
  match e with
  | HTTPException code => handle_http_exception code
  | _ => handle_http_exception 500
  end.

(** *** Routes *)

Section Routes.

Variable verify_decode_jwt : string -> TokenFailure + ClaimSet.

(** [GET /drinks]. *)
Definition get_drinks (req : Request) : M Table (option Response) :=
  drinks <- query_all ;;
  short_drinks <- lift (traverse short drinks) ;;
  ret (Some (jsonify (success_drinks short_drinks))).

(** [GET /drinks-detail], under [get:drinks-detail]. *)
Definition get_drink_details_view (payload : ClaimSet) (req : Request)
  : M Table (option Response) :=
  drinks <- query_order_by_id ;;
  long_drinks <- lift (traverse long drinks) ;;
  ret (Some (jsonify (success_drinks long_drinks))).

Definition get_drink_details : Request -> M Table (option Response) :=
  requires_auth verify_decode_jwt "get:drinks-detail" get_drink_details_view.

(** [POST /drinks], under [post:drinks].  With an empty [request.data]
    the function reaches its end without a [return]. *)
Definition add_drinks_view (payload : ClaimSet) (req : Request)
  : M Table (option Response) :=
  match data req with
  | String _ _ =>
      data <- get_json req ;;
      title <- get_item data "title" ;;
      recipe <- get_item data "recipe" ;;
      let recipe := if is_none recipe then recipe
                    else JStr (dumps recipe) in
      let new_drink := {| id := None; title := title; recipe := recipe |} in
      new_drink <- insert new_drink ;;
      new_drink <- query_first (id new_drink) ;;
      match new_drink with
      | Some new_drink =>
          l <- lift (long new_drink) ;;
          ret (Some (jsonify (success_drinks [l])))
      | None => raise AttributeError
      end
  | EmptyString => ret None
  end.

Definition add_drinks : Request -> M Table (option Response) :=
  requires_auth verify_decode_jwt "post:drinks" add_drinks_view.

(** [PATCH /drinks/<id>], under [patch:drinks]. *)
Definition update_drink_view (drink_id : Z) (payload : ClaimSet)
    (req : Request) : M Table (option Response) :=
  data <- get_json req ;;
  (if negb (truthy data) then abort 409 else ret tt) ;;;
  title <- get_item data "title" ;;
  recipe <- get_item data "recipe" ;;
  let recipe := if is_none recipe then recipe else JStr (dumps recipe) in
  drink <- query_one_or_none drink_id ;;
  match drink with
  | None => abort 404
  | Some drink =>
      let drink :=
        if is_none title then drink
        else {| id := id drink; title := title; recipe := Models.recipe drink |} in
      let drink :=
        if is_none recipe then drink
        else {| id := id drink; title := Models.title drink;
                recipe := JStr (dumps recipe) |} in
      update drink ;;;
      l <- lift (long drink) ;;
      ret (Some (jsonify (success_drinks [l])))
  end.

Definition update_drink (drink_id : Z)
  : Request -> M Table (option Response) :=
  requires_auth verify_decode_jwt "patch:drinks" (update_drink_view drink_id).

(** [DELETE /drinks/<id>], under [delete:drinks]. *)
Definition delete_drink_view (drink_id : Z) (payload : ClaimSet)
    (req : Request) : M Table (option Response) :=
  drink <- query_one_or_none drink_id ;;
  match drink with
  | None => abort 404
  | Some drink =>
      delete drink ;;;
      ret (Some (jsonify (JObj [("success", JBool true);
                                ("delete", JNum drink_id)])))
  end.

Definition delete_drink (drink_id : Z)
  : Request -> M Table (option Response) :=
  requires_auth verify_decode_jwt "delete:drinks" (delete_drink_view drink_id).

(** The URL map: the view of a rule and method, 405 for a rule under
    another method, 404 for no rule. *)
Definition dispatch_request (req : Request) : M Table (option Response) :=
  match path req, method req with
  | Drinks, GET => get_drinks req
  | Drinks, POST => add_drinks req
  | DrinksDetail, GET => get_drink_details req
  | DrinksId i, PATCH => update_drink (Z.of_N i) req
  | DrinksId i, DELETE => delete_drink (Z.of_N i) req
  | NoRoute, _ => abort 404
  | _, _ => abort 405
  end.

(** One request against the table: the response and the table it
    leaves.  A view that returns nothing is a [TypeError] of the
    framework. *)
Definition full_dispatch_request (req : Request) (tb : Table)
  : Response * Table :=
  match dispatch_request req tb with
  | (inr (Some r), tb') => (r, tb')
  | (inr None, tb') => (handle_exception TypeError, tb')
  | (inl e, tb') => (handle_exception e, tb')
  end.

End Routes.

End Api.

(** ** Vocabulary of the properties *)

Module Props.

Import Json Py Flask Models Auth Api.

(** The four endpoints under the guard. *)
Definition protected (req : Request) : bool :=
  match path req, method req with
  | DrinksDetail, GET => true
  | Drinks, POST => true
  | DrinksId _, PATCH => true
  | DrinksId _, DELETE => true
  | _, _ => false
  end.

(** The permission the route of a protected request asks for. *)
Definition required_permission (req : Request) : string :=
  match path req, method req with
  | DrinksDetail, _ => "get:drinks-detail"
  | Drinks, _ => "post:drinks"
  | DrinksId _, PATCH => "patch:drinks"
  | _, _ => "delete:drinks"
  end.

(** A request without body data, as [update_drink] tests it:
    [request.get_json()] gives [None] or another empty value. *)
Definition no_data (req : Request) : bool :=
  match json_body req with
  | Some v => negb (truthy v)
  | None => false
  end.

(** Some row of the table has the id. *)
Definition exists_id (i : Z) (tb : Table) : bool :=
  existsb (fun r => (row_id r =? i)%Z) tb.

(** The stored recipe of a row is serialized text. *)
Definition decodable (r : Row) : bool :=
  match loads (row_recipe r) with Some _ => true | None => false end.

(** A table as the application leaves it: ids are unique and every stored
    recipe deserializes. *)
Definition table_ok (tb : Table) : Prop :=
  NoDup (map row_id tb) /\ forallb decodable tb = true.

(** A request whose JSON body is a Python value. *)
Definition request_ok (req : Request) : Prop :=
  match json_body req with
  | Some v => wf v
  | None => True
  end.

(** The long form of a drink with the given fields. *)
Definition long_form (i : Z) (t : string) (r : json) : json :=
  JObj [("id", JNum i); ("title", JStr t); ("recipe", r)].


(** What a request may do to the ids of the table: leave the ids of all
    rows as they are, add one row after the others, or remove the rows of
    one id. *)
Definition keeps_ids (tb tb' : Table) : Prop :=
  map row_id tb' = map row_id tb \/
  (exists new, tb' = (tb ++ [new])%list) \/
  (exists i, tb' = others i tb).

(** A view that, when it returns a response, returns [jsonify] of some
    value. *)
Definition returns_json (c : M Table (option Response)) : Prop :=
  forall tb r tb', c tb = (inr (Some r), tb') -> exists v, r = jsonify v.

(** The Drink of [update_drink] once the fields of the body are set on
    it: [title] and [recipe] are what [data.get] gave, the recipe already
    serialized once when it is not [None]. *)
Definition patched (title recipe : json) (drink : Drink) : Drink :=
  let drink :=
    if is_none title then drink
    else {| id := id drink; title := title; recipe := Models.recipe drink |} in
  if is_none recipe then drink
  else {| id := id drink; title := Models.title drink;
          recipe := JStr (dumps recipe) |}.

(** The value of [recipe] after line 110 of [api.py]. *)
Definition dumped_once (recipe : json) : json :=
  if is_none recipe then recipe else JStr (dumps recipe).

End Props.

(** ** A sample deployment *)

Module Demo.

Import Json Py Flask Models Auth Api.

Definition manager : ClaimSet :=
  mkClaims "auth0|manager"
    (Some ["get:drinks-detail"; "post:drinks"; "patch:drinks";
           "delete:drinks"]) 0.

Definition barista : ClaimSet :=
  mkClaims "auth0|barista" (Some ["get:drinks-detail"]) 0.

(** A verifier that knows two tokens: the manager holds every permission,
    the barista only reads the details. *)
Definition verify (token : string) : TokenFailure + ClaimSet :=
  if String.eqb token "manager" then inr manager
  else if String.eqb token "barista" then inr barista
  else inl TokenClaimsInvalid.

Definition milk : json :=
  JArr [JObj [("color", JStr "white"); ("name", JStr "milk");
              ("parts", JNum 1)]].

Definition water : json :=
  JArr [JObj [("color", JStr "blue"); ("name", JStr "water");
              ("parts", JNum 1)]].

(** A table with one drink. *)
Definition menu : Table := [mkRow 1 "Water" (dumps water)].

Definition as_manager : option string := Some "Bearer manager".
Definition as_barista : option string := Some "Bearer barista".

Definition empty_request (m : Method) (p : Path) (auth : option string)
  : Request :=
  mkRequest m p auth EmptyString (Some JNull).

Definition json_request (m : Method) (p : Path) (auth : option string)
    (v : json) : Request :=
  mkRequest m p auth (dumps v) (Some v).

Definition post_latte : Request :=
  json_request POST Drinks as_manager
    (JObj [("title", JStr "Latte"); ("recipe", milk)]).

Definition patch_recipe : Request :=
  json_request PATCH (DrinksId 1) as_manager (JObj [("recipe", milk)]).

Definition patch_title : Request :=
  json_request PATCH (DrinksId 1) as_manager (JObj [("title", JStr "Aqua")]).

(** A PATCH without body data under a token the verifier refuses. *)
Definition patch_forged : Request :=
  empty_request PATCH (DrinksId 1) (Some "Bearer forged").

Definition water_row : Row := mkRow 1 "Water" (dumps water).

(** A recipe with half a part, the float 0.5, and a name outside
    ASCII. *)
Definition half : spec_float := S754_finite false 4503599627370496 (-53).

Definition oat : json :=
  JArr [JObj [("color", JStr "beige"); ("name", JStr "Łatte");
              ("parts", JFloat half)]].

Definition post_oat : Request :=
  json_request POST Drinks as_manager
    (JObj [("title", JStr "Łatte"); ("recipe", oat)]).

(** A PATCH with an empty body sent as JSON: [get_json()] has nothing to
    parse.  One for the drink of the menu, one for an id no drink has. *)
Definition patch_empty_json : Request :=
  mkRequest PATCH (DrinksId 1) as_manager EmptyString None.

Definition patch_empty_json_absent : Request :=
  mkRequest PATCH (DrinksId 7) as_manager EmptyString None.

End Demo.

(** ** Vocabulary of the further properties *)

Module Extras.

Import Json Py Flask Models Auth Api Props.

(** The request with its [Authorization] header replaced. *)
Definition with_authorization (h : option string) (req : Request) : Request :=
  mkRequest (method req) (path req) h (data req) (json_body req).

(** The deserialized recipe of a row, and the long form of the row. *)
Definition recipe_value (r : Row) : json :=
  match loads (row_recipe r) with Some v => v | None => JNull end.

Definition long_of_row (r : Row) : json :=
  JObj [("id", JNum (row_id r)); ("title", JStr (row_title r));
        ("recipe", recipe_value r)].

(** The exceptions the code of the application can raise: of the HTTP
    errors, only the four it or the framework aborts with. *)
Definition expected (e : exn) : bool :=
  match e with
  | HTTPException code =>
      (code =? 400)%Z || (code =? 404)%Z || (code =? 405)%Z || (code =? 409)%Z
  | _ => true
  end.

Definition raises_expected {A : Type} (c : M Table A) : Prop :=
  forall tb e tb', c tb = (inl e, tb') -> expected e = true.

(** The statuses the application answers with. *)
Definition statuses : list Z := [200; 400; 401; 403; 404; 405; 409; 500].

(** A view either leaves the table as it is or returns a [jsonify]. *)
Definition all_or_nothing (c : M Table (option Response)) (tb : Table)
  : Prop :=
  snd (c tb) = tb \/ exists v, fst (c tb) = inr (Some (jsonify v)).

(** The ids of a list of rows are in increasing order. *)
Fixpoint increasing (ids : list Z) : bool :=
  match ids with
  | [] => true
  | i :: rest =>
      match rest with
      | [] => true
      | j :: _ => (i <=? j)%Z && increasing rest
      end
  end.

(** The table after a sequence of requests, served one after the other. *)
Fixpoint serve (verify : string -> TokenFailure + ClaimSet)
    (reqs : list Request) (tb : Table) : Table :=
  match reqs with
  | [] => tb
  | req :: rest => serve verify rest (snd (full_dispatch_request verify req tb))
  end.

(** Requests of the sample deployment. *)
Definition get_menu : Request := Demo.empty_request GET Drinks None.

Definition get_details : Request :=
  Demo.empty_request GET DrinksDetail Demo.as_barista.

Definition delete_water : Request :=
  Demo.empty_request DELETE (DrinksId 1) Demo.as_manager.

Definition delete_as_barista : Request :=
  Demo.empty_request DELETE (DrinksId 1) Demo.as_barista.

Definition delete_latte : Request :=
  Demo.empty_request DELETE (DrinksId 2) Demo.as_manager.

Definition post_list : Request :=
  Demo.json_request POST Drinks Demo.as_manager (JArr [JStr "Latte"]).

Definition patch_list : Request :=
  Demo.json_request PATCH (DrinksId 1) Demo.as_manager (JArr [JStr "Latte"]).

Definition patch_absent : Request :=
  Demo.json_request PATCH (DrinksId 7) Demo.as_manager
    (JObj [("title", JStr "Aqua")]).

End Extras.

(** * Properties *)

(** ** The codec: [json.loads] undoes [json.dumps] *)

Module JsonFacts.

Import Json.
Local Open Scope char_scope.
Local Open Scope list_scope.

(** *** Text *)

Lemma hex_value_digit (d : N) :
  (d < 16)%N -> hex_value (hex_digit d) = Some d.
Proof.
  intros H.
  assert (Hd : (d = 0 \/ d = 1 \/ d = 2 \/ d = 3 \/ d = 4 \/ d = 5 \/ d = 6 \/
                d = 7 \/ d = 8 \/ d = 9 \/ d = 10 \/ d = 11 \/ d = 12 \/
                d = 13 \/ d = 14 \/ d = 15)%N) by lia.
  repeat (destruct Hd as [->|Hd]; [reflexivity|]). subst d. reflexivity.
Qed.

Lemma hex4_digits (n : N) :
  (n < 65536)%N ->
  hex4 (hex_digit (n / 4096)) (hex_digit ((n / 256) mod 16))
       (hex_digit ((n / 16) mod 16)) (hex_digit (n mod 16)) = Some n.
Proof.
  intros H. unfold hex4.
  rewrite !hex_value_digit;
    try (apply N.mod_lt; discriminate);
    try (apply N.Div0.div_lt_upper_bound; exact H).
  f_equal.
  zify. Z.to_euclidean_division_equations. lia.
Qed.

Lemma scan_string_backslash_u (h1 h2 h3 h4 : ascii) (r2 : list ascii) :
  scan_string ("092" :: "u" :: h1 :: h2 :: h3 :: h4 :: r2) =
  match hex4 h1 h2 h3 h4 with
  | Some n =>
      let alone :=
        match scan_string r2 with
        | Some (t, r3) => Some (text_cons n t, r3)
        | None => None
        end in
      if is_high n then
        match r2 with
        | b :: u :: g1 :: g2 :: g3 :: g4 :: r3 =>
            if Ascii.eqb b "092" && Ascii.eqb u "u" then
              match hex4 g1 g2 g3 g4 with
              | Some n2 =>
                  if is_low n2 then
                    match scan_string r3 with
                    | Some (t, r4) =>
                        Some (text_cons (join_surrogates n n2) t, r4)
                    | None => None
                    end
                  else alone
              | None => None
              end
            else alone
        | _ => alone
        end
      else alone
  | None => None
  end.
Proof. reflexivity. Qed.

(** Reading back the escape of a code unit that is no high surrogate. *)
Lemma scan_string_unit (n : N) (tail : list ascii) :
  (n < 65536)%N -> is_high n = false ->
  scan_string (escape_unit n ++ tail) =
  match scan_string tail with
  | Some (t, r) => Some (text_cons n t, r)
  | None => None
  end.
Proof.
  intros Hn Hhigh. unfold escape_unit.
  change ((?a :: ?b :: ?c :: ?d :: ?e :: ?f :: nil) ++ tail)
    with (a :: b :: c :: d :: e :: f :: tail).
  rewrite scan_string_backslash_u, (hex4_digits n Hn). cbv zeta.
  rewrite Hhigh. reflexivity.
Qed.

(** Reading back the escape of a high surrogate that stands alone. *)
Lemma scan_string_high (n : N) (tail : list ascii) :
  (n < 65536)%N -> low_ahead tail = false ->
  scan_string (escape_unit n ++ tail) =
  match scan_string tail with
  | Some (t, r) => Some (text_cons n t, r)
  | None => None
  end.
Proof.
  intros Hn Hlow. unfold escape_unit.
  change ((?a :: ?b :: ?c :: ?d :: ?e :: ?f :: nil) ++ tail)
    with (a :: b :: c :: d :: e :: f :: tail).
  rewrite scan_string_backslash_u, (hex4_digits n Hn). cbv zeta.
  destruct (is_high n); [|reflexivity].
  destruct tail as [|b [|u [|g1 [|g2 [|g3 [|g4 r3]]]]]]; try reflexivity.
  unfold low_ahead in Hlow.
  destruct (Ascii.eqb b "092" && Ascii.eqb u "u"); [|reflexivity].
  cbn [andb] in Hlow. destruct (hex4 g1 g2 g3 g4) as [n2|]; [|discriminate].
  rewrite Hlow. reflexivity.
Qed.

(** Reading back the two escapes of a code point above the first plane. *)
Lemma scan_string_pair (c : N) (tail : list ascii) :
  (65536 <= c)%N -> (c < 1114112)%N ->
  scan_string (escape_unit (55296 + (c - 65536) / 1024) ++
               escape_unit (56320 + (c - 65536) mod 1024) ++ tail) =
  match scan_string tail with
  | Some (t, r) => Some (text_cons c t, r)
  | None => None
  end.
Proof.
  intros Hlo Hhi.
  assert (Hq : ((c - 65536) / 1024 < 1024)%N).
  { apply N.Div0.div_lt_upper_bound. lia. }
  assert (Hr : ((c - 65536) mod 1024 < 1024)%N).
  { apply N.mod_lt. discriminate. }
  pose proof (N.div_mod (c - 65536) 1024) as Hqr.
  set (q := ((c - 65536) / 1024)%N) in *.
  set (r := ((c - 65536) mod 1024)%N) in *.
  assert (Hc : c = (65536 + (1024 * q + r))%N) by lia.
  clearbody q r.
  unfold escape_unit at 1.
  change ((?a :: ?b :: ?c :: ?d :: ?e :: ?f :: nil) ++ ?t)
    with (a :: b :: c :: d :: e :: f :: t).
  rewrite scan_string_backslash_u, hex4_digits by lia. cbv zeta.
  assert (Hhigh : is_high (55296 + q) = true).
  { unfold is_high. apply andb_true_iff. split; apply N.leb_le; lia. }
  rewrite Hhigh. unfold escape_unit.
  change ((?a :: ?b :: ?c :: ?d :: ?e :: ?f :: nil) ++ ?t)
    with (a :: b :: c :: d :: e :: f :: t).
  cbv beta iota.
  change (Ascii.eqb "092" "092" && Ascii.eqb "u" "u") with true. cbv iota.
  rewrite hex4_digits by lia.
  assert (Hlow : is_low (56320 + r) = true).
  { unfold is_low. apply andb_true_iff. split; apply N.leb_le; lia. }
  rewrite Hlow.
  assert (Hjoin : join_surrogates (55296 + q) (56320 + r) = c).
  { unfold join_surrogates. lia. }
  rewrite Hjoin. reflexivity.
Qed.

Lemma ascii_of_N_eqb (c : N) (a : ascii) :
  (c < 256)%N -> c <> N_of_ascii a -> Ascii.eqb (ascii_of_N c) a = false.
Proof.
  intros Hc Hne. apply Ascii.eqb_neq. intros Heq. apply Hne.
  rewrite <- Heq. symmetry. apply N_ascii_embedding. exact Hc.
Qed.

(** Reading back a character written as it is. *)
Lemma scan_string_plain (c : N) (tail : list ascii) :
  (32 <= c)%N -> (c <= 126)%N -> c <> 34%N -> c <> 92%N ->
  scan_string (ascii_of_N c :: tail) =
  match scan_string tail with
  | Some (t, r) => Some (String (ascii_of_N c) t, r)
  | None => None
  end.
Proof.
  intros Hlo Hhi Hq Hb. cbn [scan_string].
  rewrite (ascii_of_N_eqb c "034"), (ascii_of_N_eqb c "092");
    try lia; try exact Hq; try exact Hb.
  rewrite N_ascii_embedding by lia.
  destruct (N.ltb_spec c 32) as [Hlt|_]; [lia | reflexivity].
Qed.

(** Reading back a short escape. *)
Lemma scan_string_short (e c : ascii) (tail : list ascii) :
  Ascii.eqb e "u" = false -> unescape e = Some c ->
  scan_string ("092" :: e :: tail) =
  match scan_string tail with
  | Some (t, r) => Some (String c t, r)
  | None => None
  end.
Proof. intros Hu He. simpl. rewrite Hu, He. reflexivity. Qed.

Lemma low_ahead_first (b : ascii) (t : list ascii) :
  Ascii.eqb b "092" = false -> low_ahead (b :: t) = false.
Proof.
  intros H. destruct t as [|u [|g1 [|g2 [|g3 [|g4 r]]]]]; try reflexivity.
  unfold low_ahead. rewrite H. reflexivity.
Qed.

Lemma low_ahead_second (b u : ascii) (t : list ascii) :
  Ascii.eqb u "u" = false -> low_ahead (b :: u :: t) = false.
Proof.
  intros H. destruct t as [|g1 [|g2 [|g3 [|g4 r]]]]; try reflexivity.
  unfold low_ahead. rewrite H, andb_false_r. reflexivity.
Qed.

Lemma low_ahead_unit (n : N) (t : list ascii) :
  (n < 65536)%N -> is_low n = false -> low_ahead (escape_unit n ++ t) = false.
Proof.
  intros Hn Hlow. unfold escape_unit.
  change ((?a :: ?b :: ?c :: ?d :: ?e :: ?f :: nil) ++ t)
    with (a :: b :: c :: d :: e :: f :: t).
  unfold low_ahead. rewrite (hex4_digits n Hn), Hlow. reflexivity.
Qed.

(** The escape of a code point that is no low surrogate does not read as
    the second half of a pair. *)
Lemma low_ahead_escape (c : N) (t : list ascii) :
  (c < 1114112)%N -> is_low c = false ->
  low_ahead (escape_code_point c ++ t) = false.
Proof.
  intros Hc Hlow. unfold escape_code_point.
  destruct (N.eqb_spec c 34); [apply low_ahead_second; reflexivity|].
  destruct (N.eqb_spec c 92); [apply low_ahead_second; reflexivity|].
  destruct (N.eqb_spec c 8); [apply low_ahead_second; reflexivity|].
  destruct (N.eqb_spec c 12); [apply low_ahead_second; reflexivity|].
  destruct (N.eqb_spec c 10); [apply low_ahead_second; reflexivity|].
  destruct (N.eqb_spec c 13); [apply low_ahead_second; reflexivity|].
  destruct (N.eqb_spec c 9); [apply low_ahead_second; reflexivity|].
  destruct (N.leb_spec 32 c) as [H32|H32]; cbn [andb].
  - destruct (N.leb_spec c 126) as [H126|H126].
    + apply low_ahead_first, ascii_of_N_eqb; [lia | assumption].
    + destruct (N.ltb_spec c 65536) as [Hbmp|Hbmp].
      * apply low_ahead_unit; assumption.
      * rewrite <- List.app_assoc. apply low_ahead_unit.
        -- assert (((c - 65536) / 1024 < 1024)%N)
             by (apply N.Div0.div_lt_upper_bound; lia).
           lia.
        -- unfold is_low.
           assert (((c - 65536) / 1024 < 1024)%N)
             by (apply N.Div0.div_lt_upper_bound; lia).
           destruct (N.leb_spec 56320 (55296 + (c - 65536) / 1024));
             [lia | reflexivity].
  - destruct (N.ltb_spec c 65536) as [Hbmp|Hbmp]; [|lia].
    apply low_ahead_unit; assumption.
Qed.

Lemma low_ahead_quote (rest : list ascii) : low_ahead ("034" :: rest) = false.
Proof. apply low_ahead_first. reflexivity. Qed.

Lemma string_of_list_ascii_app (a b : list ascii) :
  string_of_list_ascii (a ++ b) =
  (string_of_list_ascii a ++ string_of_list_ascii b)%string.
Proof.
  induction a as [|c a IH]; simpl; [reflexivity|]. rewrite IH. reflexivity.
Qed.

Lemma utf8_ascii (c : N) : (c < 128)%N -> utf8 c = [ascii_of_N c].
Proof.
  intros H. unfold utf8. destruct (N.ltb_spec c 128); [reflexivity | lia].
Qed.

(** The scanner reads the escapes of the code points of a str back as its
    bytes. *)
Lemma scan_string_code_points (cps : list N) (rest : list ascii) :
  forallb (fun c => (c <? 1114112)%N) cps = true ->
  no_pair cps = true ->
  scan_string (flat_map escape_code_point cps ++ "034" :: rest) =
  Some (string_of_list_ascii (flat_map utf8 cps), rest).
Proof.
  induction cps as [|c cps IH]; intros Hvalid Hpair.
  - reflexivity.
  - cbn [forallb] in Hvalid. apply andb_true_iff in Hvalid.
    destruct Hvalid as [Hc Hvalid]. apply N.ltb_lt in Hc.
    assert (Hrest : no_pair cps = true).
    { destruct cps as [|c' cps']; [reflexivity|]. cbn [no_pair] in Hpair.
      apply andb_true_iff in Hpair. apply Hpair. }
    specialize (IH Hvalid Hrest).
    assert (Hahead : is_high c = true ->
                     low_ahead (flat_map escape_code_point cps ++
                                "034" :: rest) = false).
    { intros Hhigh. destruct cps as [|c' cps'].
      - apply low_ahead_quote.
      - cbn [no_pair] in Hpair. rewrite Hhigh in Hpair.
        cbn [andb] in Hpair. apply andb_true_iff in Hpair.
        destruct Hpair as [Hlow _]. apply negb_true_iff in Hlow.
        cbn [forallb] in Hvalid. apply andb_true_iff in Hvalid.
        destruct Hvalid as [Hc' _]. apply N.ltb_lt in Hc'.
        cbn [flat_map]. rewrite <- List.app_assoc.
        apply low_ahead_escape; assumption. }
    cbn [flat_map]. rewrite <- List.app_assoc, string_of_list_ascii_app.
    change (string_of_list_ascii (utf8 c) ++
            string_of_list_ascii (flat_map utf8 cps))%string
      with (text_cons c (string_of_list_ascii (flat_map utf8 cps))).
    assert (Hshort : forall (e : ascii) (n : N),
              Ascii.eqb e "u" = false -> unescape e = Some (ascii_of_N n) ->
              (n < 128)%N ->
              scan_string (("092" :: e :: nil) ++
                 flat_map escape_code_point cps ++ "034" :: rest) =
              Some (text_cons n (string_of_list_ascii (flat_map utf8 cps)),
                    rest)).
    { intros e n Hu He Hn. cbn [app].
      rewrite (scan_string_short e (ascii_of_N n)), IH by assumption.
      unfold text_cons. rewrite utf8_ascii by exact Hn. reflexivity. }
    unfold escape_code_point at 1.
    destruct (N.eqb_spec c 34) as [->|H34]; [apply Hshort; reflexivity|].
    destruct (N.eqb_spec c 92) as [->|H92]; [apply Hshort; reflexivity|].
    destruct (N.eqb_spec c 8) as [->|H8]; [apply Hshort; reflexivity|].
    destruct (N.eqb_spec c 12) as [->|H12]; [apply Hshort; reflexivity|].
    destruct (N.eqb_spec c 10) as [->|H10]; [apply Hshort; reflexivity|].
    destruct (N.eqb_spec c 13) as [->|H13]; [apply Hshort; reflexivity|].
    destruct (N.eqb_spec c 9) as [->|H9]; [apply Hshort; reflexivity|].
    assert (Hplain : (32 <= c)%N -> (c <= 126)%N ->
              scan_string (([ascii_of_N c] ++
                 flat_map escape_code_point cps ++ "034" :: rest)) =
              Some (text_cons c (string_of_list_ascii (flat_map utf8 cps)),
                    rest)).
    { intros H32 H126. cbn [app].
      rewrite scan_string_plain, IH by assumption.
      unfold text_cons. rewrite utf8_ascii by lia. reflexivity. }
    assert (Hunit : (c < 65536)%N ->
              scan_string (escape_unit c ++
                 flat_map escape_code_point cps ++ "034" :: rest) =
              Some (text_cons c (string_of_list_ascii (flat_map utf8 cps)),
                    rest)).
    { intros Hbmp. destruct (is_high c) eqn:Hhigh.
      - rewrite scan_string_high, IH; auto.
      - rewrite scan_string_unit, IH; auto. }
    destruct (N.leb_spec 32 c) as [H32|H32]; cbn [andb].
    + destruct (N.leb_spec c 126) as [H126|H126]; [apply Hplain; assumption|].
      destruct (N.ltb_spec c 65536) as [Hbmp|Hbmp]; [apply Hunit, Hbmp|].
      rewrite <- List.app_assoc, scan_string_pair, IH by assumption.
      reflexivity.
    + destruct (N.ltb_spec c 65536) as [Hbmp|Hbmp]; [apply Hunit, Hbmp | lia].
Qed.

(** [scan_string] undoes [escape_string] on a str. *)
Lemma scan_string_escape (s : string) (rest : list ascii) :
  text_ok s = true ->
  scan_string (escape_string s ++ "034" :: rest) = Some (s, rest).
Proof.
  unfold text_ok, escape_string. intros H.
  apply andb_true_iff in H. destruct H as [H Hpair].
  apply andb_true_iff in H. destruct H as [Heq Hvalid].
  apply String.eqb_eq in Heq.
  rewrite scan_string_code_points by assumption. rewrite Heq. reflexivity.
Qed.

(** *** Numbers *)

Lemma closes_cases (c : ascii) (r : list ascii) :
  closes (c :: r) = true -> c = "," \/ c = "]" \/ c = "}".
Proof.
  cbn [closes]. intros H.
  apply orb_true_iff in H. destruct H as [H|H];
    [apply orb_true_iff in H; destruct H as [H|H]|];
    apply Ascii.eqb_eq in H; auto.
Qed.

Lemma closes_no_digit rest : closes rest = true -> no_digit_ahead rest = true.
Proof.
  destruct rest as [|c r]; [reflexivity|]. intros H.
  destruct (closes_cases c r H) as [->|[->| ->]]; reflexivity.
Qed.

Lemma scan_digits_chars (d : Decimal.uint) (rest : list ascii) :
  no_digit_ahead rest = true ->
  scan_digits (uint_chars d ++ rest) = (d, rest).
Proof.
  intros Hrest.
  induction d; simpl; try (rewrite IHd; reflexivity).
  destruct rest as [|c r]; [reflexivity|].
  simpl in Hrest. unfold is_digit in Hrest. simpl.
  destruct (digit_of c); [discriminate Hrest | reflexivity].
Qed.

(** The lexers of a number go by what they read: before a character that
    closes a value they do what they do at the end of the text. *)
Lemma scan_digits_app (t rest : list ascii) :
  closes rest = true ->
  scan_digits (t ++ rest) =
  (fst (scan_digits t), snd (scan_digits t) ++ rest).
Proof.
  intros Hrest. induction t as [|c t IH].
  - destruct rest as [|c r]; [reflexivity|].
    destruct (closes_cases c r Hrest) as [->|[->| ->]]; reflexivity.
  - cbn [app scan_digits]. destruct (digit_of c); [|reflexivity].
    rewrite IH. destruct (scan_digits t). reflexivity.
Qed.

Lemma scan_natural_app (t rest : list ascii) :
  closes rest = true ->
  scan_natural (t ++ rest) =
  match scan_natural t with
  | Some (d, t') => Some (d, t' ++ rest)
  | None => None
  end.
Proof.
  intros Hrest. destruct t as [|c t].
  - destruct rest as [|c r]; [reflexivity|].
    destruct (closes_cases c r Hrest) as [->|[->| ->]]; reflexivity.
  - unfold scan_natural. cbn [app]. destruct (Ascii.eqb c "0"); [reflexivity|].
    change (c :: t ++ rest) with ((c :: t) ++ rest).
    rewrite (scan_digits_app _ _ Hrest).
    destruct (scan_digits (c :: t)) as [d t']. cbn [fst snd].
    destruct d; reflexivity.
Qed.

Lemma scan_fraction_app (t rest : list ascii) :
  closes rest = true ->
  scan_fraction (t ++ rest) =
  (fst (scan_fraction t), snd (scan_fraction t) ++ rest).
Proof.
  intros Hrest. destruct t as [|p [|c t]].
  - destruct rest as [|c [|c' r]]; try reflexivity.
    destruct (closes_cases c _ Hrest) as [->|[->| ->]]; reflexivity.
  - destruct rest as [|c r]; [reflexivity|].
    destruct (closes_cases c r Hrest) as [->|[->| ->]];
      cbn [app scan_fraction]; rewrite andb_false_r; reflexivity.
  - cbn [app scan_fraction].
    destruct (Ascii.eqb p "." && is_digit c); [|reflexivity].
    change (c :: t ++ rest) with ((c :: t) ++ rest).
    rewrite (scan_digits_app _ _ Hrest).
    destruct (scan_digits (c :: t)). reflexivity.
Qed.

Lemma scan_exponent_app (t rest : list ascii) :
  closes rest = true ->
  scan_exponent (t ++ rest) =
  (fst (scan_exponent t), snd (scan_exponent t) ++ rest).
Proof.
  intros Hrest. destruct t as [|e t].
  - destruct rest as [|c r]; [reflexivity|].
    destruct (closes_cases c r Hrest) as [->|[->| ->]]; reflexivity.
  - cbn [app scan_exponent].
    destruct (Ascii.eqb e "e" || Ascii.eqb e "E"); [|reflexivity].
    destruct t as [|c t].
    + cbn [app].
      assert (Hsign : (match rest with
                       | c :: r' =>
                           if Ascii.eqb c "-" then (true, r')
                           else if Ascii.eqb c "+" then (false, r')
                           else (false, rest)
                       | [] => (false, rest)
                       end) = (false, rest)).
      { destruct rest as [|c r]; [reflexivity|].
        destruct (closes_cases c r Hrest) as [->|[->| ->]]; reflexivity. }
      rewrite Hsign.
      change rest with ([] ++ rest) at 1.
      rewrite (scan_digits_app _ _ Hrest). reflexivity.
    + cbn [app].
      destruct (Ascii.eqb c "-");
        [|destruct (Ascii.eqb c "+")];
        try change (c :: t ++ rest) with ((c :: t) ++ rest);
        rewrite (scan_digits_app _ _ Hrest);
        match goal with |- context [scan_digits ?l] =>
          destruct (scan_digits l) as [d t'] end;
        cbn [fst snd]; destruct d; reflexivity.
Qed.

Lemma scan_number_app (t rest : list ascii) :
  closes rest = true ->
  scan_number (t ++ rest) =
  match scan_number t with
  | Some (v, t') => Some (v, t' ++ rest)
  | None => None
  end.
Proof.
  intros Hrest. unfold scan_number.
  assert (Hsign : (match t ++ rest with
                   | c :: r => if Ascii.eqb c "-" then (true, r)
                               else (false, t ++ rest)
                   | [] => (false, t ++ rest)
                   end) =
                  (fst (match t with
                        | c :: r => if Ascii.eqb c "-" then (true, r)
                                    else (false, t)
                        | [] => (false, t)
                        end),
                   snd (match t with
                        | c :: r => if Ascii.eqb c "-" then (true, r)
                                    else (false, t)
                        | [] => (false, t)
                        end) ++ rest)).
  { destruct t as [|c t].
    - destruct rest as [|c r]; [reflexivity|].
      destruct (closes_cases c r Hrest) as [->|[->| ->]]; reflexivity.
    - cbn [app]. destruct (Ascii.eqb c "-"); reflexivity. }
  rewrite Hsign.
  destruct (match t with
            | c :: r => if Ascii.eqb c "-" then (true, r) else (false, t)
            | [] => (false, t)
            end) as [negative t1].
  cbn [fst snd]. rewrite (scan_natural_app _ _ Hrest).
  destruct (scan_natural t1) as [[d t2]|]; [|reflexivity].
  rewrite (scan_fraction_app _ _ Hrest).
  destruct (scan_fraction t2) as [frac t3]. cbn [fst snd].
  rewrite (scan_exponent_app _ _ Hrest).
  destruct (scan_exponent t3) as [exp t4]. cbn [fst snd].
  destruct frac, exp; reflexivity.
Qed.

(** The decimal digits of a positive number do not start with a zero. *)
Lemma to_uint_head (p : positive) :
  match Pos.to_uint p with
  | Decimal.Nil => False
  | Decimal.D0 _ => False
  | _ => True
  end.
Proof.
  pose proof (Unsigned.to_uint_nonnil p) as Hnil.
  pose proof (Unsigned.to_uint_nonzero p) as Hzero.
  assert (Hnorm : Decimal.unorm (Pos.to_uint p) = Pos.to_uint p).
  { rewrite <- (Unsigned.to_of (Pos.to_uint p)), Unsigned.of_to. reflexivity. }
  destruct (Pos.to_uint p) as [|d| | | | | | | | |] eqn:E; try exact I.
  - apply Hnil. reflexivity.
  - rewrite unorm_D0 in Hnorm.
    destruct d as [|d'| | | | | | | | |] eqn:Ed.
    + apply Hzero. reflexivity.
    + pose proof (nb_digits_unorm (Decimal.D0 d')) as Hlen.
      rewrite Hnorm in Hlen. simpl in Hlen.
      assert (Decimal.D0 d' <> Decimal.Nil) as Hne by discriminate.
      specialize (Hlen Hne). lia.
    + pose proof (nb_digits_unorm (Decimal.D1 u)) as Hlen.
      rewrite Hnorm in Hlen. simpl in Hlen.
      assert (Decimal.D1 u <> Decimal.Nil) as Hne by discriminate.
      specialize (Hlen Hne). lia.
    + simpl in Hnorm. discriminate Hnorm.
    + simpl in Hnorm. discriminate Hnorm.
    + simpl in Hnorm. discriminate Hnorm.
    + simpl in Hnorm. discriminate Hnorm.
    + simpl in Hnorm. discriminate Hnorm.
    + simpl in Hnorm. discriminate Hnorm.
    + simpl in Hnorm. discriminate Hnorm.
    + simpl in Hnorm. discriminate Hnorm.
Qed.

Lemma scan_natural_pos (p : positive) :
  scan_natural (uint_chars (Pos.to_uint p)) = Some (Pos.to_uint p, []).
Proof.
  pose proof (to_uint_head p) as Hhead.
  pose proof (scan_digits_chars (Pos.to_uint p) [] eq_refl) as Hscan.
  rewrite List.app_nil_r in Hscan.
  destruct (Pos.to_uint p) as [|u|u|u|u|u|u|u|u|u|u]; try contradiction;
    unfold scan_natural; cbn [uint_chars]; cbn [uint_chars] in Hscan;
    rewrite Hscan; reflexivity.
Qed.

Lemma of_uint_to_uint (p : positive) : Z.of_uint (Pos.to_uint p) = Z.pos p.
Proof. unfold Z.of_uint. rewrite Unsigned.of_to. reflexivity. Qed.

(** The text of a number starts with a digit or the sign. *)
Lemma encode_int_head (z : Z) :
  exists c tl, encode_int z = c :: tl /\
               (is_digit c || Ascii.eqb c "-") = true.
Proof.
  destruct z as [|p|p]; unfold encode_int; simpl.
  - eexists _, _. split; reflexivity.
  - pose proof (to_uint_head p) as Hhead.
    destruct (Pos.to_uint p); try contradiction; simpl;
      eexists _, _; split; reflexivity.
  - eexists _, _. split; reflexivity.
Qed.

Lemma scan_number_int (z : Z) : scan_number (encode_int z) = Some (JNum z, []).
Proof.
  destruct z as [|p|p]; unfold encode_int; simpl Z.to_int.
  - reflexivity.
  - unfold scan_number.
    assert (Hsign : (match uint_chars (Pos.to_uint p) with
                     | c :: r => if Ascii.eqb c "-" then (true, r)
                                 else (false, uint_chars (Pos.to_uint p))
                     | [] => (false, uint_chars (Pos.to_uint p))
                     end) = (false, uint_chars (Pos.to_uint p))).
    { pose proof (to_uint_head p) as Hhead.
      destruct (Pos.to_uint p); try contradiction; reflexivity. }
    rewrite Hsign, scan_natural_pos. cbn [scan_fraction scan_exponent].
    rewrite of_uint_to_uint. reflexivity.
  - unfold scan_number. cbn [Ascii.eqb Bool.eqb].
    rewrite scan_natural_pos. cbn [scan_fraction scan_exponent].
    rewrite of_uint_to_uint. reflexivity.
Qed.

Lemma float_eqb_eq (x y : spec_float) : float_eqb x y = true -> x = y.
Proof.
  destruct x as [s|s| |s m e], y as [s'|s'| |s' m' e']; simpl;
    try discriminate; intros H.
  - apply Bool.eqb_prop in H. subst. reflexivity.
  - apply Bool.eqb_prop in H. subst. reflexivity.
  - reflexivity.
  - apply andb_true_iff in H. destruct H as [H He].
    apply andb_true_iff in H. destruct H as [Hs Hm].
    apply Bool.eqb_prop in Hs. apply Pos.eqb_eq in Hm. apply Z.eqb_eq in He.
    subst. reflexivity.
Qed.

(** A number that is read starts with a digit or the sign. *)
Lemma scan_number_head (s : list ascii) (vr : json * list ascii) :
  scan_number s = Some vr ->
  exists c tl, s = c :: tl /\ (is_digit c || Ascii.eqb c "-") = true.
Proof.
  destruct s as [|c tl]; [discriminate|]. intros H. exists c, tl.
  split; [reflexivity|].
  destruct (Ascii.eqb c "-") eqn:Hsign; [apply orb_true_r|].
  rewrite orb_false_r. unfold scan_number in H. rewrite Hsign in H.
  unfold scan_natural in H. unfold is_digit.
  destruct (Ascii.eqb_spec c "0") as [->|_]; [reflexivity|].
  cbn [scan_digits] in H. destruct (digit_of c); [reflexivity|discriminate].
Qed.

Lemma scan_value_other (f : nat) (c : ascii) (tl : list ascii) :
  Ascii.eqb c "034" = false -> Ascii.eqb c "{" = false ->
  Ascii.eqb c "[" = false ->
  scan_value (S f) (c :: tl) = scan_constant (c :: tl).
Proof.
  intros H1 H2 H3. cbn [scan_value]. rewrite H1, H2, H3. reflexivity.
Qed.

Lemma scan_value_number (f : nat) (s : list ascii) (vr : json * list ascii) :
  scan_number s = Some vr -> scan_value (S f) s = Some vr.
Proof.
  intros H. destruct (scan_number_head s vr H) as (c & tl & -> & Hc).
  assert (Hne : Ascii.eqb c "034" = false /\ Ascii.eqb c "{" = false /\
                Ascii.eqb c "[" = false /\ Ascii.eqb "n" c = false /\
                Ascii.eqb "t" c = false /\ Ascii.eqb "f" c = false).
  { clear H. destruct c as [[] [] [] [] [] [] [] []];
      try discriminate Hc; repeat split; reflexivity. }
  destruct Hne as (H1 & H2 & H3 & H4 & H5 & H6).
  rewrite (scan_value_other f c tl H1 H2 H3). unfold scan_constant.
  cbn [strip_prefix]. rewrite H4, H5, H6, H. reflexivity.
Qed.

Lemma scan_value_int (f : nat) (z : Z) (rest : list ascii) :
  closes rest = true ->
  scan_value (S f) (encode_int z ++ rest) = Some (JNum z, rest).
Proof.
  intros Hrest. apply scan_value_number.
  rewrite (scan_number_app _ _ Hrest), scan_number_int. reflexivity.
Qed.

(** A float that reads back from its [repr] is read back from a text that
    goes on after it. *)
Lemma scan_value_float (f : nat) (x : spec_float) (rest : list ascii) :
  float_ok x = true -> closes rest = true ->
  scan_value (S f) (float_repr x ++ rest) = Some (JFloat x, rest).
Proof.
  intros Hok Hrest.
  assert (Hfinite : forall y : spec_float,
            match scan_number (float_repr y) with
            | Some (JFloat y', []) => float_eqb y y'
            | _ => false
            end = true ->
            scan_value (S f) (float_repr y ++ rest) = Some (JFloat y, rest)).
  { intros y Hy. apply scan_value_number.
    rewrite (scan_number_app _ _ Hrest).
    destruct (scan_number (float_repr y)) as [[v t]|]; [|discriminate].
    destruct v; try discriminate. destruct t; [|discriminate].
    apply float_eqb_eq in Hy. subst. reflexivity. }
  destruct x as [s|s| |s m e].
  - apply Hfinite, Hok.
  - destruct s; reflexivity.
  - reflexivity.
  - apply Hfinite, Hok.
Qed.

(** *** Values *)

(** Every text the encoder writes for a Python value starts with a
    character that starts a value. *)
Lemma encode_head (v : json) :
  wf v -> exists c tl, encode v = c :: tl /\ value_start c = true.
Proof.
  assert (Hnumber : forall s vr, scan_number s = Some vr ->
            exists c tl, s = c :: tl /\ value_start c = true).
  { intros s vr H. destruct (scan_number_head s vr H) as (c & tl & -> & Hc).
    exists c, tl. split; [reflexivity|]. unfold value_start.
    apply orb_true_iff in Hc. destruct Hc as [Hc|Hc]; rewrite Hc;
      repeat rewrite orb_true_r; reflexivity. }
  destruct v as [|b|z|x|s|l|m]; cbn [encode]; intros Hwf.
  - eexists _, _. split; reflexivity.
  - destruct b; eexists _, _; split; reflexivity.
  - apply (Hnumber _ _ (scan_number_int z)).
  - cbn [wf] in Hwf. destruct x as [sg|sg| |sg mx ex].
    + destruct sg; eexists _, _; split; reflexivity.
    + destruct sg; eexists _, _; split; reflexivity.
    + eexists _, _. split; reflexivity.
    + unfold float_ok in Hwf.
      destruct (scan_number (float_repr (S754_finite sg mx ex))) as [vr|] eqn:E;
        [|discriminate]. apply (Hnumber _ _ E).
  - eexists _, _. split; reflexivity.
  - eexists _, _. split; reflexivity.
  - eexists _, _. split; reflexivity.
Qed.

Lemma skip_ws_value_start (c : ascii) (tl : list ascii) :
  value_start c = true -> skip_ws (c :: tl) = c :: tl.
Proof.
  destruct c as [[] [] [] [] [] [] [] []]; intros H;
    try discriminate H; reflexivity.
Qed.

Lemma skip_ws_encode (v : json) (rest : list ascii) :
  wf v -> skip_ws (encode v ++ rest) = encode v ++ rest.
Proof.
  intros Hwf. destruct (encode_head v Hwf) as (c & tl & Heq & Hc).
  rewrite Heq. apply skip_ws_value_start, Hc.
Qed.

Lemma value_start_not_close (c : ascii) :
  value_start c = true ->
  Ascii.eqb c "]" = false /\ Ascii.eqb c "}" = false.
Proof.
  destruct c as [[] [] [] [] [] [] [] []]; intros H;
    try discriminate H; split; reflexivity.
Qed.

Lemma wf_arr (l : list json) : wf (JArr l) <-> Forall wf l.
Proof.
  induction l as [|x l IH].
  - split; intros _; [constructor | exact I].
  - split.
    + intros [Hx Hl]. constructor; [exact Hx | apply IH, Hl].
    + intros H. inversion H; subst. split; [assumption | apply IH; assumption].
Qed.

Lemma wf_members (m : list (string * json)) :
  (fix all (m : list (string * json)) : Prop :=
     match m with
     | [] => True
     | kv :: m' => (text_ok (fst kv) = true /\ wf (snd kv)) /\ all m'
     end) m <->
  Forall (fun kv => text_ok (fst kv) = true /\ wf (snd kv)) m.
Proof.
  induction m as [|kv m IH].
  - split; intros _; [constructor | exact I].
  - split.
    + intros [Hx Hl]. constructor; [exact Hx | apply IH, Hl].
    + intros H. inversion H; subst. split; [assumption | apply IH; assumption].
Qed.

Lemma wf_obj (m : list (string * json)) :
  wf (JObj m) <->
  NoDup (map fst m) /\
  Forall (fun kv => text_ok (fst kv) = true /\ wf (snd kv)) m.
Proof.
  change (wf (JObj m)) with
    (NoDup (map fst m) /\
     (fix all (m : list (string * json)) : Prop :=
        match m with
        | [] => True
        | kv :: m' => (text_ok (fst kv) = true /\ wf (snd kv)) /\ all m'
        end) m).
  rewrite wf_members. reflexivity.
Qed.

(** Building a dict from items whose keys are distinct keeps the items. *)
Lemma dict_set_fresh (k : string) (v : json) (acc : list (string * json)) :
  ~ In k (map fst acc) -> dict_set k v acc = acc ++ [(k, v)].
Proof.
  induction acc as [|[k' w] acc IH]; simpl; intros Hfresh.
  - reflexivity.
  - destruct (String.eqb_spec k' k) as [->|Hne].
    + exfalso. apply Hfresh. left. reflexivity.
    + rewrite IH; [reflexivity | intros Hin; apply Hfresh; right; exact Hin].
Qed.

Lemma dict_of_pairs_acc (m acc : list (string * json)) :
  NoDup (map fst (acc ++ m)) ->
  fold_left (fun d kv => dict_set (fst kv) (snd kv) d) m acc = acc ++ m.
Proof.
  revert acc. induction m as [|[k v] m IH]; intros acc Hnd; simpl.
  - rewrite List.app_nil_r. reflexivity.
  - rewrite dict_set_fresh.
    + rewrite IH; rewrite <- List.app_assoc; [reflexivity | exact Hnd].
    + rewrite map_app in Hnd. simpl in Hnd.
      apply NoDup_remove_2 in Hnd. intros Hin. apply Hnd.
      apply in_or_app. left. exact Hin.
Qed.

Lemma dict_of_pairs_distinct (m : list (string * json)) :
  NoDup (map fst m) -> dict_of_pairs m = m.
Proof. intros H. apply (dict_of_pairs_acc m [] H). Qed.

(** One step of the scanner inside an array and inside an object. *)
Lemma scan_items_more (f : nat) (s r r2 : list ascii) (v : json)
    (vs : list json) :
  scan_value f s = Some (v, "," :: " " :: r) ->
  scan_items f (skip_ws r) = Some (vs, r2) ->
  scan_items (S f) s = Some (v :: vs, r2).
Proof. intros H1 H2. simpl. rewrite H1. simpl. rewrite H2. reflexivity. Qed.

Lemma scan_items_last (f : nat) (s r : list ascii) (v : json) :
  scan_value f s = Some (v, "]" :: r) ->
  scan_items (S f) s = Some ([v], r).
Proof. intros H1. simpl. rewrite H1. reflexivity. Qed.

Lemma scan_members_more (f : nat) (s r1 r2 r3 : list ascii) (k : string)
    (v : json) (ps : list (string * json)) :
  scan_string s = Some (k, ":" :: " " :: r1) ->
  scan_value f (skip_ws r1) = Some (v, "," :: " " :: r2) ->
  scan_members f (skip_ws r2) = Some (ps, r3) ->
  scan_members (S f) ("034" :: s) = Some ((k, v) :: ps, r3).
Proof.
  intros H1 H2 H3. simpl. rewrite H1. simpl. rewrite H2. simpl. rewrite H3.
  reflexivity.
Qed.

Lemma scan_members_last (f : nat) (s r1 r2 : list ascii) (k : string)
    (v : json) :
  scan_string s = Some (k, ":" :: " " :: r1) ->
  scan_value f (skip_ws r1) = Some (v, "}" :: r2) ->
  scan_members (S f) ("034" :: s) = Some ([(k, v)], r2).
Proof.
  intros H1 H2. simpl. rewrite H1. simpl. rewrite H2. reflexivity.
Qed.

Lemma join_cons2 (p q : list ascii) (ps : list (list ascii)) :
  join (p :: q :: ps) = p ++ "," :: " " :: join (q :: ps).
Proof. reflexivity. Qed.

Lemma skip_ws_join (y : json) (l : list json) (rest : list ascii) :
  wf y ->
  skip_ws (join (map encode (y :: l)) ++ rest) =
  join (map encode (y :: l)) ++ rest.
Proof.
  intros Hwf. destruct l as [|y' l'].
  - apply skip_ws_encode, Hwf.
  - change (map encode (y :: y' :: l')) with
      (encode y :: encode y' :: map encode l').
    rewrite join_cons2, <- List.app_assoc. apply skip_ws_encode, Hwf.
Qed.

Lemma scan_items_join (x : json) (l : list json) :
  reads_back x -> Forall reads_back l -> wf x -> Forall wf l ->
  forall (n : nat) (rest : list ascii),
    (2 * List.length (join (map encode (x :: l))) + 1 <= n)%nat ->
    scan_items n (join (map encode (x :: l)) ++ "]" :: rest) =
    Some (x :: l, rest).
Proof.
  revert x. induction l as [|y l IH]; intros x Hx Hl Hwx Hwl n rest Hn.
  - change (join (map encode [x])) with (encode x) in *.
    destruct n as [|f]; [lia|].
    apply scan_items_last. apply (Hx Hwx); [lia | reflexivity].
  - inversion Hl as [|? ? Hy Hl']; subst.
    inversion Hwl as [|? ? Hwy Hwl']; subst.
    change (map encode (x :: y :: l)) with
      (encode x :: encode y :: map encode l) in *.
    rewrite join_cons2 in *. rewrite <- List.app_assoc.
    rewrite List.length_app in Hn.
    change (List.length ("," :: " " :: ?t)) with (S (S (List.length t))) in Hn.
    destruct n as [|f]; [lia|].
    apply scan_items_more with
      (r := join (encode y :: map encode l) ++ "]" :: rest).
    + apply (Hx Hwx); [lia | reflexivity].
    + change (encode y :: map encode l) with (map encode (y :: l)).
      rewrite (skip_ws_join _ _ _ Hwy).
      apply (IH y Hy Hl' Hwy Hwl'). simpl map. lia.
Qed.

Lemma member_text_app (k : string) (v : json) (tail : list ascii) :
  member_text (k, v) ++ tail =
  "034" :: escape_string k ++ "034" :: ":" :: " " :: encode v ++ tail.
Proof.
  unfold member_text, encode_string. simpl.
  rewrite <- !List.app_assoc. reflexivity.
Qed.

Lemma member_text_length (k : string) (v : json) :
  (List.length (encode v) <= List.length (member_text (k, v)))%nat.
Proof.
  unfold member_text. rewrite List.length_app. simpl. lia.
Qed.

Lemma skip_ws_members (kv : string * json) (m : list (string * json))
    (rest : list ascii) :
  skip_ws (join (map member_text (kv :: m)) ++ rest) =
  join (map member_text (kv :: m)) ++ rest.
Proof.
  destruct kv as [k v]. destruct m as [|kv' m'].
  - change (join (map member_text [(k, v)])) with (member_text (k, v)).
    rewrite member_text_app. reflexivity.
  - change (map member_text ((k, v) :: kv' :: m')) with
      (member_text (k, v) :: member_text kv' :: map member_text m').
    rewrite join_cons2, <- List.app_assoc, member_text_app. reflexivity.
Qed.

Lemma scan_members_join (kv : string * json) (m : list (string * json)) :
  reads_back (snd kv) -> Forall (fun kv => reads_back (snd kv)) m ->
  text_ok (fst kv) = true /\ wf (snd kv) ->
  Forall (fun kv => text_ok (fst kv) = true /\ wf (snd kv)) m ->
  forall (n : nat) (rest : list ascii),
    (2 * List.length (join (map member_text (kv :: m))) + 1 <= n)%nat ->
    scan_members n (join (map member_text (kv :: m)) ++ "}" :: rest) =
    Some (kv :: m, rest).
Proof.
  revert kv. induction m as [|kv' m IH];
    intros [k v] Hx Hl [Hk Hwx] Hwl n rest Hn; simpl fst in *; simpl snd in *.
  - change (join (map member_text [(k, v)])) with (member_text (k, v)) in *.
    pose proof (member_text_length k v) as Hlen.
    destruct n as [|f]; [lia|].
    rewrite member_text_app.
    apply scan_members_last with (r1 := encode v ++ "}" :: rest).
    + apply scan_string_escape, Hk.
    + rewrite (skip_ws_encode _ _ Hwx). apply (Hx Hwx); [lia | reflexivity].
  - inversion Hl as [|? ? Hy Hl']; subst.
    inversion Hwl as [|? ? Hwy Hwl']; subst.
    change (map member_text ((k, v) :: kv' :: m)) with
      (member_text (k, v) :: member_text kv' :: map member_text m) in *.
    rewrite join_cons2 in *. rewrite <- List.app_assoc.
    rewrite List.length_app in Hn.
    change (List.length ("," :: " " :: ?t)) with (S (S (List.length t))) in Hn.
    pose proof (member_text_length k v) as Hlen.
    destruct n as [|f]; [lia|].
    rewrite member_text_app.
    apply scan_members_more with
      (r1 := encode v ++
             ("," :: " " :: join (member_text kv' :: map member_text m)) ++
             "}" :: rest)
      (r2 := join (member_text kv' :: map member_text m) ++ "}" :: rest).
    + apply scan_string_escape, Hk.
    + rewrite (skip_ws_encode _ _ Hwx). apply (Hx Hwx); [lia | reflexivity].
    + change (member_text kv' :: map member_text m) with
        (map member_text (kv' :: m)).
      rewrite skip_ws_members. apply (IH kv' Hy Hl' Hwy Hwl'). simpl map. lia.
Qed.

Lemma join_items_head (x : json) (l : list json) (rest : list ascii) :
  wf x ->
  exists c tl, join (map encode (x :: l)) ++ rest = c :: tl /\
               value_start c = true.
Proof.
  intros Hwf. destruct (encode_head x Hwf) as (c & tl & Heq & Hc).
  destruct l as [|y l'].
  - change (join (map encode [x])) with (encode x). rewrite Heq.
    exists c, (tl ++ rest). split; [reflexivity | exact Hc].
  - change (map encode (x :: y :: l')) with
      (encode x :: encode y :: map encode l').
    rewrite join_cons2, Heq. eexists c, _. split; [reflexivity | exact Hc].
Qed.

Lemma join_members_head (kv : string * json) (m : list (string * json))
    (rest : list ascii) :
  exists tl, join (map member_text (kv :: m)) ++ rest = "034" :: tl.
Proof.
  destruct kv as [k v]. destruct m as [|kv' m'].
  - change (join (map member_text [(k, v)])) with (member_text (k, v)).
    rewrite member_text_app. eexists. reflexivity.
  - change (map member_text ((k, v) :: kv' :: m')) with
      (member_text (k, v) :: member_text kv' :: map member_text m').
    rewrite join_cons2, <- List.app_assoc, member_text_app.
    eexists. reflexivity.
Qed.

Lemma scan_value_open_bracket (f : nat) (r : list ascii) :
  scan_value (S f) ("[" :: r) =
  match skip_ws r with
  | [] => None
  | c1 :: r1 =>
      if Ascii.eqb c1 "]" then Some (JArr [], r1)
      else
        match scan_items f (c1 :: r1) with
        | Some (vs, r') => Some (JArr vs, r')
        | None => None
        end
  end.
Proof. reflexivity. Qed.

Lemma scan_value_open_brace (f : nat) (r : list ascii) :
  scan_value (S f) ("{" :: r) =
  match skip_ws r with
  | [] => None
  | c1 :: r1 =>
      if Ascii.eqb c1 "}" then Some (JObj [], r1)
      else
        match scan_members f (c1 :: r1) with
        | Some (ps, r') => Some (JObj (dict_of_pairs ps), r')
        | None => None
        end
  end.
Proof. reflexivity. Qed.

(** The scanner reads back every value the encoder wrote. *)
Theorem scan_value_encode (v : json) : reads_back v.
Proof.
  induction v as [|b|z|x|s|l IH|m IH] using json_nested_ind;
    intros Hwf n rest Hn Hrest.
  - destruct n as [|f]; [simpl in Hn; lia | reflexivity].
  - destruct n as [|f]; [destruct b; simpl in Hn; lia |].
    destruct b; reflexivity.
  - destruct n as [|f].
    + destruct (encode_int_head z) as (c & tl & Heq & _).
      simpl in Hn. rewrite Heq in Hn. simpl in Hn. lia.
    + apply scan_value_int, Hrest.
  - destruct n as [|f].
    + destruct (encode_head (JFloat x) Hwf) as (c & tl & Heq & _).
      rewrite Heq in Hn. simpl in Hn. lia.
    + apply scan_value_float; assumption.
  - destruct n as [|f]; [simpl in Hn; lia|].
    change (encode (JStr s) ++ rest) with
      ("034" :: (escape_string s ++ ["034"]) ++ rest).
    rewrite <- List.app_assoc. cbn [scan_value app].
    change (Ascii.eqb "034" "034") with true. cbv iota.
    rewrite (scan_string_escape s rest Hwf). reflexivity.
  - apply wf_arr in Hwf.
    destruct n as [|f]; [simpl in Hn; lia|].
    destruct l as [|x l]; [reflexivity|].
    inversion IH as [|? ? Hx Hl]; subst. inversion Hwf as [|? ? Hwx Hwl]; subst.
    change (encode (JArr (x :: l)) ++ rest) with
      ("[" :: (join (map encode (x :: l)) ++ ["]"]) ++ rest).
    rewrite <- List.app_assoc. change (["]"] ++ rest) with ("]" :: rest).
    rewrite scan_value_open_bracket, (skip_ws_join _ _ _ Hwx).
    assert (Hlen : (2 * List.length (join (map encode (x :: l))) + 1 <= f)%nat).
    { change (encode (JArr (x :: l))) with
        ("[" :: join (map encode (x :: l)) ++ ["]"]) in Hn.
      cbn [List.length] in Hn. rewrite List.length_app in Hn.
      cbn [List.length] in Hn. lia. }
    pose proof (scan_items_join x l Hx Hl Hwx Hwl f rest Hlen) as Hscan.
    destruct (join_items_head x l ("]" :: rest) Hwx) as (c1 & r1 & Etext & Hc).
    rewrite Etext in *.
    rewrite (proj1 (value_start_not_close c1 Hc)), Hscan. reflexivity.
  - apply wf_obj in Hwf. destruct Hwf as [Hnd Hwf].
    destruct n as [|f]; [simpl in Hn; lia|].
    destruct m as [|kv m]; [reflexivity|].
    inversion IH as [|? ? Hx Hl]; subst. inversion Hwf as [|? ? Hwx Hwl]; subst.
    change (encode (JObj (kv :: m)) ++ rest) with
      ("{" :: (join (map member_text (kv :: m)) ++ ["}"]) ++ rest).
    rewrite <- List.app_assoc. change (["}"] ++ rest) with ("}" :: rest).
    rewrite scan_value_open_brace, skip_ws_members.
    assert (Hlen : (2 * List.length (join (map member_text (kv :: m))) + 1
                    <= f)%nat).
    { change (encode (JObj (kv :: m))) with
        ("{" :: join (map member_text (kv :: m)) ++ ["}"]) in Hn.
      cbn [List.length] in Hn. rewrite List.length_app in Hn.
      cbn [List.length] in Hn. lia. }
    pose proof (scan_members_join kv m Hx Hl Hwx Hwl f rest Hlen) as Hscan.
    destruct (join_members_head kv m ("}" :: rest)) as (r1 & Etext).
    rewrite Etext in *.
    change (Ascii.eqb "034" "}") with false. cbv iota.
    rewrite Hscan, (dict_of_pairs_distinct _ Hnd). reflexivity.
Qed.

(** [json.loads(json.dumps(v))] is [v]. *)
Theorem loads_dumps (v : json) : wf v -> loads (dumps v) = Some v.
Proof.
  intros Hwf. unfold loads, dumps.
  rewrite list_ascii_of_string_of_list_ascii.
  pose proof (skip_ws_encode v [] Hwf) as Hskip.
  rewrite List.app_nil_r in Hskip. rewrite Hskip.
  pose proof (scan_value_encode v Hwf (2 * List.length (encode v) + 1)%nat [])
    as Hscan.
  rewrite List.app_nil_r in Hscan. rewrite Hscan; [reflexivity | lia | reflexivity].
Qed.

(** *** The text [json.dumps] writes is ASCII *)

Lemma ascii_app (a b : list ascii) :
  forallb is_ascii a = true -> forallb is_ascii b = true ->
  forallb is_ascii (a ++ b) = true.
Proof. intros Ha Hb. rewrite forallb_app, Ha, Hb. reflexivity. Qed.

Lemma ascii_firstn (n : nat) (l : list ascii) :
  forallb is_ascii l = true -> forallb is_ascii (firstn n l) = true.
Proof.
  revert n. induction l as [|c l IH]; intros [|n] H; try reflexivity.
  cbn [firstn forallb] in *. apply andb_true_iff in H. destruct H as [Hc Hl].
  rewrite Hc. apply IH, Hl.
Qed.

Lemma ascii_skipn (n : nat) (l : list ascii) :
  forallb is_ascii l = true -> forallb is_ascii (skipn n l) = true.
Proof.
  revert n. induction l as [|c l IH]; intros [|n] H; try reflexivity;
    [exact H|].
  cbn [skipn forallb] in *. apply andb_true_iff in H. apply IH, H.
Qed.

Lemma ascii_rev (l : list ascii) :
  forallb is_ascii l = true -> forallb is_ascii (rev l) = true.
Proof.
  intros H. apply forallb_forall. intros c Hc. apply in_rev in Hc.
  apply (proj1 (forallb_forall is_ascii l) H c Hc).
Qed.

Lemma ascii_drop_zeros (l : list ascii) :
  forallb is_ascii l = true -> forallb is_ascii (drop_zeros l) = true.
Proof.
  induction l as [|c l IH]; intros H; [reflexivity|].
  cbn [drop_zeros]. destruct (Ascii.eqb c "0"); [|exact H].
  cbn [forallb] in H. apply andb_true_iff in H. apply IH, H.
Qed.

Lemma ascii_zeros (k : Z) : forallb is_ascii (zeros k) = true.
Proof.
  unfold zeros. induction (Z.to_nat k) as [|n IH]; [reflexivity|].
  cbn [repeat forallb]. rewrite IH. reflexivity.
Qed.

Lemma ascii_uint_chars (d : Decimal.uint) :
  forallb is_ascii (uint_chars d) = true.
Proof. induction d; cbn [uint_chars forallb]; try rewrite IHd; reflexivity. Qed.

Lemma ascii_encode_int (z : Z) : forallb is_ascii (encode_int z) = true.
Proof.
  unfold encode_int. destruct (Z.to_int z); cbn [forallb];
    rewrite ascii_uint_chars; reflexivity.
Qed.

Lemma ascii_exponent_chars (e : Z) :
  forallb is_ascii (exponent_chars e) = true.
Proof.
  unfold exponent_chars. pose proof (ascii_encode_int (Z.abs e)) as H.
  assert (Hsign : is_ascii (if (e <? 0)%Z then "-" else "+") = true)
    by (destruct (e <? 0)%Z; reflexivity).
  cbn [forallb]. rewrite Hsign. cbn [andb].
  destruct (encode_int (Z.abs e)) as [|d [|d' r]]; try exact H.
Qed.

Lemma ascii_layout (digits : list ascii) (decpt : Z) :
  forallb is_ascii digits = true ->
  forallb is_ascii (layout digits decpt) = true.
Proof.
  intros H. unfold layout.
  destruct ((decpt <=? -4)%Z || (16 <? decpt)%Z).
  - destruct digits as [|d rest]; [reflexivity|].
    cbn [forallb] in H. apply andb_true_iff in H. destruct H as [Hd Hrest].
    apply ascii_app.
    + destruct rest; cbn [forallb] in *; rewrite Hd; [reflexivity|].
      cbn [andb]. exact Hrest.
    + cbn [forallb]. apply ascii_exponent_chars.
  - destruct (decpt <=? 0)%Z.
    + cbn [forallb andb]. apply ascii_app; [apply ascii_zeros | exact H].
    + destruct (decpt <? Z.of_nat (List.length digits))%Z.
      * apply ascii_app; [apply ascii_firstn, H|].
        cbn [forallb andb]. apply ascii_skipn, H.
      * apply ascii_app; [exact H|].
        apply ascii_app; [apply ascii_zeros | reflexivity].
Qed.

Lemma ascii_float_repr (x : spec_float) :
  forallb is_ascii (float_repr x) = true.
Proof.
  destruct x as [s|s| |s m e]; try (destruct s; reflexivity); [reflexivity|].
  unfold float_repr.
  destruct (if (0 <=? e)%Z then (Z.pos m * 2 ^ e, 1)%Z
            else (Z.pos m, 2 ^ (- e))%Z) as [num den].
  destruct (shortest 16 s (S754_finite s m e) num den
              (decimal_point num den) 1) as [c n].
  apply ascii_app; [destruct s; reflexivity|].
  apply ascii_layout. unfold strip_trailing_zeros.
  apply ascii_rev, ascii_drop_zeros, ascii_rev, ascii_encode_int.
Qed.

Lemma ascii_hex_digit (n : N) : is_ascii (hex_digit n) = true.
Proof.
  unfold hex_digit.
  repeat match goal with
         | |- context [match ?x with _ => _ end] => destruct x
         end; reflexivity.
Qed.

Lemma ascii_escape_unit (n : N) : forallb is_ascii (escape_unit n) = true.
Proof.
  unfold escape_unit. cbn [forallb]. rewrite !ascii_hex_digit. reflexivity.
Qed.

Lemma ascii_escape_code_point (c : N) :
  forallb is_ascii (escape_code_point c) = true.
Proof.
  unfold escape_code_point.
  repeat match goal with
         | |- context [(c =? ?k)%N] => destruct (c =? k)%N; [reflexivity|]
         end.
  destruct (N.leb_spec 32 c) as [H32|H32]; cbn [andb].
  - destruct (N.leb_spec c 126) as [H126|H126].
    + cbn [forallb]. unfold is_ascii. rewrite N_ascii_embedding by lia.
      destruct (N.ltb_spec c 128); [reflexivity | lia].
    + destruct (c <? 65536)%N; [apply ascii_escape_unit|].
      apply ascii_app; apply ascii_escape_unit.
  - destruct (c <? 65536)%N; [apply ascii_escape_unit|].
    apply ascii_app; apply ascii_escape_unit.
Qed.

Lemma ascii_escape_string (s : string) :
  forallb is_ascii (escape_string s) = true.
Proof.
  unfold escape_string.
  induction (code_points (list_ascii_of_string s)) as [|c l IH];
    [reflexivity|].
  cbn [flat_map]. apply ascii_app; [apply ascii_escape_code_point | exact IH].
Qed.

Lemma ascii_encode_string (s : string) :
  forallb is_ascii (encode_string s) = true.
Proof.
  unfold encode_string. cbn [forallb andb].
  apply ascii_app; [apply ascii_escape_string | reflexivity].
Qed.

Lemma ascii_join (pieces : list (list ascii)) :
  Forall (fun p => forallb is_ascii p = true) pieces ->
  forallb is_ascii (join pieces) = true.
Proof.
  induction 1 as [|p ps Hp Hps IH]; [reflexivity|].
  destruct ps as [|q ps]; [exact Hp|].
  change (join (p :: q :: ps)) with (p ++ "," :: " " :: join (q :: ps)).
  apply ascii_app; [exact Hp|]. cbn [forallb andb]. exact IH.
Qed.

Lemma ascii_encode (v : json) : forallb is_ascii (encode v) = true.
Proof.
  induction v as [|b|z|x|s|l IH|m IH] using json_nested_ind; cbn [encode].
  - reflexivity.
  - destruct b; reflexivity.
  - apply ascii_encode_int.
  - apply ascii_float_repr.
  - apply ascii_encode_string.
  - cbn [forallb andb]. apply ascii_app; [|reflexivity].
    apply ascii_join. apply Forall_map. exact IH.
  - cbn [forallb andb]. apply ascii_app; [|reflexivity].
    apply ascii_join. apply Forall_map.
    apply (Forall_impl _ (P := fun kv => forallb is_ascii (encode (snd kv)) = true));
      [|exact IH].
    intros kv Hkv. apply ascii_app; [apply ascii_encode_string|].
    cbn [forallb andb]. exact Hkv.
Qed.

(** ASCII text is a str, one code point to the byte. *)
Lemma code_points_ascii (l : list ascii) :
  forallb is_ascii l = true -> code_points l = map N_of_ascii l.
Proof.
  induction l as [|c l IH]; intros H; [reflexivity|].
  cbn [forallb] in H. apply andb_true_iff in H. destruct H as [Hc Hl].
  unfold is_ascii in Hc. apply N.ltb_lt in Hc.
  cbn [code_points map]. cbv zeta.
  destruct (N.ltb_spec (N_of_ascii c) 192) as [_|Hge]; [|lia].
  rewrite (IH Hl). reflexivity.
Qed.

Lemma no_pair_cons (c : N) (l : list N) :
  is_high c = false -> no_pair l = true -> no_pair (c :: l) = true.
Proof.
  intros Hhigh Hpair. destruct l as [|c' l]; [reflexivity|].
  change (no_pair (c :: c' :: l))
    with (negb (is_high c && is_low c') && no_pair (c' :: l)).
  rewrite Hhigh, Hpair. reflexivity.
Qed.

Lemma ascii_text_ok (l : list ascii) :
  forallb is_ascii l = true -> text_ok (string_of_list_ascii l) = true.
Proof.
  intros H. unfold text_ok. rewrite list_ascii_of_string_of_list_ascii.
  rewrite (code_points_ascii l H).
  assert (Hbytes : flat_map utf8 (map N_of_ascii l) = l /\
                   forallb (fun c => (c <? 1114112)%N) (map N_of_ascii l)
                   = true /\
                   no_pair (map N_of_ascii l) = true).
  { induction l as [|c l IH]; [repeat split|].
    cbn [forallb] in H. apply andb_true_iff in H. destruct H as [Hc Hl].
    destruct (IH Hl) as (Hflat & Hvalid & Hpair).
    unfold is_ascii in Hc. apply N.ltb_lt in Hc.
    assert (Hhigh : is_high (N_of_ascii c) = false).
    { unfold is_high. destruct (N.leb_spec 55296 (N_of_ascii c));
        [lia | reflexivity]. }
    cbn [map flat_map forallb]. rewrite utf8_ascii by exact Hc.
    rewrite ascii_N_embedding, Hvalid.
    destruct (N.ltb_spec (N_of_ascii c) 1114112); [|lia].
    cbn [app]. rewrite Hflat.
    repeat split. apply no_pair_cons; assumption. }
  destruct Hbytes as (Hflat & Hvalid & Hpair).
  rewrite Hflat, String.eqb_refl, Hvalid, Hpair. reflexivity.
Qed.

(** What [json.dumps] writes is a str, and so a Python value. *)
Lemma dumps_text_ok (v : json) : text_ok (dumps v) = true.
Proof. apply ascii_text_ok, ascii_encode. Qed.

End JsonFacts.

(** ** The drinks table *)

Module ModelFacts.

Import Json Py Flask Models Auth Api Props.
Local Open Scope list_scope.

Lemma rows_with_id_absent (i : Z) (tb : Table) :
  ~ In i (map row_id tb) -> rows_with_id i tb = [].
Proof.
  induction tb as [|r tb IH]; simpl; intros Hin.
  - reflexivity.
  - destruct (Z.eqb_spec (row_id r) i) as [Heq|Hne].
    + exfalso. apply Hin. left. exact Heq.
    + apply IH. intros H. apply Hin. right. exact H.
Qed.

Lemma exists_id_false (i : Z) (tb : Table) :
  exists_id i tb = false -> rows_with_id i tb = [].
Proof.
  unfold exists_id, rows_with_id.
  induction tb as [|r tb IH]; simpl; intros H.
  - reflexivity.
  - apply orb_false_iff in H. destruct H as [Hr Htb].
    rewrite Hr. apply IH, Htb.
Qed.

(** With unique ids, the rows of an id that exists are one row. *)
Lemma exists_id_true (i : Z) (tb : Table) :
  NoDup (map row_id tb) -> exists_id i tb = true ->
  exists r, rows_with_id i tb = [r] /\ In r tb /\ row_id r = i.
Proof.
  unfold exists_id.
  induction tb as [|r tb IH]; simpl; intros Hnd H.
  - discriminate H.
  - inversion Hnd as [|? ? Hnotin Hnd']; subst.
    destruct (Z.eqb_spec (row_id r) i) as [Heq|Hne].
    + exists r. rewrite rows_with_id_absent; [|rewrite <- Heq; exact Hnotin].
      repeat split; [left; reflexivity | exact Heq].
    + simpl in H. destruct (IH Hnd' H) as (r' & Hrows & Hin & Hid).
      exists r'. repeat split; [exact Hrows | right; exact Hin | exact Hid].
Qed.

End ModelFacts.

(** ** The API *)

Module ApiFacts.

Import Json Py Flask Models Auth Api Props JsonFacts ModelFacts.
Local Open Scope list_scope.

Section Facts.

Variable verify : string -> TokenFailure + ClaimSet.

Lemma requires_auth_pass {A : Type} (permission : string)
    (f : ClaimSet -> Request -> M Table A) (req : Request) (tb : Table)
    (payload : ClaimSet) :
  authorize verify permission req = inr payload ->
  requires_auth verify permission f req tb = f payload req tb.
Proof.
  intros H. unfold requires_auth, bind, lift. rewrite H. reflexivity.
Qed.

Lemma requires_auth_fail {A : Type} (permission : string)
    (f : ClaimSet -> Request -> M Table A) (req : Request) (tb : Table)
    (e : exn) :
  authorize verify permission req = inl e ->
  requires_auth verify permission f req tb = (inl e, tb).
Proof.
  intros H. unfold requires_auth, bind, lift. rewrite H. reflexivity.
Qed.

(** The guard only ever raises an [AuthError]. *)
Lemma authorize_error (permission : string) (req : Request) (e : exn) :
  authorize verify permission req = inl e -> exists k, e = AuthError k.
Proof.
  unfold authorize, get_token_auth_header, check_permissions.
  destruct (authorization req) as [h|]; [|intros [= <-]; eauto].
  destruct (words h) as [|p rest]; [intros [= <-]; eauto|].
  destruct (negb (String.eqb p "Bearer")); [intros [= <-]; eauto|].
  destruct rest as [|token [|]]; try (intros [= <-]; eauto).
  destruct (verify token) as [f|payload]; [intros [= <-]; eauto|].
  destruct (permissions payload) as [ps|].
  - destruct (has_permission permission ps); [discriminate|].
    intros [= <-]; eauto.
  - destruct permission; intros [= <-]; eauto.
Qed.



(** What [update_drink] does with a request without body data, once the
    guard has let it through. *)
Lemma update_drink_view_no_data (i : Z) (payload : ClaimSet)
    (req : Request) (tb : Table) :
  no_data req = true ->
  update_drink_view i payload req tb = (inl (HTTPException 409), tb).
Proof.
  unfold no_data, update_drink_view, get_json, bind.
  destruct (json_body req) as [v|]; [|discriminate].
  intros H. unfold ret. rewrite H. reflexivity.
Qed.

Lemma patch_dispatch (req : Request) (tb : Table) (i : N) :
  method req = PATCH -> path req = DrinksId i ->
  dispatch_request verify req tb = update_drink verify (Z.of_N i) req tb.
Proof.
  intros Hm Hp. unfold dispatch_request. rewrite Hm, Hp. reflexivity.
Qed.

(** C3, as amended.  A PATCH on which [get_json()] yields no data,
    [None] or another empty value, for an id that exists: the answer is
    409 when the token passes the guard of [patch:drinks], and is not 409
    when it does not.  The table is unchanged either way. *)
Theorem update_drink_no_data_after_guard (req : Request) (tb : Table)
    (i : N) :
  method req = PATCH -> path req = DrinksId i ->
  no_data req = true ->
  exists_id (Z.of_N i) tb = true ->
  (forall payload,
      authorize verify "patch:drinks" req = inr payload ->
      full_dispatch_request verify req tb = (mkResponse 409 DefaultPage, tb))
  /\
  (forall e,
      authorize verify "patch:drinks" req = inl e ->
      snd (full_dispatch_request verify req tb) = tb /\
      status (fst (full_dispatch_request verify req tb)) <> 409).
Proof.
  intros Hm Hp Hdata _. unfold full_dispatch_request.
  rewrite (patch_dispatch req tb i Hm Hp). unfold update_drink. split.
  - intros payload Hauth.
    rewrite (requires_auth_pass _ _ _ _ _ Hauth).
    rewrite (update_drink_view_no_data _ _ _ _ Hdata). reflexivity.
  - intros e Hauth.
    rewrite (requires_auth_fail _ _ _ _ _ Hauth).
    destruct (authorize_error _ _ _ Hauth) as [k ->].
    split; [reflexivity|]. simpl. discriminate.
Qed.

(** C4, as amended.  Once the guard has let a PATCH through, the test
    for body data comes before the lookup of the id: when [get_json()]
    yields no data, [None] or another empty value, the answer is 409
    whatever the table holds, also when no row has the id, where a request
    with data would get 404. *)
Theorem update_drink_no_data_before_lookup (req : Request) (tb : Table)
    (i : N) (payload : ClaimSet) :
  method req = PATCH -> path req = DrinksId i ->
  authorize verify "patch:drinks" req = inr payload ->
  no_data req = true ->
  full_dispatch_request verify req tb = (mkResponse 409 DefaultPage, tb) /\
  (exists_id (Z.of_N i) tb = false ->
   status (fst (full_dispatch_request verify req tb)) <> 404).
Proof.
  intros Hm Hp Hauth Hdata.
  assert (H : full_dispatch_request verify req tb =
              (mkResponse 409 DefaultPage, tb)).
  { unfold full_dispatch_request.
    rewrite (patch_dispatch req tb i Hm Hp). unfold update_drink.
    rewrite (requires_auth_pass _ _ _ _ _ Hauth).
    rewrite (update_drink_view_no_data _ _ _ _ Hdata). reflexivity. }
  split; [exact H|]. intros _. rewrite H. simpl. discriminate.
Qed.

(** C5. A DELETE whose token holds [delete:drinks]: when no drink has
    the id the answer is 404 with the message "resource not found" and
    the table is unchanged; when one has, the answer is 200 with
    [{success: true, delete: id}] and its row is gone. *)
Theorem delete_drink_found_or_404 (req : Request) (tb : Table) (i : N)
    (payload : ClaimSet) :
  method req = DELETE -> path req = DrinksId i ->
  authorize verify "delete:drinks" req = inr payload ->
  NoDup (map row_id tb) ->
  (exists_id (Z.of_N i) tb = false ->
   full_dispatch_request verify req tb =
     (mkResponse 404
        (JsonBody (JObj [("success", JBool false); ("error", JNum 404);
                         ("message", JStr "resource not found")])),
      tb))
  /\
  (exists_id (Z.of_N i) tb = true ->
   full_dispatch_request verify req tb =
     (mkResponse 200
        (JsonBody (JObj [("success", JBool true);
                         ("delete", JNum (Z.of_N i))])),
      others (Z.of_N i) tb)).
Proof.
  intros Hm Hp Hauth Hnd.
  unfold full_dispatch_request, dispatch_request. rewrite Hm, Hp.
  unfold delete_drink. rewrite (requires_auth_pass _ _ _ _ _ Hauth).
  unfold delete_drink_view, bind, query_one_or_none. split; intros Hex.
  - rewrite (exists_id_false _ _ Hex). reflexivity.
  - destruct (exists_id_true _ _ Hnd Hex) as (r & Hrows & _ & Hid).
    rewrite Hrows. unfold delete. simpl. rewrite Hid. reflexivity.
Qed.

(** C10. A POST whose token passes the guard and whose [request.data]
    is empty: the view returns nothing at all.  The response is then the
    framework's internal-error page: not the 200 body and not a JSON
    error body. *)
Theorem add_drinks_empty_data_returns_nothing (req : Request) (tb : Table)
    (payload : ClaimSet) :
  method req = POST -> path req = Drinks ->
  authorize verify "post:drinks" req = inr payload ->
  data req = EmptyString ->
  dispatch_request verify req tb = (inr None, tb) /\
  full_dispatch_request verify req tb = (mkResponse 500 DefaultPage, tb).
Proof.
  intros Hm Hp Hauth Hdata.
  assert (Hd : dispatch_request verify req tb = (inr None, tb)).
  { unfold dispatch_request. rewrite Hm, Hp. unfold add_drinks.
    rewrite (requires_auth_pass _ _ _ _ _ Hauth).
    unfold add_drinks_view. rewrite Hdata. reflexivity. }
  split; [exact Hd|]. unfold full_dispatch_request. rewrite Hd. reflexivity.
Qed.

(** *** Error responses *)



Lemma returns_json_ret (v : json) : returns_json (ret (Some (jsonify v))).
Proof. intros tb r tb' [= <- _]. eauto. Qed.

Lemma returns_json_raise (e : exn) : returns_json (raise e).
Proof. intros tb r tb' H. discriminate H. Qed.

Lemma returns_json_none : returns_json (ret None).
Proof. intros tb r tb' H. discriminate H. Qed.

Lemma returns_json_bind {A : Type} (c : M Table A)
    (k : A -> M Table (option Response)) :
  (forall a, returns_json (k a)) -> returns_json (bind c k).
Proof.
  intros Hk tb r tb'. unfold bind.
  destruct (c tb) as [[e|a] tb1]; [discriminate|]. apply Hk.
Qed.

Lemma returns_json_guard (permission : string)
    (f : ClaimSet -> Request -> M Table (option Response)) (req : Request) :
  (forall payload, returns_json (f payload req)) ->
  returns_json (requires_auth verify permission f req).
Proof. intros Hf. apply returns_json_bind. intros payload. apply Hf. Qed.

Lemma get_drinks_json (req : Request) : returns_json (get_drinks req).
Proof.
  unfold get_drinks. repeat (apply returns_json_bind; intros ?).
  apply returns_json_ret.
Qed.

Lemma get_drink_details_json (payload : ClaimSet) (req : Request) :
  returns_json (get_drink_details_view payload req).
Proof.
  unfold get_drink_details_view. repeat (apply returns_json_bind; intros ?).
  apply returns_json_ret.
Qed.

Lemma add_drinks_json (payload : ClaimSet) (req : Request) :
  returns_json (add_drinks_view payload req).
Proof.
  unfold add_drinks_view. destruct (data req); [apply returns_json_none|].
  repeat (apply returns_json_bind; intros ?).
  match goal with |- returns_json (match ?x with _ => _ end) => destruct x end.
  - apply returns_json_bind; intros ?. apply returns_json_ret.
  - apply returns_json_raise.
Qed.

Lemma update_drink_json (i : Z) (payload : ClaimSet) (req : Request) :
  returns_json (update_drink_view i payload req).
Proof.
  unfold update_drink_view. repeat (apply returns_json_bind; intros ?).
  match goal with |- returns_json (match ?x with _ => _ end) => destruct x end.
  - repeat (apply returns_json_bind; intros ?). apply returns_json_ret.
  - apply returns_json_raise.
Qed.

Lemma delete_drink_json (i : Z) (payload : ClaimSet) (req : Request) :
  returns_json (delete_drink_view i payload req).
Proof.
  unfold delete_drink_view. repeat (apply returns_json_bind; intros ?).
  match goal with |- returns_json (match ?x with _ => _ end) => destruct x end.
  - repeat (apply returns_json_bind; intros ?). apply returns_json_ret.
  - apply returns_json_raise.
Qed.

(** Every response a view returns is a [jsonify] with status 200. *)
Lemma dispatch_request_json (req : Request) :
  returns_json (dispatch_request verify req).
Proof.
  unfold dispatch_request.
  destruct (path req), (method req);
    try apply returns_json_raise;
    try apply get_drinks_json;
    unfold add_drinks, get_drink_details, update_drink, delete_drink;
    apply returns_json_guard; intros payload;
    auto using get_drink_details_json, add_drinks_json, update_drink_json,
      delete_drink_json.
Qed.


(** *** What a request does to the table *)

Lemma reads_keep_table (payload : ClaimSet) (req : Request) (tb : Table) :
  snd (get_drinks req tb) = tb /\
  snd (get_drink_details_view payload req tb) = tb.
Proof.
  unfold get_drinks, get_drink_details_view, bind, query_all,
    query_order_by_id, lift, ret. split.
  - destruct (traverse short (map load tb)); reflexivity.
  - destruct (traverse long (map load (sort_by_id tb))); reflexivity.
Qed.

Lemma insert_table (d : Drink) (tb : Table) :
  snd (insert d tb) = tb \/
  exists t r, insert d tb =
              (inr {| id := Some (next_id tb); title := title d;
                      recipe := recipe d |},
               tb ++ [mkRow (next_id tb) t r]).
Proof.
  unfold insert. destruct (columns d) as [e|[t r]]; [left; reflexivity|].
  destruct (title_taken t tb); [left; reflexivity|]. right. eauto.
Qed.

Lemma add_drinks_view_table (payload : ClaimSet) (req : Request)
    (tb : Table) :
  snd (add_drinks_view payload req tb) = tb \/
  exists new, snd (add_drinks_view payload req tb) = tb ++ [new].
Proof.
  unfold add_drinks_view. destruct (data req); [left; reflexivity|].
  unfold bind, get_json, get_item, abort, raise, ret.
  destruct (json_body req) as [v|]; [|left; reflexivity].
  destruct v; try (left; reflexivity).
  match goal with |- context [insert ?d tb] => destruct (insert_table d tb)
    as [Hsame|(t & r & Hnew)] end.
  - match goal with |- context [insert ?d tb] =>
      destruct (insert d tb) as [[e|dr] tb1] end; simpl in Hsame; subst tb1.
    + left. reflexivity.
    + unfold query_first, lift.
      destruct (id dr) as [j|]; [|left; reflexivity].
      destruct (option_map load (hd_error (rows_with_id j tb))) as [dr'|];
        [|left; reflexivity].
      destruct (long dr'); left; reflexivity.
  - rewrite Hnew. right. exists (mkRow (next_id tb) t r).
    unfold query_first, lift. cbn [id].
    destruct (option_map load
                (hd_error (rows_with_id (next_id tb)
                             (tb ++ [mkRow (next_id tb) t r])))) as [dr'|];
      [|reflexivity].
    destruct (long dr'); reflexivity.
Qed.

Lemma replace_row_ids (new : Row) (tb : Table) :
  map row_id (replace_row new tb) = map row_id tb.
Proof.
  unfold replace_row. induction tb as [|x tb IH]; simpl; [reflexivity|].
  rewrite IH. destruct (Z.eqb_spec (row_id x) (row_id new)) as [Heq|Hne];
    [rewrite Heq|]; reflexivity.
Qed.

Lemma update_table (d : Drink) (tb : Table) :
  snd (update d tb) = tb \/
  exists i t r, id d = Some i /\ columns d = inr (t, r) /\
                title_taken t (others i tb) = false /\
                update d tb = (inr tt, replace_row (mkRow i t r) tb).
Proof.
  unfold update. destruct (id d) as [i|]; [|left; reflexivity].
  destruct (columns d) as [e|[t r]]; [left; reflexivity|].
  destruct (title_taken t (others i tb)) eqn:Htaken; [left; reflexivity|].
  right. exists i, t, r. auto.
Qed.

Lemma update_drink_view_table (i : Z) (payload : ClaimSet) (req : Request)
    (tb : Table) :
  map row_id (snd (update_drink_view i payload req tb)) = map row_id tb.
Proof.
  unfold update_drink_view, bind, get_json, get_item, abort, raise, ret,
    query_one_or_none.
  destruct (json_body req) as [v|]; [|reflexivity].
  destruct (negb (truthy v)); [reflexivity|].
  destruct v; try reflexivity.
  destruct (rows_with_id i tb) as [|r0 [|r1 rest]]; try reflexivity.
  match goal with |- context [update ?d tb] => destruct (update_table d tb)
    as [Hsame|(j & t & r & _ & _ & _ & Hnew)] end.
  - match goal with |- context [update ?d tb] =>
      destruct (update d tb) as [[e|u] tb1] end; simpl in Hsame; subst tb1.
    + reflexivity.
    + unfold lift.
      match goal with |- context [long ?d] => destruct (long d) end;
        reflexivity.
  - rewrite Hnew. unfold lift.
    match goal with |- context [long ?d] => destruct (long d) end;
      apply replace_row_ids.
Qed.

Lemma delete_drink_view_table (i : Z) (payload : ClaimSet) (req : Request)
    (tb : Table) :
  snd (delete_drink_view i payload req tb) = tb \/
  exists j, snd (delete_drink_view i payload req tb) = others j tb.
Proof.
  unfold delete_drink_view, bind, abort, raise, ret, query_one_or_none,
    delete.
  destruct (rows_with_id i tb) as [|r0 [|r1 rest]]; try (left; reflexivity).
  right. exists (row_id r0). reflexivity.
Qed.

Lemma dispatch_request_table (req : Request) (tb : Table) :
  keeps_ids tb (snd (dispatch_request verify req tb)).
Proof.
  unfold dispatch_request, keeps_ids.
  destruct (path req) as [| |i|], (method req);
    try (left; reflexivity).
  - left. f_equal. apply (reads_keep_table (mkClaims EmptyString None 0)).
  - unfold add_drinks.
    destruct (authorize verify "post:drinks" req) as [e|payload] eqn:Hauth.
    + rewrite (requires_auth_fail _ _ _ _ _ Hauth). left. reflexivity.
    + rewrite (requires_auth_pass _ _ _ _ _ Hauth).
      destruct (add_drinks_view_table payload req tb) as [H|H].
      * left. rewrite H. reflexivity.
      * right. left. exact H.
  - unfold get_drink_details.
    destruct (authorize verify "get:drinks-detail" req) as [e|payload]
      eqn:Hauth.
    + rewrite (requires_auth_fail _ _ _ _ _ Hauth). left. reflexivity.
    + rewrite (requires_auth_pass _ _ _ _ _ Hauth). left. f_equal.
      apply (reads_keep_table payload).
  - unfold update_drink.
    destruct (authorize verify "patch:drinks" req) as [e|payload] eqn:Hauth.
    + rewrite (requires_auth_fail _ _ _ _ _ Hauth). left. reflexivity.
    + rewrite (requires_auth_pass _ _ _ _ _ Hauth). left.
      apply update_drink_view_table.
  - unfold delete_drink.
    destruct (authorize verify "delete:drinks" req) as [e|payload] eqn:Hauth.
    + rewrite (requires_auth_fail _ _ _ _ _ Hauth). left. reflexivity.
    + rewrite (requires_auth_pass _ _ _ _ _ Hauth).
      destruct (delete_drink_view_table (Z.of_N i) payload req tb) as [H|H].
      * left. rewrite H. reflexivity.
      * right. right. exact H.
Qed.

Lemma full_dispatch_request_table (req : Request) (tb : Table) :
  snd (full_dispatch_request verify req tb) =
  snd (dispatch_request verify req tb).
Proof.
  unfold full_dispatch_request.
  destruct (dispatch_request verify req tb) as [[e|[r|]] tb']; reflexivity.
Qed.

(** *** A successful PATCH *)

Lemma update_cases (d : Drink) (tb : Table) :
  (exists e, update d tb = (inl e, tb) /\ status (handle_exception e) = 500) \/
  (exists i t r, id d = Some i /\ columns d = inr (t, r) /\
                 title_taken t (others i tb) = false /\
                 update d tb = (inr tt, replace_row (mkRow i t r) tb)).
Proof.
  unfold update. destruct (id d) as [i|]; [|left; eexists; split; reflexivity].
  destruct (columns d) as [e|[t r]] eqn:Hcol.
  - left. exists e. split; [reflexivity|]. unfold columns in Hcol.
    destruct (title d), (recipe d); inversion Hcol; reflexivity.
  - destruct (title_taken t (others i tb)) eqn:Htaken.
    + left. eexists. split; reflexivity.
    + right. exists i, t, r. auto.
Qed.

Lemma long_error (d : Drink) (e : exn) :
  long d = inl e -> status (handle_exception e) = 500.
Proof.
  unfold long. destruct (recipe d); try (intros [= <-]; reflexivity).
  destruct (loads s); intros [= <-]. reflexivity.
Qed.

Lemma columns_inr (d : Drink) (t r : string) :
  columns d = inr (t, r) -> title d = JStr t /\ recipe d = JStr r.
Proof.
  unfold columns. destruct (title d), (recipe d); intros H; inversion H.
  split; reflexivity.
Qed.

Lemma patched_id (t r : json) (d : Drink) : id (patched t r d) = id d.
Proof. unfold patched. destruct (is_none t), (is_none r); reflexivity. Qed.

(** The view on a body that is a dict with items, for an id with one row. *)
Lemma update_drink_view_run (i : Z) (payload : ClaimSet) (req : Request)
    (tb : Table) (m : list (string * json)) (r0 : Row) :
  json_body req = Some (JObj m) -> truthy (JObj m) = true ->
  rows_with_id i tb = [r0] ->
  update_drink_view i payload req tb =
  match update (patched (dict_get "title" m)
                  (dumped_once (dict_get "recipe" m)) (load r0)) tb with
  | (inl e, tb1) => (inl e, tb1)
  | (inr _, tb1) =>
      match long (patched (dict_get "title" m)
                    (dumped_once (dict_get "recipe" m)) (load r0)) with
      | inl e => (inl e, tb1)
      | inr l => (inr (Some (jsonify (success_drinks [l]))), tb1)
      end
  end.
Proof.
  intros Hbody Htruthy Hrows.
  unfold update_drink_view, bind, get_json, get_item, abort, raise, ret,
    query_one_or_none, lift.
  rewrite Hbody. cbv beta iota. rewrite Htruthy. cbn [negb]. cbv beta iota.
  rewrite Hrows. cbv beta iota zeta. unfold patched, dumped_once. cbv zeta.
  match goal with |- context [update ?d tb] =>
    destruct (update d tb) as [[e|u] tb1]; [reflexivity|];
    destruct (long d); reflexivity
  end.
Qed.

Lemma update_drink_view_not_dict (i : Z) (payload : ClaimSet)
    (req : Request) (tb : Table) (v : json) :
  json_body req = Some v -> truthy v = true ->
  (forall m, v <> JObj m) ->
  update_drink_view i payload req tb = (inl AttributeError, tb).
Proof.
  intros Hbody Htruthy Hdict.
  unfold update_drink_view, bind, get_json, get_item, abort, raise, ret.
  rewrite Hbody. cbv beta iota. rewrite Htruthy. cbn [negb]. cbv beta iota.
  destruct v; try reflexivity. exfalso. apply (Hdict members). reflexivity.
Qed.

Lemma update_drink_view_not_one (i : Z) (payload : ClaimSet)
    (req : Request) (tb : Table) (m : list (string * json)) :
  json_body req = Some (JObj m) -> truthy (JObj m) = true ->
  (forall r, rows_with_id i tb <> [r]) ->
  exists e, update_drink_view i payload req tb = (inl e, tb) /\
            status (handle_exception e) <> 200.
Proof.
  intros Hbody Htruthy Hrows.
  unfold update_drink_view, bind, get_json, get_item, abort, raise, ret,
    query_one_or_none.
  rewrite Hbody. cbv beta iota. rewrite Htruthy. cbn [negb]. cbv beta iota.
  destruct (rows_with_id i tb) as [|r0 [|r1 rest]].
  - eexists. split; [reflexivity | simpl; discriminate].
  - exfalso. apply (Hrows r0). reflexivity.
  - eexists. split; [reflexivity | simpl; discriminate].
Qed.

(** What a PATCH that answers 200 has done. *)
Lemma update_drink_success (req : Request) (tb : Table) (i : N) :
  method req = PATCH -> path req = DrinksId i ->
  status (fst (full_dispatch_request verify req tb)) = 200 ->
  exists payload m r0 t rc l,
    authorize verify "patch:drinks" req = inr payload /\
    json_body req = Some (JObj m) /\
    rows_with_id (Z.of_N i) tb = [r0] /\
    columns (patched (dict_get "title" m)
               (dumped_once (dict_get "recipe" m)) (load r0)) = inr (t, rc) /\
    long (patched (dict_get "title" m)
            (dumped_once (dict_get "recipe" m)) (load r0)) = inr l /\
    full_dispatch_request verify req tb =
      (jsonify (success_drinks [l]), replace_row (mkRow (row_id r0) t rc) tb).
Proof.
  intros Hm Hp. unfold full_dispatch_request.
  rewrite (patch_dispatch req tb i Hm Hp). unfold update_drink.
  destruct (authorize verify "patch:drinks" req) as [e|payload] eqn:Hauth.
  { rewrite (requires_auth_fail _ _ _ _ _ Hauth).
    destruct (authorize_error _ _ _ Hauth) as [k ->].
    destruct k; simpl; discriminate. }
  rewrite (requires_auth_pass _ _ _ _ _ Hauth).
  destruct (json_body req) as [v|] eqn:Hbody.
  2: { unfold update_drink_view, bind, get_json, abort, raise.
       rewrite Hbody. simpl. discriminate. }
  destruct (truthy v) eqn:Htruthy.
  2: { rewrite update_drink_view_no_data;
         [simpl; discriminate | unfold no_data; rewrite Hbody, Htruthy;
                                reflexivity]. }
  destruct v as [|b|z|x|s|l|m];
    try (rewrite (update_drink_view_not_dict _ _ _ _ _ Hbody Htruthy);
         [simpl; discriminate | intros m'; discriminate]).
  destruct (rows_with_id (Z.of_N i) tb) as [|r0 [|r1 rest]] eqn:Hrows;
    try (destruct (update_drink_view_not_one (Z.of_N i) payload req tb m
                     Hbody Htruthy) as (e & -> & Hstatus);
         [rewrite Hrows; intros r; discriminate
         | intros H; exfalso; apply Hstatus, H]).
  rewrite (update_drink_view_run _ _ _ _ _ _ Hbody Htruthy Hrows).
  destruct (update_cases
              (patched (dict_get "title" m)
                 (dumped_once (dict_get "recipe" m)) (load r0)) tb)
    as [(e & Hupd & Hstatus)|(j & t & rc & Hid & Hcol & _ & Hupd)];
    rewrite Hupd.
  { cbn [fst]. rewrite Hstatus. discriminate. }
  rewrite patched_id in Hid. injection Hid as <-.
  destruct (long (patched (dict_get "title" m)
                    (dumped_once (dict_get "recipe" m)) (load r0)))
    as [e|l] eqn:Hlong.
  { cbn [fst]. rewrite (long_error _ _ Hlong). discriminate. }
  intros _. exists payload, m, r0, t, rc, l. auto 10.
Qed.

Lemma dict_get_absent (k : string) (m : list (string * json)) :
  dict_has k m = false -> dict_get k m = JNull.
Proof.
  induction m as [|[k' v] m IH]; simpl; intros H; [reflexivity|].
  apply orb_false_iff in H. destruct H as [Hk Hm]. rewrite Hk. apply IH, Hm.
Qed.

Lemma rows_with_id_member (i : Z) (r : Row) (tb : Table) :
  In r (rows_with_id i tb) -> In r tb /\ row_id r = i.
Proof.
  unfold rows_with_id. intros H. apply filter_In in H. destruct H as [H1 H2].
  split; [exact H1 | apply Z.eqb_eq, H2].
Qed.

Lemma rows_with_id_replace (new : Row) (tb : Table) :
  rows_with_id (row_id new) (replace_row new tb) =
  map (fun _ => new) (rows_with_id (row_id new) tb).
Proof.
  unfold rows_with_id, replace_row.
  induction tb as [|x tb IH]; simpl; [reflexivity|].
  destruct (Z.eqb_spec (row_id x) (row_id new)) as [Heq|Hne]; simpl.
  - rewrite Z.eqb_refl, IH. reflexivity.
  - destruct (Z.eqb_spec (row_id x) (row_id new)); [contradiction|]. exact IH.
Qed.

Lemma others_replace (new : Row) (tb : Table) :
  others (row_id new) (replace_row new tb) = others (row_id new) tb.
Proof.
  unfold others, replace_row.
  induction tb as [|x tb IH]; simpl; [reflexivity|].
  destruct (Z.eqb_spec (row_id x) (row_id new)) as [Heq|Hne]; simpl.
  - rewrite Z.eqb_refl. simpl. exact IH.
  - destruct (Z.eqb_spec (row_id x) (row_id new)); [contradiction|].
    simpl. rewrite IH. reflexivity.
Qed.

(** C6. A PATCH that answers 200 had a dict with items as its body and
    wrote one row in place of the drink's; in that row, the title is the
    stored one when the body has no [title], and the recipe is the stored
    one when the body has no [recipe].  The rows of the other drinks are
    the ones they were. *)
Theorem update_drink_keeps_absent_fields (req : Request) (tb : Table)
    (i : N) (r : Row) :
  method req = PATCH -> path req = DrinksId i ->
  In r tb -> row_id r = Z.of_N i ->
  status (fst (full_dispatch_request verify req tb)) = 200 ->
  exists m r',
    json_body req = Some (JObj m) /\ m <> [] /\
    snd (full_dispatch_request verify req tb) = replace_row r' tb /\
    rows_with_id (Z.of_N i) (snd (full_dispatch_request verify req tb)) = [r'] /\
    row_id r' = Z.of_N i /\
    (dict_has "title" m = false -> row_title r' = row_title r) /\
    (dict_has "recipe" m = false -> row_recipe r' = row_recipe r) /\
    others (Z.of_N i) (snd (full_dispatch_request verify req tb)) =
      others (Z.of_N i) tb.
Proof.
  intros Hm Hp Hin Hid H200.
  destruct (update_drink_success req tb i Hm Hp H200)
    as (payload & m & r0 & t & rc & l & _ & Hbody & Hrows & Hcol & _ & Hfull).
  assert (Hr0 : r0 = r).
  { assert (Hin' : In r (rows_with_id (Z.of_N i) tb)).
    { unfold rows_with_id. apply filter_In. split; [exact Hin|].
      apply Z.eqb_eq, Hid. }
    rewrite Hrows in Hin'. destruct Hin' as [H|[]]. exact H. }
  subst r0. rewrite Hfull. cbn [snd].
  exists m, (mkRow (row_id r) t rc). split; [exact Hbody|].
  assert (Hne : m <> []).
  { intros ->. destruct (update_drink_success req tb i Hm Hp H200)
      as (_ & m' & _ & _ & _ & _ & _ & Hbody' & _).
    clear Hfull. revert H200. unfold full_dispatch_request.
    rewrite (patch_dispatch req tb i Hm Hp). unfold update_drink.
    destruct (authorize verify "patch:drinks" req) as [e|p] eqn:Hauth.
    - rewrite (requires_auth_fail _ _ _ _ _ Hauth).
      destruct (authorize_error _ _ _ Hauth) as [k ->].
      destruct k; simpl; discriminate.
    - rewrite (requires_auth_pass _ _ _ _ _ Hauth).
      rewrite update_drink_view_no_data;
        [simpl; discriminate | unfold no_data; rewrite Hbody; reflexivity]. }
  split; [exact Hne|]. split; [reflexivity|].
  apply columns_inr in Hcol. destruct Hcol as [Htitle Hrecipe].
  repeat split.
  - rewrite <- Hid.
    change (row_id r) with (row_id (mkRow (row_id r) t rc)) at 1.
    rewrite rows_with_id_replace. cbn [row_id]. rewrite Hid, Hrows.
    reflexivity.
  - exact Hid.
  - intros Habsent. rewrite (dict_get_absent _ _ Habsent) in Htitle.
    unfold patched in Htitle. cbn [is_none] in Htitle.
    destruct (is_none (dumped_once (dict_get "recipe" m)));
      simpl in Htitle; injection Htitle as <-; reflexivity.
  - intros Habsent. rewrite (dict_get_absent _ _ Habsent) in Hrecipe.
    unfold patched, dumped_once in Hrecipe. cbn [is_none] in Hrecipe.
    destruct (is_none (dict_get "title" m));
      simpl in Hrecipe; injection Hrecipe as <-; reflexivity.
  - rewrite <- Hid.
    exact (others_replace (mkRow (row_id r) t rc) tb).
Qed.

(** C7. The id of a drink does not change.  Whatever the request, the
    table it leaves has the ids of all rows as they were, or one new row
    after the old ones (create), or the old rows without those of one id
    (delete).  And a PATCH of [/drinks/i] that answers 200 leaves every
    id where it was and shows the drink under the id [i]. *)
Theorem drink_ids_are_immutable (req : Request) (tb : Table) :
  keeps_ids tb (snd (full_dispatch_request verify req tb)) /\
  (forall i,
      method req = PATCH -> path req = DrinksId i ->
      status (fst (full_dispatch_request verify req tb)) = 200 ->
      map row_id (snd (full_dispatch_request verify req tb)) = map row_id tb /\
      exists t r,
        body (fst (full_dispatch_request verify req tb)) =
        JsonBody (success_drinks [long_form (Z.of_N i) t r])).
Proof.
  split.
  - rewrite full_dispatch_request_table. apply dispatch_request_table.
  - intros i Hm Hp H200.
    destruct (update_drink_success req tb i Hm Hp H200)
      as (payload & m & r0 & t & rc & l & _ & _ & Hrows & Hcol & Hlong & Hfull).
    rewrite Hfull. cbn [fst snd]. split; [apply replace_row_ids|].
    assert (Hid : row_id r0 = Z.of_N i).
    { apply (rows_with_id_member (Z.of_N i) r0 tb). rewrite Hrows.
      left. reflexivity. }
    apply columns_inr in Hcol. destruct Hcol as [Htitle Hrecipe].
    unfold long in Hlong. rewrite Hrecipe in Hlong.
    destruct (loads rc) as [rv|]; [|discriminate Hlong].
    injection Hlong as <-. exists t, rv. unfold id_value.
    rewrite patched_id, Htitle. cbn [load id]. rewrite Hid. reflexivity.
Qed.

(** *** Create, then list *)

Lemma next_id_above (r : Row) (tb : Table) :
  In r tb -> row_id r < next_id tb.
Proof.
  unfold next_id. induction tb as [|x tb IH]; cbn [fold_right In]; intros Hin.
  - contradiction.
  - destruct Hin as [->|Hin]; [lia|]. specialize (IH Hin). lia.
Qed.

Lemma next_id_fresh (tb : Table) : rows_with_id (next_id tb) tb = [].
Proof.
  apply rows_with_id_absent. intros Hin. apply in_map_iff in Hin.
  destruct Hin as (r & Hid & Hin). pose proof (next_id_above r tb Hin). lia.
Qed.

Lemma insert_sorted_In (x r : Row) (l : list Row) :
  In x (insert_sorted r l) <-> x = r \/ In x l.
Proof.
  induction l as [|y l IH]; simpl.
  - intuition.
  - destruct (row_id r <=? row_id y)%Z; simpl; [intuition|].
    rewrite IH. intuition.
Qed.

Lemma sort_by_id_In (x : Row) (tb : Table) :
  In x (sort_by_id tb) <-> In x tb.
Proof.
  unfold sort_by_id. induction tb as [|r tb IH]; simpl; [reflexivity|].
  rewrite insert_sorted_In, IH. intuition.
Qed.

(** The long forms of rows whose recipes all deserialize. *)
Lemma traverse_long_rows (rows : list Row) :
  forallb decodable rows = true ->
  exists ls,
    traverse long (map load rows) = inr ls /\
    forall r v, In r rows -> loads (row_recipe r) = Some v ->
                In (long_form (row_id r) (row_title r) v) ls.
Proof.
  induction rows as [|x rows IH]; simpl; intros Hall.
  - exists []. split; [reflexivity | intros r v []].
  - apply andb_true_iff in Hall. destruct Hall as [Hx Hrows].
    destruct (IH Hrows) as (ls & Htr & Hin). unfold decodable in Hx.
    unfold long at 1. cbn [load recipe]. 
    destruct (loads (row_recipe x)) as [vx|] eqn:Hvx; [|discriminate Hx].
    rewrite Htr. eexists. split; [reflexivity|].
    intros r v [<-|Hr] Hv.
    + left. rewrite Hvx in Hv. injection Hv as <-. reflexivity.
    + right. apply (Hin r v Hr Hv).
Qed.

Lemma get_drink_details_run (req : Request) (tb : Table)
    (payload : ClaimSet) :
  method req = GET -> path req = DrinksDetail ->
  authorize verify "get:drinks-detail" req = inr payload ->
  forallb decodable tb = true ->
  exists ls,
    full_dispatch_request verify req tb = (jsonify (success_drinks ls), tb) /\
    forall r v, In r tb -> loads (row_recipe r) = Some v ->
                In (long_form (row_id r) (row_title r) v) ls.
Proof.
  intros Hm Hp Hauth Hall.
  assert (Hsorted : forallb decodable (sort_by_id tb) = true).
  { apply forallb_forall. intros x Hx.
    apply (proj1 (forallb_forall decodable tb) Hall).
    apply (proj1 (sort_by_id_In x tb)), Hx. }
  destruct (traverse_long_rows _ Hsorted) as (ls & Htr & Hin).
  exists ls. split.
  - unfold full_dispatch_request, dispatch_request. rewrite Hm, Hp.
    unfold get_drink_details. rewrite (requires_auth_pass _ _ _ _ _ Hauth).
    unfold get_drink_details_view, bind, query_order_by_id, lift, ret.
    rewrite Htr. reflexivity.
  - intros r v Hr Hv.
    apply Hin; [apply (proj2 (sort_by_id_In r tb)), Hr | exact Hv].
Qed.

Lemma add_drinks_run (req : Request) (tb : Table) (payload : ClaimSet)
    (m : list (string * json)) (t : string) (r : json) :
  method req = POST -> path req = Drinks ->
  authorize verify "post:drinks" req = inr payload ->
  data req <> EmptyString ->
  json_body req = Some (JObj m) ->
  dict_get "title" m = JStr t -> dict_get "recipe" m = r ->
  is_none r = false -> wf r ->
  title_taken t tb = false ->
  full_dispatch_request verify req tb =
    (jsonify (success_drinks [long_form (next_id tb) t r]),
     tb ++ [mkRow (next_id tb) t (dumps r)]).
Proof.
  intros Hm Hp Hauth Hdata Hbody Htitle Hrecipe Hsome Hwf Htaken.
  unfold full_dispatch_request, dispatch_request. rewrite Hm, Hp.
  unfold add_drinks. rewrite (requires_auth_pass _ _ _ _ _ Hauth).
  unfold add_drinks_view.
  destruct (data req) as [|c s]; [contradiction Hdata; reflexivity|].
  unfold bind, get_json, get_item, ret. rewrite Hbody. cbv beta iota.
  rewrite Htitle, Hrecipe, Hsome. unfold insert, columns. cbn [title recipe].
  rewrite Htaken. cbv beta iota zeta. unfold query_first. cbn [id].
  unfold rows_with_id. rewrite filter_app.
  change (filter (fun r1 : Row => (row_id r1 =? next_id tb)%Z) tb)
    with (rows_with_id (next_id tb) tb).
  rewrite next_id_fresh. cbn [filter row_id app]. rewrite Z.eqb_refl.
  cbn [hd_error option_map]. unfold lift, long. cbn [load recipe row_recipe].
  rewrite (loads_dumps r Hwf). reflexivity.
Qed.

(** C8. A drink created by POST with a title that is free and a recipe
    that is a Python value (whatever its numbers, ints or floats, and its
    text), under a token holding [post:drinks]: the POST answers 200 with
    [{success: true, drinks: [{id, title, recipe}]}] for the new drink, and
    a GET of [/drinks-detail] afterwards, under a token holding
    [get:drinks-detail], answers 200 with [{success: true, drinks: [...]}]
    where the list has that [{id, title, recipe}] in it, title and recipe
    as they were sent. *)
Theorem created_drink_is_listed (post get : Request) (tb : Table)
    (p1 p2 : ClaimSet) (m : list (string * json)) (t : string) (r : json) :
  method post = POST -> path post = Drinks ->
  authorize verify "post:drinks" post = inr p1 ->
  data post <> EmptyString ->
  json_body post = Some (JObj m) ->
  dict_get "title" m = JStr t -> dict_get "recipe" m = r ->
  is_none r = false -> wf r ->
  title_taken t tb = false ->
  forallb decodable tb = true ->
  method get = GET -> path get = DrinksDetail ->
  authorize verify "get:drinks-detail" get = inr p2 ->
  exists i drinks,
    full_dispatch_request verify post tb =
      (mkResponse 200
         (JsonBody
            (JObj [("success", JBool true);
                   ("drinks",
                    JArr [JObj [("id", JNum i); ("title", JStr t);
                                ("recipe", r)]])])),
       tb ++ [mkRow i t (dumps r)]) /\
    full_dispatch_request verify get (tb ++ [mkRow i t (dumps r)]) =
      (mkResponse 200
         (JsonBody (JObj [("success", JBool true); ("drinks", JArr drinks)])),
       tb ++ [mkRow i t (dumps r)]) /\
    In (JObj [("id", JNum i); ("title", JStr t); ("recipe", r)]) drinks.
Proof.
  intros Hm Hp Hauth Hdata Hbody Htitle Hrecipe Hsome Hwf Htaken Hall
    Hm' Hp' Hauth'.
  exists (next_id tb).
  assert (Hall' : forallb decodable (tb ++ [mkRow (next_id tb) t (dumps r)])
                  = true).
  { rewrite forallb_app, Hall. simpl. unfold decodable. cbn [row_recipe].
    rewrite (loads_dumps r Hwf). reflexivity. }
  destruct (get_drink_details_run get _ p2 Hm' Hp' Hauth' Hall')
    as (drinks & Hget & Hin).
  exists drinks. split; [|split].
  - apply (add_drinks_run post tb p1 m t r); assumption.
  - exact Hget.
  - apply (Hin (mkRow (next_id tb) t (dumps r)) r).
    + apply in_or_app. right. left. reflexivity.
    + apply (loads_dumps r Hwf).
Qed.

(** The recipe a PATCH sends comes back as text: the view serializes it
    on reading the body and once more on setting the attribute, and
    [long()] deserializes once. *)
Lemma update_drink_recipe_is_text (req : Request) (tb : Table) (i : N)
    (m : list (string * json)) (r : json) :
  method req = PATCH -> path req = DrinksId i ->
  status (fst (full_dispatch_request verify req tb)) = 200 ->
  json_body req = Some (JObj m) ->
  dict_get "recipe" m = r -> is_none r = false ->
  exists t,
    fst (full_dispatch_request verify req tb) =
    jsonify (success_drinks [long_form (Z.of_N i) t (JStr (dumps r))]).
Proof.
  intros Hm Hp H200 Hbody Hrecipe Hsome.
  destruct (update_drink_success req tb i Hm Hp H200)
    as (payload & m' & r0 & t & rc & l & _ & Hbody' & Hrows & Hcol & Hlong
        & Hfull).
  rewrite Hbody in Hbody'. injection Hbody' as <-.
  rewrite Hfull. cbn [fst]. exists t.
  assert (Hid : row_id r0 = Z.of_N i).
  { apply (rows_with_id_member (Z.of_N i) r0 tb). rewrite Hrows.
    left. reflexivity. }
  apply columns_inr in Hcol. destruct Hcol as [Htitle Hrec].
  unfold long in Hlong. rewrite Hrec in Hlong.
  assert (Hrc : rc = dumps (JStr (dumps r))).
  { unfold patched, dumped_once in Hrec. rewrite Hrecipe, Hsome in Hrec.
    cbn [is_none recipe] in Hrec. injection Hrec as <-. reflexivity. }
  rewrite Hrc, (loads_dumps (JStr (dumps r)) (dumps_text_ok r)) in Hlong.
  injection Hlong as <-. unfold id_value.
  rewrite patched_id, Htitle. cbn [load id]. rewrite Hid. reflexivity.
Qed.

(** *** The table the application leaves *)

Lemma wf_dict_get (k : string) (m : list (string * json)) :
  wf (JObj m) -> wf (dict_get k m).
Proof.
  intros H. apply wf_obj in H. destruct H as [_ H].
  induction H as [|[k' v] m [_ Hv] Hm IH]; simpl; [exact I|].
  destruct (String.eqb k' k); [exact Hv | exact IH].
Qed.

Lemma others_ok (i : Z) (tb : Table) : table_ok tb -> table_ok (others i tb).
Proof.
  unfold table_ok, others. intros [Hnd Hall]. split.
  - clear Hall. induction tb as [|x tb IH]; simpl; [constructor|].
    inversion Hnd as [|? ? Hnotin Hnd']; subst.
    destruct (negb (row_id x =? i)%Z); simpl; [|apply IH, Hnd'].
    constructor; [|apply IH, Hnd'].
    intros Hin. apply Hnotin. apply in_map_iff in Hin.
    destruct Hin as (y & Hy & Hin). apply filter_In in Hin.
    apply in_map_iff. exists y. tauto.
  - apply forallb_forall. intros x Hx. apply filter_In in Hx.
    apply (proj1 (forallb_forall decodable tb) Hall), Hx.
Qed.

Lemma replace_row_ok (new : Row) (tb : Table) :
  table_ok tb -> decodable new = true -> table_ok (replace_row new tb).
Proof.
  unfold table_ok. intros [Hnd Hall] Hnew. split.
  - rewrite replace_row_ids. exact Hnd.
  - unfold replace_row. apply forallb_forall. intros x Hx.
    apply in_map_iff in Hx. destruct Hx as (y & Hy & Hin).
    destruct (row_id y =? row_id new)%Z; subst x; [exact Hnew|].
    apply (proj1 (forallb_forall decodable tb) Hall), Hin.
Qed.

Lemma append_row_ok (t r : string) (tb : Table) :
  table_ok tb -> decodable (mkRow (next_id tb) t r) = true ->
  table_ok (tb ++ [mkRow (next_id tb) t r]).
Proof.
  unfold table_ok. intros [Hnd Hall] Hnew. split.
  - rewrite map_app. cbn [map row_id].
    apply NoDup_app; [exact Hnd | repeat constructor; intros [] |].
    intros j Hj [<-|[]]. apply in_map_iff in Hj.
    destruct Hj as (y & Hy & Hin). pose proof (next_id_above y tb Hin). lia.
  - rewrite forallb_app, Hall. cbn [forallb]. rewrite Hnew. reflexivity.
Qed.

Lemma add_drinks_view_ok (payload : ClaimSet) (req : Request) (tb : Table) :
  table_ok tb -> request_ok req ->
  table_ok (snd (add_drinks_view payload req tb)).
Proof.
  intros Htb Hreq. unfold add_drinks_view.
  destruct (data req); [exact Htb|].
  unfold bind, get_json, get_item, abort, raise, ret.
  unfold request_ok in Hreq.
  destruct (json_body req) as [v|]; [|exact Htb].
  destruct v as [| | | | | |m]; try exact Htb.
  unfold insert at 1.
  match goal with |- context [columns ?d] =>
    destruct (columns d) as [e|[t r]] eqn:Hcol end; [exact Htb|].
  destruct (title_taken t tb); [exact Htb|].
  assert (Hnew : table_ok (tb ++ [mkRow (next_id tb) t r])).
  { apply append_row_ok; [exact Htb|].
    apply columns_inr in Hcol. destruct Hcol as [_ Hrecipe].
    cbn [recipe] in Hrecipe.
    destruct (is_none (dict_get "recipe" m)) eqn:Hnone.
    - destruct (dict_get "recipe" m); discriminate.
    - injection Hrecipe as <-. unfold decodable. cbn [row_recipe].
      rewrite (loads_dumps _ (wf_dict_get "recipe" m Hreq)). reflexivity. }
  cbv beta iota zeta. unfold query_first, lift. cbn [id].
  match goal with |- context [option_map load ?x] =>
    destruct (option_map load x) as [dr|] end; [|exact Hnew].
  destruct (long dr); exact Hnew.
Qed.

Lemma update_drink_view_ok (i : Z) (payload : ClaimSet) (req : Request)
    (tb : Table) :
  table_ok tb -> table_ok (snd (update_drink_view i payload req tb)).
Proof.
  intros Htb.
  destruct (json_body req) as [v|] eqn:Hbody.
  2: { unfold update_drink_view, bind, get_json, abort, raise.
       rewrite Hbody. exact Htb. }
  destruct (truthy v) eqn:Htruthy.
  2: { rewrite update_drink_view_no_data;
         [exact Htb | unfold no_data; rewrite Hbody, Htruthy; reflexivity]. }
  destruct v as [|b|z|x|s|l|m];
    try (rewrite (update_drink_view_not_dict _ _ _ _ _ Hbody Htruthy);
         [exact Htb | intros m'; discriminate]).
  destruct (rows_with_id i tb) as [|r0 [|r1 rest]] eqn:Hrows;
    try (destruct (update_drink_view_not_one i payload req tb m
                     Hbody Htruthy) as (e & -> & _);
         [rewrite Hrows; intros r; discriminate | exact Htb]).
  rewrite (update_drink_view_run _ _ _ _ _ _ Hbody Htruthy Hrows).
  destruct (update_cases
              (patched (dict_get "title" m)
                 (dumped_once (dict_get "recipe" m)) (load r0)) tb)
    as [(e & Hupd & _)|(j & t & rc & _ & Hcol & _ & Hupd)];
    rewrite Hupd; [exact Htb|].
  assert (Hnew : table_ok (replace_row (mkRow j t rc) tb)).
  { apply replace_row_ok; [exact Htb|].
    apply columns_inr in Hcol. destruct Hcol as [_ Hrecipe].
    unfold patched in Hrecipe. unfold decodable. cbn [row_recipe].
    destruct (is_none (dumped_once (dict_get "recipe" m))).
    - assert (Hold : recipe (load r0) = JStr rc).
      { destruct (is_none (dict_get "title" m)); exact Hrecipe. }
      cbn [load recipe] in Hold. injection Hold as <-.
      assert (Hin : In r0 tb).
      { apply (rows_with_id_member i r0 tb). rewrite Hrows. left.
        reflexivity. }
      destruct Htb as [_ Hall].
      apply (proj1 (forallb_forall decodable tb) Hall r0 Hin).
    - cbn [recipe] in Hrecipe. injection Hrecipe as <-.
      rewrite loads_dumps; [reflexivity|]. unfold dumped_once.
      destruct (dict_get "recipe" m); try exact I; apply dumps_text_ok. }
  destruct (long (patched (dict_get "title" m)
                    (dumped_once (dict_get "recipe" m)) (load r0)));
    exact Hnew.
Qed.

Lemma delete_drink_view_ok (i : Z) (payload : ClaimSet) (req : Request)
    (tb : Table) :
  table_ok tb -> table_ok (snd (delete_drink_view i payload req tb)).
Proof.
  intros Htb.
  destruct (delete_drink_view_table i payload req tb) as [->|[j ->]];
    [exact Htb | apply others_ok, Htb].
Qed.

(** The empty table is well formed, and a request whose body is a Python
    value leaves a well-formed table well formed: unique ids and stored
    recipes that deserialize hold of every table the application reaches
    from the empty one. *)
Lemma table_ok_empty : table_ok [].
Proof. split; [constructor | reflexivity]. Qed.

Lemma table_ok_step (req : Request) (tb : Table) :
  table_ok tb -> request_ok req ->
  table_ok (snd (full_dispatch_request verify req tb)).
Proof.
  intros Htb Hreq. rewrite full_dispatch_request_table.
  unfold dispatch_request.
  destruct (path req) as [| |i|], (method req); try exact Htb.
  - rewrite (proj1 (reads_keep_table (mkClaims EmptyString None 0) req tb)).
    exact Htb.
  - unfold add_drinks.
    destruct (authorize verify "post:drinks" req) as [e|payload] eqn:Hauth.
    + rewrite (requires_auth_fail _ _ _ _ _ Hauth). exact Htb.
    + rewrite (requires_auth_pass _ _ _ _ _ Hauth).
      apply add_drinks_view_ok; assumption.
  - unfold get_drink_details.
    destruct (authorize verify "get:drinks-detail" req) as [e|payload]
      eqn:Hauth.
    + rewrite (requires_auth_fail _ _ _ _ _ Hauth). exact Htb.
    + rewrite (requires_auth_pass _ _ _ _ _ Hauth).
      rewrite (proj2 (reads_keep_table payload req tb)). exact Htb.
  - unfold update_drink.
    destruct (authorize verify "patch:drinks" req) as [e|payload] eqn:Hauth.
    + rewrite (requires_auth_fail _ _ _ _ _ Hauth). exact Htb.
    + rewrite (requires_auth_pass _ _ _ _ _ Hauth).
      apply update_drink_view_ok, Htb.
  - unfold delete_drink.
    destruct (authorize verify "delete:drinks" req) as [e|payload] eqn:Hauth.
    + rewrite (requires_auth_fail _ _ _ _ _ Hauth). exact Htb.
    + rewrite (requires_auth_pass _ _ _ _ _ Hauth).
      apply delete_drink_view_ok, Htb.
Qed.

End Facts.

(** ** The sample deployment *)

(** C2. A PATCH of drink 1 whose body holds the recipe [milk], a
    structured value: the recipe of the drink in the 200 response is a
    piece of text, the serialized recipe, and not the value sent; the row
    stores that text serialized once more. *)
Theorem update_drink_recipe_comes_back_as_text :
  full_dispatch_request Demo.verify Demo.patch_recipe Demo.menu =
    (jsonify (success_drinks
                [long_form 1 "Water" (JStr (dumps Demo.milk))]),
     [mkRow 1 "Water" (dumps (JStr (dumps Demo.milk)))]) /\
  JStr (dumps Demo.milk) <> Demo.milk.
Proof.
  split.
  - vm_compute. reflexivity.
  - discriminate.
Qed.

(** C3 as stated fails, twice.  A PATCH with an empty body for the id of
    a drink that exists, under a token the verifier refuses, is stopped by
    the guard: the view does not run and the answer is not 409.  And under
    a token that passes, the same empty body sent as JSON is refused by
    [get_json()], which has nothing to parse: the answer is 400. *)
Lemma update_drink_empty_body_is_not_always_409 :
  (method Demo.patch_forged = PATCH /\
   path Demo.patch_forged = DrinksId 1 /\
   data Demo.patch_forged = EmptyString /\
   exists_id 1 Demo.menu = true /\
   dispatch_request Demo.verify Demo.patch_forged Demo.menu =
     (inl (AuthError InvalidClaims), Demo.menu) /\
   status (fst (full_dispatch_request Demo.verify Demo.patch_forged Demo.menu))
     <> 409) /\
  (method Demo.patch_empty_json = PATCH /\
   path Demo.patch_empty_json = DrinksId 1 /\
   data Demo.patch_empty_json = EmptyString /\
   exists_id 1 Demo.menu = true /\
   authorize Demo.verify "patch:drinks" Demo.patch_empty_json =
     inr Demo.manager /\
   full_dispatch_request Demo.verify Demo.patch_empty_json Demo.menu =
     (mkResponse 400
        (JsonBody (JObj [("success", JBool false); ("error", JNum 400);
                         ("message", JStr "Bad request")])),
      Demo.menu)).
Proof.
  split; repeat split; try reflexivity. vm_compute. discriminate.
Qed.

(** C4 as stated fails: under a token that passes the guard, a PATCH with
    an empty body sent as JSON, for an id no drink has, is answered 400 by
    [get_json()], not 409: the test for data is not reached. *)
Lemma update_drink_empty_json_body_is_400 :
  method Demo.patch_empty_json_absent = PATCH /\
  path Demo.patch_empty_json_absent = DrinksId 7 /\
  data Demo.patch_empty_json_absent = EmptyString /\
  exists_id 7 Demo.menu = false /\
  authorize Demo.verify "patch:drinks" Demo.patch_empty_json_absent =
    inr Demo.manager /\
  full_dispatch_request Demo.verify Demo.patch_empty_json_absent Demo.menu =
    (mkResponse 400
       (JsonBody (JObj [("success", JBool false); ("error", JNum 400);
                        ("message", JStr "Bad request")])),
     Demo.menu) /\
  status (fst (full_dispatch_request Demo.verify Demo.patch_empty_json_absent
                 Demo.menu)) <> 409.
Proof.
  repeat split; try reflexivity. vm_compute. discriminate.
Qed.


Lemma update_drink_no_data_after_guard_witness :
  full_dispatch_request Demo.verify
    (Demo.empty_request PATCH (DrinksId 1) Demo.as_manager) Demo.menu =
    (mkResponse 409 DefaultPage, Demo.menu).
Proof.
  apply (proj1 (update_drink_no_data_after_guard Demo.verify
                  (Demo.empty_request PATCH (DrinksId 1) Demo.as_manager)
                  Demo.menu 1%N eq_refl eq_refl eq_refl eq_refl)
           Demo.manager).
  reflexivity.
Defined.

Lemma update_drink_no_data_before_lookup_witness :
  full_dispatch_request Demo.verify
    (Demo.empty_request PATCH (DrinksId 7) Demo.as_manager) Demo.menu =
    (mkResponse 409 DefaultPage, Demo.menu).
Proof.
  apply (update_drink_no_data_before_lookup Demo.verify
           (Demo.empty_request PATCH (DrinksId 7) Demo.as_manager)
           Demo.menu 7%N Demo.manager); reflexivity.
Defined.

Lemma menu_ids_distinct : NoDup (map row_id Demo.menu).
Proof. repeat constructor. intros []. Defined.

Lemma delete_drink_found_or_404_witness :
  full_dispatch_request Demo.verify
    (Demo.empty_request DELETE (DrinksId 7) Demo.as_manager) Demo.menu =
    (mkResponse 404
       (JsonBody (JObj [("success", JBool false); ("error", JNum 404);
                        ("message", JStr "resource not found")])),
     Demo.menu) /\
  full_dispatch_request Demo.verify
    (Demo.empty_request DELETE (DrinksId 1) Demo.as_manager) Demo.menu =
    (mkResponse 200
       (JsonBody (JObj [("success", JBool true); ("delete", JNum 1)])), []).
Proof.
  split.
  - apply (proj1 (delete_drink_found_or_404 Demo.verify
                    (Demo.empty_request DELETE (DrinksId 7) Demo.as_manager)
                    Demo.menu 7%N Demo.manager eq_refl eq_refl eq_refl
                    menu_ids_distinct)).
    reflexivity.
  - apply (proj2 (delete_drink_found_or_404 Demo.verify
                    (Demo.empty_request DELETE (DrinksId 1) Demo.as_manager)
                    Demo.menu 1%N Demo.manager eq_refl eq_refl eq_refl
                    menu_ids_distinct)).
    reflexivity.
Defined.

Lemma update_drink_keeps_absent_fields_witness :
  exists m r',
    json_body Demo.patch_title = Some (JObj m) /\ m <> [] /\
    snd (full_dispatch_request Demo.verify Demo.patch_title Demo.menu) =
      replace_row r' Demo.menu /\
    rows_with_id 1
      (snd (full_dispatch_request Demo.verify Demo.patch_title Demo.menu)) =
      [r'] /\
    row_id r' = 1 /\
    (dict_has "title" m = false -> row_title r' = "Water") /\
    (dict_has "recipe" m = false -> row_recipe r' = dumps Demo.water) /\
    others 1
      (snd (full_dispatch_request Demo.verify Demo.patch_title Demo.menu)) =
      others 1 Demo.menu.
Proof.
  apply (update_drink_keeps_absent_fields Demo.verify Demo.patch_title
           Demo.menu 1%N Demo.water_row eq_refl eq_refl).
  - left. reflexivity.
  - reflexivity.
  - vm_compute. reflexivity.
Defined.

Lemma drink_ids_are_immutable_witness :
  map row_id
    (snd (full_dispatch_request Demo.verify Demo.patch_title Demo.menu)) =
    map row_id Demo.menu /\
  exists t r,
    body (fst (full_dispatch_request Demo.verify Demo.patch_title Demo.menu)) =
    JsonBody (success_drinks [long_form 1 t r]).
Proof.
  apply (proj2 (drink_ids_are_immutable Demo.verify Demo.patch_title
                  Demo.menu) 1%N eq_refl eq_refl).
  vm_compute. reflexivity.
Defined.

Lemma milk_wf : wf Demo.milk.
Proof.
  simpl. repeat split; repeat constructor; simpl; intuition discriminate.
Defined.

Lemma oat_wf : wf Demo.oat.
Proof.
  simpl. repeat split; repeat constructor; simpl; intuition discriminate.
Defined.

Lemma created_drink_is_listed_witness :
  exists i drinks,
    full_dispatch_request Demo.verify Demo.post_oat Demo.menu =
      (mkResponse 200
         (JsonBody
            (JObj [("success", JBool true);
                   ("drinks",
                    JArr [JObj [("id", JNum i); ("title", JStr "Łatte");
                                ("recipe", Demo.oat)]])])),
       Demo.menu ++ [mkRow i "Łatte" (dumps Demo.oat)]) /\
    full_dispatch_request Demo.verify
      (Demo.empty_request GET DrinksDetail Demo.as_barista)
      (Demo.menu ++ [mkRow i "Łatte" (dumps Demo.oat)]) =
      (mkResponse 200
         (JsonBody (JObj [("success", JBool true); ("drinks", JArr drinks)])),
       Demo.menu ++ [mkRow i "Łatte" (dumps Demo.oat)]) /\
    In (JObj [("id", JNum i); ("title", JStr "Łatte");
              ("recipe", Demo.oat)]) drinks.
Proof.
  apply (created_drink_is_listed Demo.verify Demo.post_oat
           (Demo.empty_request GET DrinksDetail Demo.as_barista) Demo.menu
           Demo.manager Demo.barista
           [("title", JStr "Łatte"); ("recipe", Demo.oat)] "Łatte" Demo.oat);
    try reflexivity.
  - discriminate.
  - exact oat_wf.
Defined.


Lemma add_drinks_empty_data_returns_nothing_witness :
  dispatch_request Demo.verify
    (Demo.empty_request POST Drinks Demo.as_manager) Demo.menu =
    (inr None, Demo.menu) /\
  full_dispatch_request Demo.verify
    (Demo.empty_request POST Drinks Demo.as_manager) Demo.menu =
    (mkResponse 500 DefaultPage, Demo.menu).
Proof.
  apply (add_drinks_empty_data_returns_nothing Demo.verify
           (Demo.empty_request POST Drinks Demo.as_manager) Demo.menu
           Demo.manager); reflexivity.
Defined.

End ApiFacts.

(** ** Further properties of the API *)

Module ExtraFacts.

Import Json Py Flask Models Auth Api Props Extras.
Import JsonFacts ModelFacts ApiFacts.
Local Open Scope list_scope.

Section More.

Variable verify : string -> TokenFailure + ClaimSet.

Lemma traverse_error {A B : Type} (f : A -> result B) (l : list A) (e : exn) :
  traverse f l = inl e -> exists x, In x l /\ f x = inl e.
Proof.
  induction l as [|x l IH]; simpl; [discriminate|].
  destruct (f x) as [e'|y] eqn:Hx.
  - intros [= <-]. exists x. split; [left; reflexivity | exact Hx].
  - destruct (traverse f l) as [e'|ys]; [|discriminate].
    intros [= <-]. destruct (IH eq_refl) as (x' & Hin & Hx').
    exists x'. split; [right; exact Hin | exact Hx'].
Qed.

Lemma short_entry_error (r : json) (e : exn) :
  short_entry r = inl e -> status (handle_exception e) = 500.
Proof.
  unfold short_entry. destruct r; try (intros [= <-]; reflexivity).
  destruct (dict_has "color" members && dict_has "parts" members);
    intros [= <-]. reflexivity.
Qed.

Lemma short_error (d : Drink) (e : exn) :
  short d = inl e -> status (handle_exception e) = 500.
Proof.
  unfold short. destruct (recipe d); try (intros [= <-]; reflexivity).
  destruct (loads s) as [v|]; [|intros [= <-]; reflexivity].
  destruct v; try (intros [= <-]; reflexivity).
  destruct (traverse short_entry items) as [e'|es] eqn:Htr; [|discriminate].
  intros [= <-]. destruct (traverse_error _ _ _ Htr) as (x & _ & Hx).
  apply (short_entry_error x e' Hx).
Qed.

(** X1. A GET never changes the table, whatever its path, its headers and
    its outcome. *)
Theorem get_requests_keep_the_table (req : Request) (tb : Table) :
  method req = GET ->
  snd (full_dispatch_request verify req tb) = tb.
Proof.
  intros Hm. rewrite full_dispatch_request_table.
  unfold dispatch_request. rewrite Hm.
  destruct (path req) as [| |i|]; try reflexivity.
  - apply (reads_keep_table (mkClaims EmptyString None 0)).
  - unfold get_drink_details.
    destruct (authorize verify "get:drinks-detail" req) as [e|payload]
      eqn:Hauth.
    + rewrite (requires_auth_fail _ _ _ _ _ _ Hauth). reflexivity.
    + rewrite (requires_auth_pass _ _ _ _ _ _ Hauth).
      apply (reads_keep_table payload).
Qed.

(** X2. [GET /drinks] is public: the response is the one the request gets
    without its [Authorization] header, under any verifier, and its
    status is 200 or 500, never 401 or 403. *)
Theorem get_drinks_is_public (verify' : string -> TokenFailure + ClaimSet)
    (h : option string) (req : Request) (tb : Table) :
  method req = GET -> path req = Drinks ->
  full_dispatch_request verify' (with_authorization h req) tb =
    full_dispatch_request verify req tb /\
  (status (fst (full_dispatch_request verify req tb)) = 200 \/
   status (fst (full_dispatch_request verify req tb)) = 500).
Proof.
  intros Hm Hp. split.
  - unfold full_dispatch_request, dispatch_request, with_authorization.
    cbn [method path]. rewrite Hm, Hp. reflexivity.
  - unfold full_dispatch_request, dispatch_request. rewrite Hm, Hp.
    unfold get_drinks, bind, query_all, lift, ret.
    destruct (traverse short (map load tb)) as [e|ls] eqn:Htr.
    + right. destruct (traverse_error _ _ _ Htr) as (d & _ & Hd).
      apply (short_error d e Hd).
    + left. reflexivity.
Qed.

Lemma protected_dispatch (req : Request) (tb : Table) :
  protected req = true ->
  (forall e, authorize verify (required_permission req) req = inl e ->
             dispatch_request verify req tb = (inl e, tb)).
Proof.
  unfold protected, required_permission, dispatch_request.
  destruct (path req), (method req); try discriminate; intros _ e Hauth;
    unfold get_drink_details, add_drinks, update_drink, delete_drink;
    apply requires_auth_fail, Hauth.
Qed.

(** X3. A request to a protected endpoint that the guard refuses is not
    served: the view does not run, the [AuthError] of the guard is what
    the dispatcher gets, the table is unchanged and the answer is not
    200. *)
Theorem refused_request_is_not_served (req : Request) (tb : Table) (e : exn) :
  protected req = true ->
  authorize verify (required_permission req) req = inl e ->
  (exists k, e = AuthError k) /\
  dispatch_request verify req tb = (inl e, tb) /\
  snd (full_dispatch_request verify req tb) = tb /\
  status (fst (full_dispatch_request verify req tb)) <> 200.
Proof.
  intros Hprot Hauth. unfold full_dispatch_request.
  rewrite (protected_dispatch req tb Hprot e Hauth).
  destruct (authorize_error _ _ _ _ Hauth) as [k ->].
  split; [eauto|]. split; [reflexivity|]. split; [reflexivity|].
  simpl. discriminate.
Qed.

(** *** Delete *)

Lemma delete_dispatch (req : Request) (tb : Table) (i : N) :
  method req = DELETE -> path req = DrinksId i ->
  dispatch_request verify req tb = delete_drink verify (Z.of_N i) req tb.
Proof.
  intros Hm Hp. unfold dispatch_request. rewrite Hm, Hp. reflexivity.
Qed.

Lemma delete_run_absent (req : Request) (tb : Table) (i : N)
    (payload : ClaimSet) :
  method req = DELETE -> path req = DrinksId i ->
  authorize verify "delete:drinks" req = inr payload ->
  rows_with_id (Z.of_N i) tb = [] ->
  full_dispatch_request verify req tb =
    (mkResponse 404 (JsonBody (error_body 404 "resource not found")), tb).
Proof.
  intros Hm Hp Hauth Hrows. unfold full_dispatch_request.
  rewrite (delete_dispatch req tb i Hm Hp). unfold delete_drink.
  rewrite (requires_auth_pass _ _ _ _ _ _ Hauth).
  unfold delete_drink_view, bind, query_one_or_none. rewrite Hrows.
  reflexivity.
Qed.

Lemma delete_run_found (req : Request) (tb : Table) (i : N)
    (payload : ClaimSet) (r : Row) :
  method req = DELETE -> path req = DrinksId i ->
  authorize verify "delete:drinks" req = inr payload ->
  rows_with_id (Z.of_N i) tb = [r] ->
  full_dispatch_request verify req tb =
    (jsonify (JObj [("success", JBool true); ("delete", JNum (Z.of_N i))]),
     others (Z.of_N i) tb).
Proof.
  intros Hm Hp Hauth Hrows. unfold full_dispatch_request.
  rewrite (delete_dispatch req tb i Hm Hp). unfold delete_drink.
  rewrite (requires_auth_pass _ _ _ _ _ _ Hauth).
  unfold delete_drink_view, bind, query_one_or_none. rewrite Hrows.
  unfold delete. cbn [load id].
  assert (Hid : row_id r = Z.of_N i).
  { apply (rows_with_id_member (Z.of_N i) r tb). rewrite Hrows.
    left. reflexivity. }
  rewrite Hid. reflexivity.
Qed.

Lemma rows_with_id_others (i : Z) (tb : Table) :
  rows_with_id i (others i tb) = [].
Proof.
  unfold rows_with_id, others. induction tb as [|x tb IH]; simpl;
    [reflexivity|].
  destruct (Z.eqb_spec (row_id x) i) as [Heq|Hne]; simpl; [exact IH|].
  destruct (Z.eqb_spec (row_id x) i); [contradiction | exact IH].
Qed.

Lemma others_absent (i : Z) (tb : Table) :
  rows_with_id i tb = [] -> others i tb = tb.
Proof.
  unfold rows_with_id, others. induction tb as [|x tb IH]; simpl;
    [reflexivity|].
  destruct (row_id x =? i)%Z; simpl; [discriminate|].
  intros H. rewrite (IH H). reflexivity.
Qed.

(** X5. Delete twice: once a DELETE of an id has answered 200, the table
    is the old one without the rows of that id, and a further DELETE of
    the same id answers 404 "resource not found" and changes nothing. *)
Theorem deleted_drink_is_gone (req again : Request) (tb : Table) (i : N)
    (p1 p2 : ClaimSet) :
  method req = DELETE -> path req = DrinksId i ->
  authorize verify "delete:drinks" req = inr p1 ->
  method again = DELETE -> path again = DrinksId i ->
  authorize verify "delete:drinks" again = inr p2 ->
  NoDup (map row_id tb) -> exists_id (Z.of_N i) tb = true ->
  full_dispatch_request verify req tb =
    (mkResponse 200
       (JsonBody (JObj [("success", JBool true);
                        ("delete", JNum (Z.of_N i))])),
     others (Z.of_N i) tb) /\
  exists_id (Z.of_N i) (others (Z.of_N i) tb) = false /\
  full_dispatch_request verify again (others (Z.of_N i) tb) =
    (mkResponse 404
       (JsonBody (JObj [("success", JBool false); ("error", JNum 404);
                        ("message", JStr "resource not found")])),
     others (Z.of_N i) tb).
Proof.
  intros Hm Hp Hauth Hm' Hp' Hauth' Hnd Hex.
  destruct (exists_id_true _ _ Hnd Hex) as (r & Hrows & _ & _).
  split; [apply (delete_run_found req tb i p1 r); assumption|].
  split.
  - unfold exists_id, others. clear. induction tb as [|x tb IH]; simpl;
      [reflexivity|].
    destruct (Z.eqb_spec (row_id x) (Z.of_N i)) as [Heq|Hne]; simpl;
      [exact IH|].
    destruct (Z.eqb_spec (row_id x) (Z.of_N i)); [contradiction | exact IH].
  - apply (delete_run_absent again _ i p2); try assumption.
    apply rows_with_id_others.
Qed.

(** X6. Create, then delete: a DELETE of the id a POST has just assigned
    answers 200 and leaves the table the POST started from. *)
Theorem create_then_delete_restores (post del : Request) (tb : Table)
    (i : N) (p1 p2 : ClaimSet) (m : list (string * json)) (t : string)
    (r : json) :
  method post = POST -> path post = Drinks ->
  authorize verify "post:drinks" post = inr p1 ->
  data post <> EmptyString ->
  json_body post = Some (JObj m) ->
  dict_get "title" m = JStr t -> dict_get "recipe" m = r ->
  is_none r = false -> wf r ->
  title_taken t tb = false ->
  method del = DELETE -> path del = DrinksId i -> Z.of_N i = next_id tb ->
  authorize verify "delete:drinks" del = inr p2 ->
  full_dispatch_request verify post tb =
    (jsonify (success_drinks [long_form (next_id tb) t r]),
     tb ++ [mkRow (next_id tb) t (dumps r)]) /\
  full_dispatch_request verify del (tb ++ [mkRow (next_id tb) t (dumps r)]) =
    (jsonify (JObj [("success", JBool true); ("delete", JNum (next_id tb))]),
     tb).
Proof.
  intros Hm Hp Hauth Hdata Hbody Htitle Hrecipe Hsome Hwf Htaken
    Hm' Hp' Hi Hauth'.
  split; [apply (add_drinks_run verify post tb p1 m t r); assumption|].
  assert (Hrows : rows_with_id (Z.of_N i)
                    (tb ++ [mkRow (next_id tb) t (dumps r)]) =
                  [mkRow (next_id tb) t (dumps r)]).
  { rewrite Hi. unfold rows_with_id. rewrite filter_app.
    change (filter (fun r1 : Row => (row_id r1 =? next_id tb)%Z) tb)
      with (rows_with_id (next_id tb) tb).
    rewrite next_id_fresh. cbn [filter row_id app]. rewrite Z.eqb_refl.
    reflexivity. }
  rewrite (delete_run_found del _ i p2 _ Hm' Hp' Hauth' Hrows).
  rewrite Hi. f_equal. unfold others. rewrite filter_app.
  change (filter (fun r1 : Row => negb (row_id r1 =? next_id tb)%Z) tb)
    with (others (next_id tb) tb).
  rewrite (others_absent _ _ (next_id_fresh tb)).
  cbn [filter row_id]. rewrite Z.eqb_refl. cbn [negb]. apply List.app_nil_r.
Qed.

(** *** Bodies that are not a dict, ids that are not there *)

(** X7. A POST with data whose JSON body is not an object (a list, a
    string, a number, nothing) fails on [data.get]: the answer is the
    framework's 500 page and the table is unchanged. *)
Theorem add_drinks_body_not_a_dict (req : Request) (tb : Table)
    (payload : ClaimSet) (v : json) :
  method req = POST -> path req = Drinks ->
  authorize verify "post:drinks" req = inr payload ->
  data req <> EmptyString ->
  json_body req = Some v -> (forall m, v <> JObj m) ->
  full_dispatch_request verify req tb = (mkResponse 500 DefaultPage, tb).
Proof.
  intros Hm Hp Hauth Hdata Hbody Hdict.
  unfold full_dispatch_request, dispatch_request. rewrite Hm, Hp.
  unfold add_drinks. rewrite (requires_auth_pass _ _ _ _ _ _ Hauth).
  unfold add_drinks_view.
  destruct (data req) as [|c s]; [contradiction Hdata; reflexivity|].
  unfold bind, get_json, get_item, raise, ret. rewrite Hbody.
  destruct v; try reflexivity. exfalso. apply (Hdict members). reflexivity.
Qed.

(** X8. A PATCH whose JSON body is a non-empty value other than an object
    passes the test for data and fails on [data.get]: the answer is the
    framework's 500 page, not 409, and the table is unchanged. *)
Theorem update_drink_body_not_a_dict (req : Request) (tb : Table) (i : N)
    (payload : ClaimSet) (v : json) :
  method req = PATCH -> path req = DrinksId i ->
  authorize verify "patch:drinks" req = inr payload ->
  json_body req = Some v -> truthy v = true -> (forall m, v <> JObj m) ->
  full_dispatch_request verify req tb = (mkResponse 500 DefaultPage, tb).
Proof.
  intros Hm Hp Hauth Hbody Htruthy Hdict.
  unfold full_dispatch_request.
  rewrite (patch_dispatch verify req tb i Hm Hp). unfold update_drink.
  rewrite (requires_auth_pass _ _ _ _ _ _ Hauth).
  rewrite (update_drink_view_not_dict _ _ _ _ _ Hbody Htruthy Hdict).
  reflexivity.
Qed.

(** X9. A PATCH with data for an id no drink has answers 404 with the
    message "resource not found" and changes nothing. *)
Theorem update_drink_absent_id_is_404 (req : Request) (tb : Table) (i : N)
    (payload : ClaimSet) (m : list (string * json)) :
  method req = PATCH -> path req = DrinksId i ->
  authorize verify "patch:drinks" req = inr payload ->
  json_body req = Some (JObj m) -> m <> [] ->
  exists_id (Z.of_N i) tb = false ->
  full_dispatch_request verify req tb =
    (mkResponse 404
       (JsonBody (JObj [("success", JBool false); ("error", JNum 404);
                        ("message", JStr "resource not found")])),
     tb).
Proof.
  intros Hm Hp Hauth Hbody Hne Hex.
  unfold full_dispatch_request.
  rewrite (patch_dispatch verify req tb i Hm Hp). unfold update_drink.
  rewrite (requires_auth_pass _ _ _ _ _ _ Hauth).
  unfold update_drink_view, bind, get_json, get_item, abort, raise, ret,
    query_one_or_none.
  rewrite Hbody. cbv beta iota.
  assert (Htruthy : truthy (JObj m) = true).
  { destruct m; [contradiction Hne; reflexivity | reflexivity]. }
  rewrite Htruthy. cbn [negb]. cbv beta iota.
  rewrite (exists_id_false _ _ Hex). reflexivity.
Qed.

(** *** All or nothing *)

Lemma dumped_recipe (x : json) (text : string) :
  dumped_once x = JStr text -> text = dumps x /\ is_none x = false.
Proof.
  unfold dumped_once. destruct (is_none x) eqn:Hnone.
  - intros ->. discriminate Hnone.
  - intros [= <-]. split; reflexivity.
Qed.

Lemma add_drinks_view_all_or_nothing (payload : ClaimSet) (req : Request)
    (tb : Table) :
  request_ok req -> all_or_nothing (add_drinks_view payload req) tb.
Proof.
  intros Hreq. unfold all_or_nothing, add_drinks_view.
  destruct (data req); [left; reflexivity|].
  unfold bind, get_json, get_item, abort, raise, ret.
  unfold request_ok in Hreq.
  destruct (json_body req) as [v|]; [|left; reflexivity].
  destruct v as [| | | | | |m]; try (left; reflexivity).
  change (if is_none (dict_get "recipe" m) then dict_get "recipe" m
          else JStr (dumps (dict_get "recipe" m)))
    with (dumped_once (dict_get "recipe" m)).
  unfold insert.
  match goal with |- context [columns ?d] =>
    destruct (columns d) as [e|[t r]] eqn:Hcol end; [left; reflexivity|].
  destruct (title_taken t tb); [left; reflexivity|].
  right. apply columns_inr in Hcol. destruct Hcol as [_ Hrecipe].
  cbn [recipe] in Hrecipe. apply dumped_recipe in Hrecipe.
  destruct Hrecipe as [-> _].
  cbv beta iota zeta. unfold query_first. cbn [id].
  unfold rows_with_id. rewrite filter_app.
  change (filter (fun r1 : Row => (row_id r1 =? next_id tb)%Z) tb)
    with (rows_with_id (next_id tb) tb).
  rewrite next_id_fresh. cbn [filter row_id app]. rewrite Z.eqb_refl.
  cbn [hd_error option_map]. unfold lift, long. cbn [load recipe row_recipe].
  rewrite (loads_dumps _ (wf_dict_get "recipe" m Hreq)).
  eexists. reflexivity.
Qed.

Lemma patched_recipe_loads (t x : json) (r0 : Row) (t' rc : string) :
  decodable r0 = true ->
  columns (patched t (dumped_once x) (load r0)) = inr (t', rc) ->
  exists v, loads rc = Some v.
Proof.
  intros Hdec Hcol. apply columns_inr in Hcol. destruct Hcol as [_ Hrecipe].
  unfold patched in Hrecipe.
  destruct (is_none (dumped_once x)).
  - assert (Hold : recipe (load r0) = JStr rc).
    { destruct (is_none t); exact Hrecipe. }
    cbn [load recipe] in Hold. injection Hold as <-.
    unfold decodable in Hdec. destruct (loads (row_recipe r0)) as [v|];
      [eauto | discriminate].
  - cbn [recipe] in Hrecipe. injection Hrecipe as <-.
    eexists. apply loads_dumps. unfold dumped_once.
    destruct x; try exact I; apply dumps_text_ok.
Qed.

Lemma update_drink_view_all_or_nothing (i : Z) (payload : ClaimSet)
    (req : Request) (tb : Table) :
  forallb decodable tb = true ->
  all_or_nothing (update_drink_view i payload req) tb.
Proof.
  intros Hall. unfold all_or_nothing.
  destruct (json_body req) as [v|] eqn:Hbody.
  2: { left. unfold update_drink_view, bind, get_json, abort, raise.
       rewrite Hbody. reflexivity. }
  destruct (truthy v) eqn:Htruthy.
  2: { left. rewrite update_drink_view_no_data;
         [reflexivity | unfold no_data; rewrite Hbody, Htruthy; reflexivity]. }
  destruct v as [|b|z|x|s|l|m];
    try (left; rewrite (update_drink_view_not_dict _ _ _ _ _ Hbody Htruthy);
         [reflexivity | intros m'; discriminate]).
  destruct (rows_with_id i tb) as [|r0 [|r1 rest]] eqn:Hrows;
    try (left;
         destruct (update_drink_view_not_one i payload req tb m
                     Hbody Htruthy) as (e & -> & _);
         [rewrite Hrows; intros r; discriminate | reflexivity]).
  rewrite (update_drink_view_run _ _ _ _ _ _ Hbody Htruthy Hrows).
  destruct (update_cases
              (patched (dict_get "title" m)
                 (dumped_once (dict_get "recipe" m)) (load r0)) tb)
    as [(e & Hupd & _)|(j & t & rc & _ & Hcol & _ & Hupd)];
    rewrite Hupd; [left; reflexivity|].
  right.
  assert (Hin : In r0 tb).
  { apply (rows_with_id_member i r0 tb). rewrite Hrows. left. reflexivity. }
  destruct (patched_recipe_loads _ _ r0 t rc
              (proj1 (forallb_forall decodable tb) Hall r0 Hin) Hcol)
    as [v Hv].
  apply columns_inr in Hcol. destruct Hcol as [_ Hrecipe].
  unfold long. rewrite Hrecipe, Hv. eexists. reflexivity.
Qed.

Lemma delete_drink_view_all_or_nothing (i : Z) (payload : ClaimSet)
    (req : Request) (tb : Table) :
  all_or_nothing (delete_drink_view i payload req) tb.
Proof.
  unfold all_or_nothing, delete_drink_view, bind, abort, raise, ret,
    query_one_or_none, delete.
  destruct (rows_with_id i tb) as [|r0 [|r1 rest]]; try (left; reflexivity).
  right. eexists. reflexivity.
Qed.

Lemma dispatch_all_or_nothing (req : Request) (tb : Table) :
  table_ok tb -> request_ok req ->
  all_or_nothing (dispatch_request verify req) tb.
Proof.
  intros [_ Hall] Hreq. unfold all_or_nothing, dispatch_request.
  destruct (path req) as [| |i|], (method req);
    try (left; reflexivity).
  - left. apply (reads_keep_table (mkClaims EmptyString None 0)).
  - unfold add_drinks.
    destruct (authorize verify "post:drinks" req) as [e|payload] eqn:Hauth.
    + rewrite (requires_auth_fail _ _ _ _ _ _ Hauth). left. reflexivity.
    + rewrite (requires_auth_pass _ _ _ _ _ _ Hauth).
      apply add_drinks_view_all_or_nothing, Hreq.
  - unfold get_drink_details.
    destruct (authorize verify "get:drinks-detail" req) as [e|payload]
      eqn:Hauth.
    + rewrite (requires_auth_fail _ _ _ _ _ _ Hauth). left. reflexivity.
    + rewrite (requires_auth_pass _ _ _ _ _ _ Hauth). left.
      apply (reads_keep_table payload).
  - unfold update_drink.
    destruct (authorize verify "patch:drinks" req) as [e|payload] eqn:Hauth.
    + rewrite (requires_auth_fail _ _ _ _ _ _ Hauth). left. reflexivity.
    + rewrite (requires_auth_pass _ _ _ _ _ _ Hauth).
      apply update_drink_view_all_or_nothing, Hall.
  - unfold delete_drink.
    destruct (authorize verify "delete:drinks" req) as [e|payload] eqn:Hauth.
    + rewrite (requires_auth_fail _ _ _ _ _ _ Hauth). left. reflexivity.
    + rewrite (requires_auth_pass _ _ _ _ _ _ Hauth).
      apply delete_drink_view_all_or_nothing.
Qed.

(** X10. All or nothing: on a table with unique ids whose recipes
    deserialize, a request whose body is a Python value and whose answer
    is not 200 has left the table exactly as it was. *)
Theorem failed_requests_change_nothing (req : Request) (tb : Table) :
  table_ok tb -> request_ok req ->
  status (fst (full_dispatch_request verify req tb)) <> 200 ->
  snd (full_dispatch_request verify req tb) = tb.
Proof.
  intros Htb Hreq Hstatus. rewrite full_dispatch_request_table.
  destruct (dispatch_all_or_nothing req tb Htb Hreq) as [H|[v Hv]];
    [exact H|].
  exfalso. apply Hstatus. unfold full_dispatch_request.
  destruct (dispatch_request verify req tb) as [[e|[r|]] tb'];
    simpl in Hv; try discriminate Hv.
  injection Hv as ->. reflexivity.
Qed.

(** *** A PATCH of the title, a PATCH of the recipe *)

(** X11. A PATCH whose body has a title and no recipe, for the id of one
    drink whose stored recipe deserializes, with a title no other drink
    holds: the answer is 200 with the long form under the new title and
    the stored recipe, and the row has the new title and the recipe text
    it had. *)
Theorem update_drink_title_only (req : Request) (tb : Table) (i : N)
    (payload : ClaimSet) (m : list (string * json)) (t : string) (r : Row)
    (v : json) :
  method req = PATCH -> path req = DrinksId i ->
  authorize verify "patch:drinks" req = inr payload ->
  json_body req = Some (JObj m) ->
  dict_get "title" m = JStr t -> dict_get "recipe" m = JNull ->
  rows_with_id (Z.of_N i) tb = [r] ->
  loads (row_recipe r) = Some v ->
  title_taken t (others (Z.of_N i) tb) = false ->
  full_dispatch_request verify req tb =
    (mkResponse 200
       (JsonBody
          (JObj [("success", JBool true);
                 ("drinks",
                  JArr [JObj [("id", JNum (Z.of_N i)); ("title", JStr t);
                              ("recipe", v)]])])),
     replace_row (mkRow (Z.of_N i) t (row_recipe r)) tb).
Proof.
  intros Hm Hp Hauth Hbody Htitle Hrecipe Hrows Hv Htaken.
  assert (Htruthy : truthy (JObj m) = true).
  { destruct m; [discriminate Htitle | reflexivity]. }
  assert (Hid : row_id r = Z.of_N i).
  { apply (rows_with_id_member (Z.of_N i) r tb). rewrite Hrows.
    left. reflexivity. }
  unfold full_dispatch_request.
  rewrite (patch_dispatch verify req tb i Hm Hp). unfold update_drink.
  rewrite (requires_auth_pass _ _ _ _ _ _ Hauth).
  rewrite (update_drink_view_run _ _ _ _ _ _ Hbody Htruthy Hrows).
  rewrite Htitle, Hrecipe. unfold patched, dumped_once. cbn [is_none].
  unfold update, columns. cbn [id load title recipe]. rewrite Hid, Htaken.
  unfold long, id_value. cbn [recipe id title]. rewrite Hv.
  reflexivity.
Qed.

Lemma replace_row_member (new r0 : Row) (tb : Table) :
  In r0 tb -> row_id r0 = row_id new -> In new (replace_row new tb).
Proof.
  intros Hin Hid. unfold replace_row. apply in_map_iff. exists r0.
  split; [|exact Hin]. rewrite Hid, Z.eqb_refl. reflexivity.
Qed.

(** X12. The text stays: after a PATCH that sent a recipe and answered
    200, a GET of [/drinks-detail] lists the drink with the serialized
    recipe, a string, as its recipe. *)
Theorem patched_recipe_is_listed_as_text (patch get : Request) (tb : Table)
    (i : N) (m : list (string * json)) (r : json) (p2 : ClaimSet) :
  table_ok tb ->
  method patch = PATCH -> path patch = DrinksId i ->
  status (fst (full_dispatch_request verify patch tb)) = 200 ->
  json_body patch = Some (JObj m) ->
  dict_get "recipe" m = r -> is_none r = false ->
  method get = GET -> path get = DrinksDetail ->
  authorize verify "get:drinks-detail" get = inr p2 ->
  exists t drinks,
    full_dispatch_request verify get
      (snd (full_dispatch_request verify patch tb)) =
      (mkResponse 200
         (JsonBody (JObj [("success", JBool true); ("drinks", JArr drinks)])),
       snd (full_dispatch_request verify patch tb)) /\
    In (JObj [("id", JNum (Z.of_N i)); ("title", JStr t);
              ("recipe", JStr (dumps r))]) drinks.
Proof.
  intros Htb Hm Hp H200 Hbody Hrecipe Hsome Hm' Hp' Hauth'.
  destruct (update_drink_success verify patch tb i Hm Hp H200)
    as (payload & m' & r0 & t & rc & l & _ & Hbody' & Hrows & Hcol & _
        & Hfull).
  rewrite Hbody in Hbody'. injection Hbody' as <-.
  rewrite Hfull. cbn [snd].
  assert (Hin : In r0 tb /\ row_id r0 = Z.of_N i).
  { apply (rows_with_id_member (Z.of_N i) r0 tb). rewrite Hrows.
    left. reflexivity. }
  destruct Hin as [Hin Hid].
  assert (Hrc : rc = dumps (JStr (dumps r))).
  { apply columns_inr in Hcol. destruct Hcol as [_ Hrec].
    unfold patched, dumped_once in Hrec. rewrite Hrecipe, Hsome in Hrec.
    cbn [is_none recipe] in Hrec. injection Hrec as <-. reflexivity. }
  subst rc.
  assert (Hv : loads (dumps (JStr (dumps r))) = Some (JStr (dumps r))).
  { apply (loads_dumps (JStr (dumps r)) (dumps_text_ok r)). }
  assert (Hok : table_ok
                  (replace_row (mkRow (row_id r0) t (dumps (JStr (dumps r))))
                     tb)).
  { apply replace_row_ok; [exact Htb|]. unfold decodable.
    cbn [row_recipe]. rewrite Hv. reflexivity. }
  destruct (get_drink_details_run verify get _ p2 Hm' Hp' Hauth' (proj2 Hok))
    as (drinks & Hget & Hlisted).
  exists t, drinks. split; [exact Hget|]. rewrite <- Hid.
  apply (Hlisted (mkRow (row_id r0) t (dumps (JStr (dumps r))))
           (JStr (dumps r))); [|exact Hv].
  apply (replace_row_member _ r0 tb Hin). reflexivity.
Qed.

(** *** The statuses of the application *)

Lemma expected_ret {A : Type} (a : A) : raises_expected (ret a).
Proof. intros tb e tb' H. discriminate H. Qed.

Lemma expected_raise {A : Type} (e : exn) :
  expected e = true -> raises_expected (@raise Table A e).
Proof. intros He tb e' tb' [= <- _]. exact He. Qed.

Lemma expected_bind {A B : Type} (c : M Table A) (k : A -> M Table B) :
  raises_expected c -> (forall a, raises_expected (k a)) ->
  raises_expected (bind c k).
Proof.
  intros Hc Hk tb e tb'. unfold bind.
  destruct (c tb) as [[e'|a] tb1] eqn:Hrun.
  - intros [= <- _]. apply (Hc tb e' tb1 Hrun).
  - apply Hk.
Qed.

Lemma expected_lift {A : Type} (r : result A) :
  (forall e, r = inl e -> expected e = true) -> raises_expected (lift r).
Proof. intros Hr tb e tb' [= -> _]. apply Hr. reflexivity. Qed.

Lemma long_expected (d : Drink) (e : exn) :
  long d = inl e -> expected e = true.
Proof.
  unfold long. destruct (recipe d); try (intros [= <-]; reflexivity).
  destruct (loads s); intros [= <-]. reflexivity.
Qed.

Lemma short_expected (d : Drink) (e : exn) :
  short d = inl e -> expected e = true.
Proof.
  unfold short. destruct (recipe d); try (intros [= <-]; reflexivity).
  destruct (loads s) as [v|]; [|intros [= <-]; reflexivity].
  destruct v; try (intros [= <-]; reflexivity).
  destruct (traverse short_entry items) as [e'|es] eqn:Htr; [|discriminate].
  intros [= <-]. destruct (traverse_error _ _ _ Htr) as (x & _ & Hx).
  unfold short_entry in Hx. destruct x; try (injection Hx as <-; reflexivity).
  destruct (dict_has "color" members && dict_has "parts" members);
    [discriminate Hx | injection Hx as <-; reflexivity].
Qed.

Lemma traverse_expected {A B : Type} (f : A -> result B) (l : list A) :
  (forall x e, f x = inl e -> expected e = true) ->
  forall e, traverse f l = inl e -> expected e = true.
Proof.
  intros Hf e Htr. destruct (traverse_error _ _ _ Htr) as (x & _ & Hx).
  apply (Hf x e Hx).
Qed.

Lemma columns_expected (d : Drink) (e : exn) :
  columns d = inl e -> expected e = true.
Proof.
  unfold columns. destruct (title d), (recipe d); intros [= <-]; reflexivity.
Qed.

Lemma insert_expected (d : Drink) : raises_expected (insert d).
Proof.
  intros tb e tb'. unfold insert.
  destruct (columns d) as [e'|[t r]] eqn:Hcol.
  - intros [= <- _]. apply (columns_expected d e' Hcol).
  - destruct (title_taken t tb); [intros [= <- _]; reflexivity|discriminate].
Qed.

Lemma update_expected (d : Drink) : raises_expected (update d).
Proof.
  intros tb e tb'. unfold update.
  destruct (id d); [|intros [= <- _]; reflexivity].
  destruct (columns d) as [e'|[t r]] eqn:Hcol.
  - intros [= <- _]. apply (columns_expected d e' Hcol).
  - destruct (title_taken t (others z tb));
      [intros [= <- _]; reflexivity|discriminate].
Qed.

Lemma delete_expected (d : Drink) : raises_expected (delete d).
Proof.
  intros tb e tb'. unfold delete.
  destruct (id d); [discriminate | intros [= <- _]; reflexivity].
Qed.

Lemma query_one_or_none_expected (i : Z) :
  raises_expected (query_one_or_none i).
Proof.
  intros tb e tb'. unfold query_one_or_none.
  destruct (rows_with_id i tb) as [|r0 [|r1 rest]]; try discriminate.
  intros [= <- _]. reflexivity.
Qed.

Lemma get_json_expected (req : Request) :
  raises_expected (@get_json Table req).
Proof.
  intros tb e tb'. unfold get_json.
  destruct (json_body req); [discriminate|]. intros [= <- _]. reflexivity.
Qed.

Lemma get_item_expected (d : json) (key : string) :
  raises_expected (@get_item Table d key).
Proof.
  intros tb e tb'. unfold get_item.
  destruct d; intros H; inversion H; reflexivity.
Qed.

Lemma guard_expected {A : Type} (permission : string)
    (f : ClaimSet -> Request -> M Table A) (req : Request) :
  (forall payload, raises_expected (f payload req)) ->
  raises_expected (requires_auth verify permission f req).
Proof.
  intros Hf. unfold requires_auth. apply expected_bind; [|intros a; apply Hf].
  apply expected_lift. intros e He.
  destruct (authorize_error _ _ _ _ He) as [k ->]. reflexivity.
Qed.

Lemma get_drinks_expected (req : Request) : raises_expected (get_drinks req).
Proof.
  unfold get_drinks. apply expected_bind.
  - intros tb e tb' H. discriminate H.
  - intros drinks. apply expected_bind; [|intros ?; apply expected_ret].
    apply expected_lift. apply traverse_expected. apply short_expected.
Qed.

Lemma get_drink_details_expected (payload : ClaimSet) (req : Request) :
  raises_expected (get_drink_details_view payload req).
Proof.
  unfold get_drink_details_view. apply expected_bind.
  - intros tb e tb' H. discriminate H.
  - intros drinks. apply expected_bind; [|intros ?; apply expected_ret].
    apply expected_lift. apply traverse_expected. apply long_expected.
Qed.

Lemma add_drinks_expected (payload : ClaimSet) (req : Request) :
  raises_expected (add_drinks_view payload req).
Proof.
  unfold add_drinks_view. destruct (data req); [apply expected_ret|].
  apply expected_bind; [apply get_json_expected | intros body].
  apply expected_bind; [apply get_item_expected | intros title].
  apply expected_bind; [apply get_item_expected | intros recipe].
  apply expected_bind; [apply insert_expected | intros created].
  apply expected_bind.
  - intros tb e tb'. unfold query_first. destruct (id created); discriminate.
  - intros [found|]; [|apply expected_raise; reflexivity].
    apply expected_bind; [|intros ?; apply expected_ret].
    apply expected_lift. apply long_expected.
Qed.

Lemma update_drink_expected (i : Z) (payload : ClaimSet) (req : Request) :
  raises_expected (update_drink_view i payload req).
Proof.
  unfold update_drink_view.
  apply expected_bind; [apply get_json_expected | intros body].
  apply expected_bind.
  { destruct (negb (truthy body));
      [apply expected_raise; reflexivity | apply expected_ret]. }
  intros _.
  apply expected_bind; [apply get_item_expected | intros title].
  apply expected_bind; [apply get_item_expected | intros recipe].
  apply expected_bind; [apply query_one_or_none_expected | intros found].
  destruct found as [drink|]; [|apply expected_raise; reflexivity].
  apply expected_bind; [apply update_expected | intros _].
  apply expected_bind; [|intros ?; apply expected_ret].
  apply expected_lift. apply long_expected.
Qed.

Lemma delete_drink_expected (i : Z) (payload : ClaimSet) (req : Request) :
  raises_expected (delete_drink_view i payload req).
Proof.
  unfold delete_drink_view.
  apply expected_bind; [apply query_one_or_none_expected | intros found].
  destruct found as [drink|]; [|apply expected_raise; reflexivity].
  apply expected_bind; [apply delete_expected | intros _].
  apply expected_ret.
Qed.

Lemma dispatch_request_expected (req : Request) :
  raises_expected (dispatch_request verify req).
Proof.
  unfold dispatch_request.
  destruct (path req), (method req);
    try (apply expected_raise; reflexivity);
    try apply get_drinks_expected;
    unfold add_drinks, get_drink_details, update_drink, delete_drink;
    apply guard_expected; intros payload;
    auto using get_drink_details_expected, add_drinks_expected,
      update_drink_expected, delete_drink_expected.
Qed.

Lemma expected_status (e : exn) :
  expected e = true -> In (status (handle_exception e)) statuses.
Proof.
  unfold statuses. destruct e as [code|k| | | | | | |]; simpl;
    try (intros _; tauto).
  intros H.
  repeat (apply orb_true_iff in H; destruct H as [H|H]);
    apply Z.eqb_eq in H; subst code; simpl; tauto.
Qed.

(** X13. The application answers with one of eight statuses: 200, 400,
    401, 403, 404, 405, 409 and 500.  In particular no request is ever
    answered 422: nothing reaches the handler registered for it. *)
Theorem responses_have_known_statuses (req : Request) (tb : Table) :
  In (status (fst (full_dispatch_request verify req tb))) statuses /\
  status (fst (full_dispatch_request verify req tb)) <> 422.
Proof.
  assert (H : In (status (fst (full_dispatch_request verify req tb)))
                statuses).
  { unfold full_dispatch_request.
    destruct (dispatch_request verify req tb) as [[e|[r|]] tb'] eqn:Hd;
      cbn [fst].
    - apply expected_status. apply (dispatch_request_expected req tb e tb' Hd).
    - destruct (dispatch_request_json verify req tb r tb' Hd) as [v ->].
      left. reflexivity.
    - apply expected_status. reflexivity. }
  split; [exact H|]. intros H422. rewrite H422 in H.
  unfold statuses in H. simpl in H. intuition discriminate.
Qed.

(** *** Reachable tables *)

(** X14. Every table the application reaches by serving requests whose
    bodies are Python values, one after the other, from a table with
    unique ids whose stored recipes deserialize (the empty table is one)
    has unique ids and stored recipes that deserialize. *)
Theorem served_tables_are_well_formed (reqs : list Request) (tb : Table) :
  table_ok tb -> Forall request_ok reqs -> table_ok (serve verify reqs tb).
Proof.
  revert tb. induction reqs as [|req reqs IH]; intros tb Htb Hreqs.
  - exact Htb.
  - inversion Hreqs as [|? ? Hreq Hrest]; subst. cbn [serve].
    apply IH; [|exact Hrest]. apply table_ok_step; assumption.
Qed.

(** *** The list of details *)

Lemma insert_sorted_perm (r : Row) (l : list Row) :
  Permutation (insert_sorted r l) (r :: l).
Proof.
  induction l as [|x l IH]; simpl; [apply Permutation_refl|].
  destruct (row_id r <=? row_id x)%Z; [apply Permutation_refl|].
  apply Permutation_trans with (x :: r :: l);
    [apply perm_skip, IH | apply perm_swap].
Qed.

Lemma sort_by_id_perm (tb : Table) : Permutation (sort_by_id tb) tb.
Proof.
  unfold sort_by_id. induction tb as [|r tb IH]; simpl;
    [apply Permutation_refl|].
  apply Permutation_trans with (r :: fold_right insert_sorted [] tb);
    [apply insert_sorted_perm | apply perm_skip, IH].
Qed.

Lemma increasing_cons (i j : Z) (rest : list Z) :
  increasing (i :: j :: rest) = ((i <=? j)%Z && increasing (j :: rest))%bool.
Proof. reflexivity. Qed.

Lemma insert_sorted_increasing (r : Row) (l : list Row) :
  increasing (map row_id l) = true ->
  increasing (map row_id (insert_sorted r l)) = true.
Proof.
  induction l as [|x l IH]; intros Hl; [reflexivity|].
  cbn [insert_sorted].
  destruct (Z.leb_spec (row_id r) (row_id x)) as [Hle|Hgt].
  - cbn [map]. rewrite increasing_cons. apply andb_true_iff. split;
      [apply Z.leb_le, Hle | exact Hl].
  - destruct l as [|y l'].
    + cbn [insert_sorted map]. rewrite increasing_cons.
      apply andb_true_iff. split; [apply Z.leb_le; lia | reflexivity].
    + cbn [map] in Hl. rewrite increasing_cons in Hl.
      apply andb_true_iff in Hl. destruct Hl as [Hxy Hl].
      specialize (IH Hl). cbn [insert_sorted] in *.
      destruct (row_id r <=? row_id y)%Z; cbn [map] in *;
        rewrite increasing_cons; apply andb_true_iff; split;
        try exact IH; try exact Hxy; apply Z.leb_le; lia.
Qed.

Lemma sort_by_id_increasing (tb : Table) :
  increasing (map row_id (sort_by_id tb)) = true.
Proof.
  unfold sort_by_id. induction tb as [|r tb IH]; [reflexivity|].
  cbn [fold_right]. apply insert_sorted_increasing, IH.
Qed.

Lemma traverse_long_all (rows : list Row) :
  forallb decodable rows = true ->
  traverse long (map load rows) = inr (map long_of_row rows).
Proof.
  induction rows as [|x rows IH]; simpl; intros Hall; [reflexivity|].
  apply andb_true_iff in Hall. destruct Hall as [Hx Hrows].
  rewrite (IH Hrows). unfold long, long_of_row, recipe_value, decodable in *.
  cbn [load recipe]. destruct (loads (row_recipe x)); [reflexivity|].
  discriminate Hx.
Qed.

(** X15. On a table whose stored recipes deserialize, a GET of
    [/drinks-detail] under its permission answers 200 with the long form
    of every drink of the table, each once, in increasing order of id;
    the table is unchanged. *)
Theorem drink_details_are_complete_and_sorted (req : Request) (tb : Table)
    (payload : ClaimSet) :
  method req = GET -> path req = DrinksDetail ->
  authorize verify "get:drinks-detail" req = inr payload ->
  forallb decodable tb = true ->
  full_dispatch_request verify req tb =
    (mkResponse 200
       (JsonBody
          (JObj [("success", JBool true);
                 ("drinks", JArr (map long_of_row (sort_by_id tb)))])),
     tb) /\
  Permutation (sort_by_id tb) tb /\
  increasing (map row_id (sort_by_id tb)) = true.
Proof.
  intros Hm Hp Hauth Hall. split; [|split].
  - assert (Hsorted : forallb decodable (sort_by_id tb) = true).
    { apply forallb_forall. intros x Hx.
      apply (proj1 (forallb_forall decodable tb) Hall).
      apply (proj1 (sort_by_id_In x tb)), Hx. }
    unfold full_dispatch_request, dispatch_request. rewrite Hm, Hp.
    unfold get_drink_details. rewrite (requires_auth_pass _ _ _ _ _ _ Hauth).
    unfold get_drink_details_view, bind, query_order_by_id, lift, ret.
    rewrite (traverse_long_all _ Hsorted). reflexivity.
  - apply sort_by_id_perm.
  - apply sort_by_id_increasing.
Qed.

End More.

(** ** The sample deployment, again *)

Lemma menu_ok : table_ok Demo.menu.
Proof. split; [exact menu_ids_distinct | vm_compute; reflexivity]. Defined.

Lemma water_wf : wf Demo.water.
Proof.
  simpl. repeat split; repeat constructor; simpl; intuition discriminate.
Defined.

Lemma get_requests_keep_the_table_witness :
  snd (full_dispatch_request Demo.verify get_details Demo.menu) = Demo.menu.
Proof.
  apply (get_requests_keep_the_table Demo.verify get_details Demo.menu).
  reflexivity.
Defined.

Lemma get_drinks_is_public_witness :
  full_dispatch_request Demo.verify
    (with_authorization Demo.as_manager get_menu) Demo.menu =
    full_dispatch_request Demo.verify get_menu Demo.menu /\
  (status (fst (full_dispatch_request Demo.verify get_menu Demo.menu)) = 200 \/
   status (fst (full_dispatch_request Demo.verify get_menu Demo.menu)) = 500).
Proof.
  apply (get_drinks_is_public Demo.verify Demo.verify Demo.as_manager
           get_menu Demo.menu); reflexivity.
Defined.

Lemma refused_request_is_not_served_witness :
  (exists k, AuthError Unauthorized = AuthError k) /\
  dispatch_request Demo.verify delete_as_barista Demo.menu =
    (inl (AuthError Unauthorized), Demo.menu) /\
  snd (full_dispatch_request Demo.verify delete_as_barista Demo.menu) =
    Demo.menu /\
  status (fst (full_dispatch_request Demo.verify delete_as_barista Demo.menu))
    <> 200.
Proof.
  apply (refused_request_is_not_served Demo.verify delete_as_barista
           Demo.menu (AuthError Unauthorized)); reflexivity.
Defined.

Lemma deleted_drink_is_gone_witness :
  full_dispatch_request Demo.verify delete_water Demo.menu =
    (mkResponse 200
       (JsonBody (JObj [("success", JBool true); ("delete", JNum 1)])), []) /\
  exists_id 1 [] = false /\
  full_dispatch_request Demo.verify delete_water [] =
    (mkResponse 404
       (JsonBody (JObj [("success", JBool false); ("error", JNum 404);
                        ("message", JStr "resource not found")])), []).
Proof.
  apply (deleted_drink_is_gone Demo.verify delete_water delete_water
           Demo.menu 1%N Demo.manager Demo.manager);
    try reflexivity. exact menu_ids_distinct.
Defined.

Lemma create_then_delete_restores_witness :
  full_dispatch_request Demo.verify Demo.post_latte Demo.menu =
    (jsonify (success_drinks [long_form 2 "Latte" Demo.milk]),
     Demo.menu ++ [mkRow 2 "Latte" (dumps Demo.milk)]) /\
  full_dispatch_request Demo.verify delete_latte
    (Demo.menu ++ [mkRow 2 "Latte" (dumps Demo.milk)]) =
    (jsonify (JObj [("success", JBool true); ("delete", JNum 2)]), Demo.menu).
Proof.
  apply (create_then_delete_restores Demo.verify Demo.post_latte delete_latte
           Demo.menu 2%N Demo.manager Demo.manager
           [("title", JStr "Latte"); ("recipe", Demo.milk)] "Latte" Demo.milk);
    try reflexivity.
  - discriminate.
  - exact milk_wf.
Defined.

Lemma add_drinks_body_not_a_dict_witness :
  full_dispatch_request Demo.verify post_list Demo.menu =
    (mkResponse 500 DefaultPage, Demo.menu).
Proof.
  apply (add_drinks_body_not_a_dict Demo.verify post_list Demo.menu
           Demo.manager (JArr [JStr "Latte"])); try reflexivity.
  - discriminate.
  - intros m. discriminate.
Defined.

Lemma update_drink_body_not_a_dict_witness :
  full_dispatch_request Demo.verify patch_list Demo.menu =
    (mkResponse 500 DefaultPage, Demo.menu).
Proof.
  apply (update_drink_body_not_a_dict Demo.verify patch_list Demo.menu 1%N
           Demo.manager (JArr [JStr "Latte"])); try reflexivity.
  intros m. discriminate.
Defined.

Lemma update_drink_absent_id_is_404_witness :
  full_dispatch_request Demo.verify patch_absent Demo.menu =
    (mkResponse 404
       (JsonBody (JObj [("success", JBool false); ("error", JNum 404);
                        ("message", JStr "resource not found")])),
     Demo.menu).
Proof.
  apply (update_drink_absent_id_is_404 Demo.verify patch_absent Demo.menu 7%N
           Demo.manager [("title", JStr "Aqua")]); try reflexivity.
  discriminate.
Defined.

Lemma patch_absent_ok : request_ok patch_absent.
Proof.
  simpl. repeat split; repeat constructor; simpl; intuition discriminate.
Defined.

Lemma failed_requests_change_nothing_witness :
  snd (full_dispatch_request Demo.verify patch_absent Demo.menu) = Demo.menu.
Proof.
  apply (failed_requests_change_nothing Demo.verify patch_absent Demo.menu
           menu_ok patch_absent_ok).
  vm_compute. discriminate.
Defined.

Lemma update_drink_title_only_witness :
  full_dispatch_request Demo.verify Demo.patch_title Demo.menu =
    (mkResponse 200
       (JsonBody
          (JObj [("success", JBool true);
                 ("drinks",
                  JArr [JObj [("id", JNum 1); ("title", JStr "Aqua");
                              ("recipe", Demo.water)]])])),
     [mkRow 1 "Aqua" (dumps Demo.water)]).
Proof.
  apply (update_drink_title_only Demo.verify Demo.patch_title Demo.menu 1%N
           Demo.manager [("title", JStr "Aqua")] "Aqua" Demo.water_row
           Demo.water); reflexivity.
Defined.

Lemma patched_recipe_is_listed_as_text_witness :
  exists t drinks,
    full_dispatch_request Demo.verify get_details
      (snd (full_dispatch_request Demo.verify Demo.patch_recipe Demo.menu)) =
      (mkResponse 200
         (JsonBody (JObj [("success", JBool true); ("drinks", JArr drinks)])),
       snd (full_dispatch_request Demo.verify Demo.patch_recipe Demo.menu)) /\
    In (JObj [("id", JNum 1); ("title", JStr t);
              ("recipe", JStr (dumps Demo.milk))]) drinks.
Proof.
  apply (patched_recipe_is_listed_as_text Demo.verify Demo.patch_recipe
           get_details Demo.menu 1%N [("recipe", Demo.milk)] Demo.milk
           Demo.barista menu_ok); reflexivity.
Defined.

Lemma served_tables_are_well_formed_witness :
  table_ok
    (serve Demo.verify [Demo.post_latte; Demo.patch_title; delete_water]
       Demo.menu).
Proof.
  apply (served_tables_are_well_formed Demo.verify
           [Demo.post_latte; Demo.patch_title; delete_water] Demo.menu
           menu_ok).
  repeat constructor; simpl; repeat split; repeat constructor; simpl;
    intuition discriminate.
Defined.

Lemma drink_details_are_complete_and_sorted_witness :
  full_dispatch_request Demo.verify get_details Demo.menu =
    (mkResponse 200
       (JsonBody
          (JObj [("success", JBool true);
                 ("drinks", JArr (map long_of_row (sort_by_id Demo.menu)))])),
     Demo.menu) /\
  Permutation (sort_by_id Demo.menu) Demo.menu /\
  increasing (map row_id (sort_by_id Demo.menu)) = true.
Proof.
  apply (drink_details_are_complete_and_sorted Demo.verify get_details
           Demo.menu Demo.barista); reflexivity.
Defined.

End ExtraFacts.
